(** * d2go/export/api.py: exporting a pytorch model to a predictor

    A shallow embedding of [d2go.export.api]: the conversion entry point
    [convert_and_export_predictor], the dispatch [export_predictor], the
    default exporter [default_export_predictor] with its helper
    [_export_single_model], and the [ModelExportMethodRegistry] with the
    export methods registered at import time.

    The module is glue code.  What it calls (torch, fuse_utils, PathManager,
    the model's own methods) is kept behind the [Collaborators] interface;
    every call made to a collaborator, every log record and every file
    system operation is appended to the trace of the [World]. *)

From Stdlib Require Import String Ascii List Bool ZArith Lia.
From stdpp Require Import base option list gmap strings.

Import ListNotations.
Set Warnings "-register-all,-clear-no-such-hyp".
Local Open Scope string_scope.
Local Open Scope list_scope.

(** ** Python strings *)

Module PyStr.

(** [s.startswith(p)] *)
Fixpoint startswith (p s : string) : bool :=
  match p, s with
  | EmptyString, _ => true
  | String _ _, EmptyString => false
  | String a p', String b s' => if Ascii.eqb a b then startswith p' s' else false
  end.

(** [s.endswith(c)] for a one character suffix. *)
Fixpoint endswith_char (c : ascii) (s : string) : bool :=
  match s with
  | EmptyString => false
  | String a EmptyString => Ascii.eqb a c
  | String _ t => endswith_char c t
  end.

(** [needle in hay] on two strings: [needle] starts at some position of
    [hay]. *)
Fixpoint contains (needle hay : string) : bool :=
  startswith needle hay ||
  match hay with
  | EmptyString => false
  | String _ t => contains needle t
  end.

(** [s.split(c)]: always at least one piece. *)
Fixpoint split (c : ascii) (s : string) : list string :=
  match s with
  | EmptyString => [EmptyString]
  | String a t =>
      if Ascii.eqb a c then EmptyString :: split c t
      else match split c t with
           | [] => [String a EmptyString]
           | piece :: rest => String a piece :: rest
           end
  end.

(** [sep.join(pieces)] *)
Fixpoint join (sep : string) (pieces : list string) : string :=
  match pieces with
  | [] => EmptyString
  | [x] => x
  | x :: rest => x +:+ sep +:+ join sep rest
  end.

(** Truthiness of a string: [bool(s)]. *)
Definition truthy (s : string) : bool :=
  match s with EmptyString => false | _ => true end.

(** The claim's wording of [in]: the needle occurs somewhere in the
    string. *)
Definition occurs_in (needle hay : string) : Prop :=
  exists before after, hay = before +:+ needle +:+ after.

End PyStr.

(** ** posixpath *)

Module PosixPath.

Definition sep : ascii := "/"%char.
Definition curdir : string := ".".
Definition pardir : string := "..".

Definition isabs (s : string) : bool := PyStr.startswith "/" s.

(** One step of the loop of [posixpath.join(a, *p)]. *)
Definition join2 (path b : string) : string :=
  if PyStr.startswith "/" b then b
  else if negb (PyStr.truthy path) || PyStr.endswith_char sep path then path +:+ b
  else path +:+ "/" +:+ b.

(** [os.path.join(a, *p)] *)
Definition join (a : string) (p : list string) : string :=
  fold_left join2 p a.

(** The loop body of [normpath] over the components, [new_comps] being
    the list built so far. *)
Definition normpath_step (initial_slashes : nat) (new_comps : list string)
    (comp : string) : list string :=
  if bool_decide (comp = "") || bool_decide (comp = ".") then new_comps
  else if negb (bool_decide (comp = ".."))
          || (bool_decide (initial_slashes = 0) && bool_decide (new_comps = []))
          || (negb (bool_decide (new_comps = []))
              && bool_decide (last new_comps = Some ".."))
  then new_comps ++ [comp]
  else removelast new_comps.

(** [os.path.normpath(path)] *)
Definition normpath (path : string) : string :=
  if negb (PyStr.truthy path) then "."
  else
    let initial_slashes :=
      if PyStr.startswith "/" path then
        if PyStr.startswith "//" path && negb (PyStr.startswith "///" path)
        then 2 else 1
      else 0 in
    let comps := fold_left (normpath_step initial_slashes) (PyStr.split sep path) [] in
    let path' := PyStr.join "/" comps in
    let path' := (match initial_slashes with
                  | 0 => "" | 1 => "/" | _ => "//" end) +:+ path' in
    if PyStr.truthy path' then path' else ".".

(** [os.path.abspath(path)], [cwd] being [os.getcwd()]. *)
Definition abspath (cwd path : string) : string :=
  if isabs path then normpath path else normpath (join2 cwd path).

(** [os.path.commonprefix([l1, l2])] on two lists of components. *)
Fixpoint commonprefix (l1 l2 : list string) : list string :=
  match l1, l2 with
  | x :: l1', y :: l2' => if bool_decide (x = y) then x :: commonprefix l1' l2' else []
  | _, _ => []
  end.

(** [[x for x in abspath(p).split(sep) if x]] *)
Definition components (cwd p : string) : list string :=
  filter (fun x => PyStr.truthy x = true) (PyStr.split sep (abspath cwd p)).

(** [os.path.relpath(path, start)]; [None] stands for the [ValueError]
    raised on an empty [path]. *)
Definition relpath (cwd path start : string) : option string :=
  if negb (PyStr.truthy path) then None
  else
    let start_list := components cwd start in
    let path_list := components cwd path in
    let i := length (commonprefix start_list path_list) in
    let rel_list := replicate (length start_list - i) pardir ++ drop i path_list in
    match rel_list with
    | [] => Some curdir
    | a :: p => Some (join a p)
    end.

End PosixPath.


(** ** Python dicts

    A dict keeps its keys in insertion order and [items()] walks them in
    that order, so a dict with string keys is a list of pairs with no key
    twice. *)

Module PyDict.

Definition t (V : Type) : Type := list (string * V).

Definition keys {V} (d : t V) : list string := map fst d.
Definition items {V} (d : t V) : list (string * V) := d.

(** [d.get(k)] *)
Fixpoint get {V} (k : string) (d : t V) : option V :=
  match d with
  | [] => None
  | (k', v) :: rest => if bool_decide (k' = k) then Some v else get k rest
  end.

(** [d[k] = v]: an old key keeps its place, a new one goes last. *)
Fixpoint set {V} (k : string) (v : V) (d : t V) : t V :=
  match d with
  | [] => [(k, v)]
  | (k', v') :: rest =>
      if bool_decide (k' = k) then (k, v) :: rest else (k', v') :: set k v rest
  end.

(** [k in d] *)
Definition mem {V} (k : string) (d : t V) : bool :=
  match get k d with Some _ => true | None => false end.

(** [bool(d)] *)
Definition truthy {V} (d : t V) : bool :=
  match d with [] => false | _ => true end.

(** What makes a list of pairs a dict. *)
Definition wf {V} (d : t V) : Prop := NoDup (keys d).

End PyDict.

(** ** Objects and values *)

(** The objects given as models, the batches of the data loader and the
    tensors traced through a model are opaque: an object is its identity,
    and what it does is answered by the [Collaborators] below. *)
Inductive Model : Type := ModelObj (id : nat).
Inductive Batch : Type := BatchObj (id : nat).
Inductive Tensor : Type := TensorObj (id : nat).

(** A data loader is iterated afresh by [iter(data_loader)]: the sequence of
    its batches. *)
Definition DataLoader : Type := list Batch.

(** The values found in [model_export_kwargs]. *)
Inductive pyval : Type :=
| PyNone
| PyBool (b : bool)
| PyString (s : string)
| PyObject (id : nat)
| PyMapping (items : list (string * pyval)).

(** The sample inputs made by [data_generator]: the positional arguments of
    one model, or a dict of these with the structure of [model]. *)
Inductive InputArgs : Type :=
| ArgsTuple (xs : list Tensor)
| ArgsDict (items : list (string * InputArgs)).

(** The part of [cfg] this module reads. *)
Record CfgNode : Type := {
  QUANTIZATION_QAT_ENABLED : bool;
  QUANTIZATION_BACKEND : string;
  QUANTIZATION_EAGER_MODE : bool;
}.

(** ** Exceptions *)

Inductive pykey : Type := KeyStr (s : string) | KeyInt (z : Z).

(** [AssertionError] carries the message operand of the [assert] that
    failed, which in this module is the offending object or nothing.  The
    specification names failures by their cause: its TypeConstraintError is
    the failed [assert isinstance(..)], its UnsupportedOperationError the
    failed [assert hasattr(..)], its AssertionFailure the failed assertion
    of the quantization path, and its KeyNotFoundError a [KeyError], from a
    dict or from the registry.  [DuplicateKeyError] is the registry's
    refusal of a second registration. *)
Inductive exception : Type :=
| AssertionError (payload : option Model)
| KeyError (key : pykey)
| TypeError
| ValueError
| IndexError
| StopIteration
| DuplicateKeyError (key : string)
| RuntimeError (what : string).

Inductive result (A : Type) : Type :=
| Ok (a : A)
| Raise (e : exception).
Arguments Ok {A} a.
Arguments Raise {A} e.

(** ** mobile_cv.predictor.api *)

Inductive json : Type :=
| JNull
| JString (s : string)
| JObject (members : list (string * json)).

(** Modelled from the spec: [FuncInfo], [ModelInfo] and [PredictorInfo] are
    declared in mobile_cv.predictor.api, which is not part of this module.
    A function descriptor is a function reference plus a parameter mapping;
    a Model Info is a relative path and a type tag; a Predictor Info has
    either a single Model Info ([model]) or a mapping from name to Model
    Info ([models]), plus the three function descriptors, and its JSON
    object has the key of whichever of the two is set. *)
Record FuncInfo : Type := { func_name : string; func_params : json }.

Record ModelInfo : Type := { path : string; type : string }.

Record PredictorInfo : Type := {
  pi_model : option ModelInfo;
  pi_models : option (PyDict.t ModelInfo);
  pi_preprocess_info : FuncInfo;
  pi_postprocess_info : FuncInfo;
  pi_run_func_info : FuncInfo;
}.

Definition FuncInfo_to_dict (f : FuncInfo) : json :=
  JObject [("name", JString (func_name f)); ("params", func_params f)].

Definition ModelInfo_to_dict (mi : ModelInfo) : json :=
  JObject [("path", JString (path mi)); ("type", JString (type mi))].

Definition PredictorInfo_to_dict (p : PredictorInfo) : json :=
  JObject
    (match pi_model p with
     | Some mi => [("model", ModelInfo_to_dict mi)]
     | None => []
     end ++
     match pi_models p with
     | Some d => [("models", JObject (map (fun '(k, mi) => (k, ModelInfo_to_dict mi)) d))]
     | None => []
     end ++
     [("preprocess_info", FuncInfo_to_dict (pi_preprocess_info p));
      ("postprocess_info", FuncInfo_to_dict (pi_postprocess_info p));
      ("run_func_info", FuncInfo_to_dict (pi_run_func_info p))]).

(** The keyword arguments collected in [predictor_init_kwargs]. *)
Inductive InitArg : Type :=
| ArgFuncInfo (f : FuncInfo)
| ArgModelInfo (mi : ModelInfo)
| ArgModelsInfo (d : PyDict.t ModelInfo).

(** [PredictorInfo] built from the keywords of [predictor_init_kwargs]:
    [model] and [models] are optional, the three descriptors are taken from
    the keywords. *)
Definition PredictorInfo_new (kwargs : PyDict.t InitArg) : result PredictorInfo :=
  match PyDict.get "preprocess_info" kwargs,
        PyDict.get "postprocess_info" kwargs,
        PyDict.get "run_func_info" kwargs with
  | Some (ArgFuncInfo pre), Some (ArgFuncInfo post), Some (ArgFuncInfo run) =>
      Ok {| pi_model := match PyDict.get "model" kwargs with
                        | Some (ArgModelInfo mi) => Some mi
                        | _ => None
                        end;
            pi_models := match PyDict.get "models" kwargs with
                         | Some (ArgModelsInfo d) => Some d
                         | _ => None
                         end;
            pi_preprocess_info := pre;
            pi_postprocess_info := post;
            pi_run_func_info := run |}
  | _, _, _ => Raise TypeError
  end.

(** ** PredictorExportConfig *)

(** [model: Union[nn.Module, Dict[str, nn.Module]]] *)
Inductive ModelField : Type :=
| SingleModel (m : Model)
| ModelDict (d : PyDict.t Model).

(** [Union[str, Dict[str, str]]], the type of a given
    [model_export_method]. *)
Inductive MethodField : Type :=
| MethodStr (s : string)
| MethodDict (d : PyDict.t string).

Record PredictorExportConfig : Type := {
  model : ModelField;
  data_generator : option (Batch -> result InputArgs);
  model_export_method : option MethodField;
  model_export_kwargs : option (PyDict.t pyval);
  preprocess_info : FuncInfo;
  postprocess_info : FuncInfo;
  run_func_info : FuncInfo;
}.

(** ** The export-method registry *)

(** The classes registered by this module, and any class registered by
    other code, known by its identity. *)
Inductive ExportMethod : Type :=
| DefaultCaffe2Export
| DefaultTorchscriptExport
| DefaultTorchscriptMobileExport
| CustomExport (id : nat).

Module Registry.

(** Modelled from the spec: the class [Registry] of
    mobile_cv.common.misc.registry is not part of this module.
    [register(key, impl)] inserts or overrides (if override is explicitly
    permitted) a mapping from a string key to an implementation;
    duplicate registration without override permission fails with a
    DuplicateKeyError.  [get(key)] returns the implementation or fails
    with a KeyNotFoundError (a [KeyError]) if absent. *)
Record t : Type := {
  name : string;
  allow_override : bool;
  obj_map : gmap string ExportMethod;
}.

Definition new (name : string) (allow_override : bool) : t :=
  {| name := name; allow_override := allow_override; obj_map := ∅ |}.

Definition register (key : string) (impl : ExportMethod) (r : t) : result t :=
  match obj_map r !! key with
  | Some _ =>
      if allow_override r
      then Ok {| name := name r; allow_override := allow_override r;
                 obj_map := <[key := impl]> (obj_map r) |}
      else Raise (DuplicateKeyError key)
  | None =>
      Ok {| name := name r; allow_override := allow_override r;
            obj_map := <[key := impl]> (obj_map r) |}
  end.

Definition get (key : string) (r : t) : result ExportMethod :=
  match obj_map r !! key with
  | Some impl => Ok impl
  | None => Raise (KeyError (KeyStr key))
  end.

(** A run of [register] calls, stopping at the first that fails. *)
Fixpoint register_all (l : list (string * ExportMethod)) (r : t) : result t :=
  match l with
  | [] => Ok r
  | (key, impl) :: rest =>
      match register key impl r with
      | Ok r' => register_all rest r'
      | Raise e => Raise e
      end
  end.

End Registry.

(** The [@ModelExportMethodRegistry.register(...)] decorators of the module
    in the order they run: class by class, and for one class from the
    decorator nearest to it outwards. *)
Definition module_registrations : list (string * ExportMethod) :=
  [ ("caffe2", DefaultCaffe2Export);
    ("torchscript_int8@scripting", DefaultTorchscriptExport);
    ("torchscript_int8@tracing", DefaultTorchscriptExport);
    ("torchscript_int8", DefaultTorchscriptExport);
    ("torchscript@scripting", DefaultTorchscriptExport);
    ("torchscript@tracing", DefaultTorchscriptExport);
    ("torchscript", DefaultTorchscriptExport);
    ("torchscript_mobile_int8", DefaultTorchscriptMobileExport);
    ("torchscript_mobile", DefaultTorchscriptMobileExport) ].

(** [Registry("ModelExportMethod", allow_override=True)], the registry
    before any registration. *)
Definition ModelExportMethodRegistry_new : Registry.t :=
  Registry.new "ModelExportMethod" true.

(** The import of the module: the registry is made, then the decorators run. *)
Definition ModelExportMethodRegistry_import : result Registry.t :=
  Registry.register_all module_registrations ModelExportMethodRegistry_new.

(** [ModelExportMethodRegistry] as the import leaves it. *)
Definition ModelExportMethodRegistry : Registry.t :=
  match ModelExportMethodRegistry_import with
  | Ok r => r
  | Raise _ => ModelExportMethodRegistry_new
  end.

(** ** The world *)

Inductive LogLevel : Type := INFO | WARNING.

(** What the module does to the outside, one event per call. *)
Inductive Event : Type :=
| Log (level : LogLevel) (msg : string)
| PostTrainingQuantize (cfg : CfgNode) (m : Model) (data_loader : DataLoader)
| QuantizationConvert (m : Model)
| PrepareForQuantConvert (m : Model) (cfg : CfgNode)
| ConvertFx (m : Model)
| FuseModel (m : Model)
| ModelExportPredictor (m : Model) (cfg : CfgNode) (predictor_type output_dir : string)
    (data_loader : DataLoader)
| IterNext (data_loader : DataLoader)
| PrepareForExport (m : Model) (cfg : CfgNode) (inputs : Batch) (predictor_type : string)
| DataGenerator (inputs : Batch)
| ExportCaffe2 (m : Model) (x : Tensor) (save_path : string) (kwargs : PyDict.t pyval)
| TraceAndSaveTorchscript (m : Model) (input_args : option InputArgs) (save_path : string)
    (mobile_optimization : bool) (kwargs : PyDict.t pyval)
| CustomExportCall (id : nat) (m : Model) (input_args : option InputArgs)
    (save_path : string) (kwargs : PyDict.t pyval)
| Mkdirs (path : string)
| WriteJson (path : string) (content : json).

Record World : Type := {
  cwd : string;                      (* os.getcwd() *)
  registry : Registry.t;             (* ModelExportMethodRegistry *)
  dirs : gset string;                (* made by PathManager.mkdirs *)
  files : gmap string json;          (* written through PathManager.open *)
  trace : list Event;                (* oldest first *)
}.

Definition record_event (ev : Event) (w : World) : World :=
  {| cwd := cwd w; registry := registry w; dirs := dirs w; files := files w;
     trace := trace w ++ [ev] |}.

(** ** Collaborators *)

(** The code this module calls and does not define.  An outcome may depend
    on the world the call is made in. *)
Class Collaborators : Type := {
  (* builtins on the model object *)
  isinstance_Module : Model -> bool;
  hasattr : Model -> string -> bool;
  format_model : Model -> string;
  (* d2go.modeling.quantization, torch.quantization, fuse_utils *)
  post_training_quantize : World -> CfgNode -> Model -> DataLoader -> result Model;
  quantization_convert : World -> Model -> result Model;
  convert_fx : World -> Model -> result Model;
  check_bn_exist : Model -> bool;
  fuse_model : World -> Model -> result Model;
  count_bn_exist : Model -> nat;
  (* methods of the model *)
  model_prepare_for_quant_convert : World -> Model -> CfgNode -> result Model;
  model_export_predictor :
    World -> Model -> CfgNode -> string -> string -> DataLoader -> result string;
  model_prepare_for_export :
    World -> Model -> CfgNode -> Batch -> string -> result PredictorExportConfig;
  (* d2go.export.caffe2, d2go.export.torchscript, classes registered elsewhere *)
  export_caffe2 : World -> Model -> Tensor -> string -> PyDict.t pyval -> result unit;
  trace_and_save_torchscript :
    World -> Model -> option InputArgs -> string -> bool -> PyDict.t pyval -> result unit;
  custom_export :
    World -> nat -> Model -> option InputArgs -> string -> PyDict.t pyval -> result pyval;
}.

(** ** Computations: a world passed along, an exception or a value *)

Definition M (A : Type) : Type := World -> result A * World.

Definition raise {A} (e : exception) : M A := fun w => (Raise e, w).

#[global] Instance M_ret : MRet M := fun A a w => (Ok a, w).
#[global] Instance M_bind : MBind M :=
  fun A B k c w =>
    match c w with
    | (Ok a, w') => k a w'
    | (Raise e, w') => (Raise e, w')
    end.

(** A value or an exception that does not touch the world. *)
Definition lift {A} (r : result A) : M A := fun w => (r, w).

(** A call to a collaborator: the call is recorded, its outcome is the one
    the collaborator gives in the world of the call. *)
Definition call {A} (ev : Event) (outcome : World -> result A) : M A :=
  fun w => (outcome w, record_event ev w).

(** [assert cond, payload] *)
Definition assert_ (cond : bool) (payload : option Model) : M unit :=
  if cond then mret tt else raise (AssertionError payload).

(** [logger.info(msg)], [logger.warning(msg)] *)
Definition logger_info (msg : string) : M unit := call (Log INFO msg) (fun _ => Ok tt).
Definition logger_warning (msg : string) : M unit := call (Log WARNING msg) (fun _ => Ok tt).

(** [PathManager.mkdirs(path)] *)
Definition PathManager_mkdirs (p : string) : M unit :=
  fun w => (Ok tt,
            record_event (Mkdirs p)
              {| cwd := cwd w; registry := registry w; dirs := {[p]} ∪ dirs w;
                 files := files w; trace := trace w |}).

(** [with PathManager.open(path, "w") as f: json.dump(content, f, indent=4)] *)
Definition PathManager_write (p : string) (content : json) : M unit :=
  fun w => (Ok tt,
            record_event (WriteJson p content)
              {| cwd := cwd w; registry := registry w; dirs := dirs w;
                 files := <[p := content]> (files w); trace := trace w |}).

(** [next(iter(data_loader))]: a fresh iterator gives the first batch, or
    is exhausted at once. *)
Definition next_iter (data_loader : DataLoader) : M Batch :=
  call (IterNext data_loader)
       (fun _ => match data_loader with
                 | [] => Raise StopIteration
                 | batch :: _ => Ok batch
                 end).

(** [os.path.relpath(path, start)] *)
Definition os_path_relpath (p start : string) : M string :=
  fun w => match PosixPath.relpath (cwd w) p start with
           | Some rel => (Ok rel, w)
           | None => (Raise ValueError, w)
           end.

Definition newline : string := String (ascii_of_nat 10) EmptyString.

(** ** Subscripts, truthiness and keyword arguments *)

(** [model_inputs[name]] *)
Definition InputArgs_getitem (model_inputs : InputArgs) (name : string) : M InputArgs :=
  match model_inputs with
  | ArgsDict d =>
      match PyDict.get name d with
      | Some x => mret x
      | None => raise (KeyError (KeyStr name))
      end
  | ArgsTuple _ => raise TypeError
  end.

(** [export_config.model_export_method[name]]: a dict gives the value at
    the key, a str cannot be indexed by a name. *)
Definition MethodField_getitem (m : MethodField) (name : string) : M MethodField :=
  match m with
  | MethodDict d =>
      match PyDict.get name d with
      | Some s => mret (MethodStr s)
      | None => raise (KeyError (KeyStr name))
      end
  | MethodStr _ => raise TypeError
  end.

(** [export_config.model_export_kwargs[name]] *)
Definition kwargs_getitem (kw : PyDict.t pyval) (name : string) : M pyval :=
  match PyDict.get name kw with
  | Some v => mret v
  | None => raise (KeyError (KeyStr name))
  end.

(** [export_config.model_export_method or predictor_type] *)
Definition method_or (m : option MethodField) (predictor_type : string) : MethodField :=
  match m with
  | None => MethodStr predictor_type
  | Some (MethodStr s) => if PyStr.truthy s then MethodStr s else MethodStr predictor_type
  | Some (MethodDict d) => if PyDict.truthy d then MethodDict d else MethodStr predictor_type
  end.

(** [export_config.model_export_kwargs or {}] *)
Definition kwargs_or (kw : option (PyDict.t pyval)) : pyval :=
  match kw with
  | None => PyMapping []
  | Some d => if PyDict.truthy d then PyMapping d else PyMapping []
  end.

(** [f(k1=.., k2=.., **kwargs)]: [kwargs] has to be a mapping, and may not
    give again a keyword written out in the call. *)
Definition unpack_kwargs (explicit : list string) (kwargs : pyval) : M (PyDict.t pyval) :=
  match kwargs with
  | PyMapping d =>
      if existsb (fun k => PyDict.mem k d) explicit then raise TypeError else mret d
  | _ => raise TypeError
  end.

(** [isinstance(load_kwargs, dict)] *)
Definition isinstance_dict (v : pyval) : bool :=
  match v with PyMapping _ => true | _ => false end.

Section Api.

Context `{Collaborators}.

(** ** The registered export methods *)

(** [DefaultCaffe2Export.export] *)
Definition DefaultCaffe2Export_export (model : Model) (input_args : option InputArgs)
    (save_path : string) (export_kwargs : PyDict.t pyval) : M pyval :=
  x ← match input_args with
      | None => raise TypeError
      | Some (ArgsTuple []) => raise IndexError
      | Some (ArgsTuple (x :: _)) => mret x
      | Some (ArgsDict _) => raise (KeyError (KeyInt 0))
      end;
  call (ExportCaffe2 model x save_path export_kwargs)
       (fun w => export_caffe2 w model x save_path export_kwargs);;
  mret (PyMapping []).

(** [DefaultTorchscriptExport.export] *)
Definition DefaultTorchscriptExport_export (model : Model) (input_args : option InputArgs)
    (save_path : string) (export_kwargs : PyDict.t pyval) : M pyval :=
  call (TraceAndSaveTorchscript model input_args save_path false export_kwargs)
       (fun w => trace_and_save_torchscript w model input_args save_path false export_kwargs);;
  mret (PyMapping []).

(** [DefaultTorchscriptMobileExport.export] *)
Definition DefaultTorchscriptMobileExport_export (model : Model)
    (input_args : option InputArgs) (save_path : string)
    (export_kwargs : PyDict.t pyval) : M pyval :=
  export_kwargs ← unpack_kwargs ["mobile_optimization"] (PyMapping export_kwargs);
  call (TraceAndSaveTorchscript model input_args save_path true export_kwargs)
       (fun w => trace_and_save_torchscript w model input_args save_path true export_kwargs);;
  mret (PyMapping []).

(** [impl.export(model=.., input_args=.., save_path=.., **kwargs)] *)
Definition ExportMethod_export (impl : ExportMethod) (model : Model)
    (input_args : option InputArgs) (save_path : string)
    (kwargs : PyDict.t pyval) : M pyval :=
  match impl with
  | DefaultCaffe2Export => DefaultCaffe2Export_export model input_args save_path kwargs
  | DefaultTorchscriptExport =>
      DefaultTorchscriptExport_export model input_args save_path kwargs
  | DefaultTorchscriptMobileExport =>
      DefaultTorchscriptMobileExport_export model input_args save_path kwargs
  | CustomExport id =>
      call (CustomExportCall id model input_args save_path kwargs)
           (fun w => custom_export w id model input_args save_path kwargs)
  end.

(** [ModelExportMethodRegistry.get(model_export_method)]; a dict is not
    hashable and cannot be looked up. *)
Definition ModelExportMethodRegistry_get (model_export_method : MethodField)
    : M ExportMethod :=
  match model_export_method with
  | MethodStr key => fun w => (Registry.get key (registry w), w)
  | MethodDict _ => raise TypeError
  end.

(** ** _export_single_model *)

Definition _export_single_model (predictor_path : string) (model : Model)
    (input_args : option InputArgs) (save_path : string)
    (model_export_method : MethodField) (model_export_kwargs : pyval)
    (predictor_type : string) : M ModelInfo :=
  assert_ (isinstance_Module model) (Some model);;
  impl ← ModelExportMethodRegistry_get model_export_method;
  kwargs ← unpack_kwargs ["model"; "input_args"; "save_path"] model_export_kwargs;
  load_kwargs ← ExportMethod_export impl model input_args save_path kwargs;
  assert_ (isinstance_dict load_kwargs) None;;
  model_rel_path ← os_path_relpath save_path predictor_path;
  mret {| path := model_rel_path; type := predictor_type |}.

(** ** default_export_predictor *)

(** [model_inputs[name] if model_inputs is not None else None] *)
Definition named_input_args (model_inputs : option InputArgs) (name : string)
    : M (option InputArgs) :=
  match model_inputs with
  | Some mi => x ← InputArgs_getitem mi name; mret (Some x)
  | None => mret None
  end.

(** [predictor_type if export_config.model_export_method is None
     else export_config.model_export_method[name]] *)
Definition named_export_method (export_config : PredictorExportConfig)
    (predictor_type name : string) : M MethodField :=
  match model_export_method export_config with
  | None => mret (MethodStr predictor_type)
  | Some m => MethodField_getitem m name
  end.

(** [{} if export_config.model_export_kwargs is None
     else export_config.model_export_kwargs[name]] *)
Definition named_export_kwargs (export_config : PredictorExportConfig)
    (name : string) : M pyval :=
  match model_export_kwargs export_config with
  | None => mret (PyMapping [])
  | Some kw => kwargs_getitem kw name
  end.

(** The body of [for name, model in export_config.model.items()], for one
    pair; the arguments of the call are evaluated in the order they are
    written. *)
Definition export_named_model (export_config : PredictorExportConfig)
    (model_inputs : option InputArgs) (predictor_path predictor_type : string)
    (name : string) (model : Model) : M ModelInfo :=
  let save_path := PosixPath.join2 predictor_path name in
  input_args ← named_input_args model_inputs name;
  method ← named_export_method export_config predictor_type name;
  kwargs ← named_export_kwargs export_config name;
  _export_single_model predictor_path model input_args save_path method kwargs
    predictor_type.

(** The loop over [export_config.model.items()], [models_info] being the
    dict filled so far. *)
Fixpoint export_named_models (export_config : PredictorExportConfig)
    (model_inputs : option InputArgs) (predictor_path predictor_type : string)
    (items : list (string * Model)) (models_info : PyDict.t ModelInfo)
    : M (PyDict.t ModelInfo) :=
  match items with
  | [] => mret models_info
  | (name, model) :: rest =>
      model_info ← export_named_model export_config model_inputs predictor_path
                     predictor_type name model;
      export_named_models export_config model_inputs predictor_path predictor_type
        rest (PyDict.set name model_info models_info)
  end.

Definition default_export_predictor (cfg : CfgNode) (pytorch_model : Model)
    (predictor_type output_dir : string) (data_loader : DataLoader) : M string :=
  assert_ (hasattr pytorch_model "prepare_for_export") (Some pytorch_model);;
  inputs ← next_iter data_loader;
  export_config ← call (PrepareForExport pytorch_model cfg inputs predictor_type)
                    (fun w => model_prepare_for_export w pytorch_model cfg inputs
                                predictor_type);
  model_inputs ← match data_generator export_config with
                 | Some g => x ← call (DataGenerator inputs) (fun _ => g inputs);
                             mret (Some x)
                 | None => mret None
                 end;
  let predictor_path := PosixPath.join2 output_dir predictor_type in
  PathManager_mkdirs predictor_path;;
  let predictor_init_kwargs : PyDict.t InitArg :=
    [ ("preprocess_info", ArgFuncInfo (preprocess_info export_config));
      ("postprocess_info", ArgFuncInfo (postprocess_info export_config));
      ("run_func_info", ArgFuncInfo (run_func_info export_config)) ] in
  predictor_init_kwargs ←
    match model export_config with
    | ModelDict d =>
        models_info ← export_named_models export_config model_inputs predictor_path
                        predictor_type (PyDict.items d) [];
        mret (PyDict.set "models" (ArgModelsInfo models_info) predictor_init_kwargs)
    | SingleModel m =>
        let save_path := predictor_path in
        model_info ← _export_single_model predictor_path m model_inputs save_path
                       (method_or (model_export_method export_config) predictor_type)
                       (kwargs_or (model_export_kwargs export_config))
                       predictor_type;
        mret (PyDict.set "model" (ArgModelInfo model_info) predictor_init_kwargs)
    end;
  predictor_info ← lift (PredictorInfo_new predictor_init_kwargs);
  PathManager_write (PosixPath.join2 predictor_path "predictor_info.json")
    (PredictorInfo_to_dict predictor_info);;
  mret predictor_path.

(** ** export_predictor *)

Definition export_predictor (cfg : CfgNode) (pytorch_model : Model)
    (predictor_type output_dir : string) (data_loader : DataLoader) : M string :=
  if hasattr pytorch_model "export_predictor" then
    call (ModelExportPredictor pytorch_model cfg predictor_type output_dir data_loader)
         (fun w => model_export_predictor w pytorch_model cfg predictor_type output_dir
                     data_loader)
  else
    default_export_predictor cfg pytorch_model predictor_type output_dir data_loader.

(** ** convert_and_export_predictor *)

Definition convert_and_export_predictor (cfg : CfgNode) (pytorch_model : Model)
    (predictor_type output_dir : string) (data_loader : DataLoader) : M string :=
  pytorch_model ←
    (if PyStr.contains "int8" predictor_type then
       pytorch_model ←
         (if negb (QUANTIZATION_QAT_ENABLED cfg) then
            logger_info ("The model is not quantized during training, running post"
                         +:+ " training quantization ...");;
            pytorch_model ← call (PostTrainingQuantize cfg pytorch_model data_loader)
                              (fun w => post_training_quantize w cfg pytorch_model
                                          data_loader);
            assert_ (negb (check_bn_exist pytorch_model)) None;;
            mret pytorch_model
          else mret pytorch_model);
       logger_info ("Converting quantized model " +:+ QUANTIZATION_BACKEND cfg +:+ "...");;
       pytorch_model ←
         (if QUANTIZATION_EAGER_MODE cfg then
            call (QuantizationConvert pytorch_model)
                 (fun w => quantization_convert w pytorch_model)
          else if hasattr pytorch_model "prepare_for_quant_convert" then
            call (PrepareForQuantConvert pytorch_model cfg)
                 (fun w => model_prepare_for_quant_convert w pytorch_model cfg)
          else
            call (ConvertFx pytorch_model) (fun w => convert_fx w pytorch_model));
       logger_info ("Quantized Model:" +:+ newline +:+ format_model pytorch_model);;
       mret pytorch_model
     else
       pytorch_model ← call (FuseModel pytorch_model) (fun w => fuse_model w pytorch_model);
       logger_info ("Fused Model:" +:+ newline +:+ format_model pytorch_model);;
       (if bool_decide (0 < count_bn_exist pytorch_model) then
          logger_warning "BN existed in pytorch model after fusing."
        else mret tt);;
       mret pytorch_model);
  export_predictor cfg pytorch_model predictor_type output_dir data_loader.

End Api.

(** ** The specification's reading of the export method of a sub-model *)

(** The method of one sub-model as the specification words it: the
    per-model mapping value if [model_export_method] is itself a mapping,
    else the single value, else [predictor_type]. *)
Definition spec_named_export_method (model_export_method : option MethodField)
    (predictor_type name : string) : option string :=
  match model_export_method with
  | Some (MethodDict d) => PyDict.get name d
  | Some (MethodStr s) => Some s
  | None => Some predictor_type
  end.

(** ** Reading a trace *)

(** Where an export call saves. *)
Definition export_save_path (ev : Event) : option string :=
  match ev with
  | ExportCaffe2 _ _ p _ => Some p
  | TraceAndSaveTorchscript _ _ p _ _ => Some p
  | CustomExportCall _ _ _ p _ => Some p
  | _ => None
  end.

Definition export_save_paths (evs : list Event) : list string :=
  omap export_save_path evs.

(** The messages logged at level WARNING. *)
Definition warning_of (ev : Event) : option string :=
  match ev with
  | Log WARNING msg => Some msg
  | _ => None
  end.

Definition warnings (evs : list Event) : list string := omap warning_of evs.

Definition record_events (evs : list Event) (w : World) : World :=
  {| cwd := cwd w; registry := registry w; dirs := dirs w; files := files w;
     trace := trace w ++ evs |}.

(** The conversion call made on the int8 path. *)
Definition conversion_call `{Collaborators} (cfg : CfgNode) (m : Model) : Event :=
  if QUANTIZATION_EAGER_MODE cfg then QuantizationConvert m
  else if hasattr m "prepare_for_quant_convert" then PrepareForQuantConvert m cfg
  else ConvertFx m.

(** What one event does to the file system. *)
Definition apply_event (ev : Event) (w : World) : World :=
  match ev with
  | Mkdirs p =>
      {| cwd := cwd w; registry := registry w; dirs := {[p]} ∪ dirs w;
         files := files w; trace := trace w ++ [ev] |}
  | WriteJson p content =>
      {| cwd := cwd w; registry := registry w; dirs := dirs w;
         files := <[p := content]> (files w); trace := trace w ++ [ev] |}
  | _ => record_event ev w
  end.

Definition play (evs : list Event) (w : World) : World :=
  fold_left (fun w ev => apply_event ev w) evs w.

Definition fs_event (ev : Event) : bool :=
  match ev with
  | Mkdirs _ | WriteJson _ _ => true
  | _ => false
  end.

(** [emits P c]: whatever [c] returns or raises, the world it leaves is the
    one it was run in after some events, each of them in [P]. *)
Definition emits {A} (P : Event -> Prop) (c : M A) : Prop :=
  forall w, exists evs, (c w).2 = play evs w /\ Forall P evs.

(** The events of an export call. *)
Definition export_event (ev : Event) : Prop := is_Some (export_save_path ev).

(** The events of [export_predictor] and of what it calls: all but the
    log records and the calls of the conversion step. *)
Definition exporter_event (ev : Event) : Prop :=
  match ev with
  | Log _ _ | PostTrainingQuantize _ _ _ | QuantizationConvert _
  | PrepareForQuantConvert _ _ | ConvertFx _ | FuseModel _ => False
  | _ => True
  end.

(** The calls of the quantization step. *)
Definition quantization_event (ev : Event) : Prop :=
  match ev with
  | PostTrainingQuantize _ _ _ | QuantizationConvert _
  | PrepareForQuantConvert _ _ | ConvertFx _ => True
  | _ => False
  end.

Definition ptq_message : string :=
  "The model is not quantized during training, running post training quantization ...".

Definition bn_warning : string := "BN existed in pytorch model after fusing.".

(** The three descriptors that [predictor_init_kwargs] starts with. *)
Definition base_init_kwargs (ec : PredictorExportConfig) : PyDict.t InitArg :=
  [ ("preprocess_info", ArgFuncInfo (preprocess_info ec));
    ("postprocess_info", ArgFuncInfo (postprocess_info ec));
    ("run_func_info", ArgFuncInfo (run_func_info ec)) ].

(** The events up to and including the making of the predictor root. *)
Definition prologue (cfg : CfgNode) (pm : Model) (pt od : string) (dl : DataLoader)
    (b : Batch) (ec : PredictorExportConfig) : list Event :=
  [IterNext dl; PrepareForExport pm cfg b pt] ++
  match data_generator ec with Some _ => [DataGenerator b] | None => [] end ++
  [Mkdirs (PosixPath.join2 od pt)].

(** ** A small world to run the exporter in *)

Module Fixture.

Definition plain_model : Model := ModelObj 1.
Definition backbone : Model := ModelObj 2.
Definition head : Model := ModelObj 3.
Definition two_part_model : Model := ModelObj 4.
Definition custom_model : Model := ModelObj 5.
Definition not_a_module : Model := ModelObj 6.
Definition str_method_model : Model := ModelObj 7.
Definition short_method_model : Model := ModelObj 8.
Definition bn_model : Model := ModelObj 9.

Definition func (name : string) : FuncInfo :=
  {| func_name := name; func_params := JObject [] |}.

Definition config (model : ModelField) (method : option MethodField)
    : PredictorExportConfig :=
  {| model := model;
     data_generator := None;
     model_export_method := method;
     model_export_kwargs := None;
     preprocess_info := func "IdentityPreprocess";
     postprocess_info := func "IdentityPostprocess";
     run_func_info := func "NaiveRunFunc" |}.

Definition two_parts : ModelField := ModelDict [("backbone", backbone); ("head", head)].

Definition collaborators : Collaborators := {|
  isinstance_Module m := match m with ModelObj 6 => false | _ => true end;
  hasattr m attr :=
    match m with
    | ModelObj 5 => bool_decide (attr = "export_predictor")
    | ModelObj 6 => false
    | _ => bool_decide (attr = "prepare_for_export")
    end;
  format_model m := match m with ModelObj id => "Model" end;
  post_training_quantize _ _ m _ := Ok m;
  quantization_convert _ m := Ok m;
  convert_fx _ m := Ok m;
  check_bn_exist m := match m with ModelObj 9 => true | _ => false end;
  fuse_model _ m := Ok m;
  count_bn_exist m := match m with ModelObj 9 => 2 | _ => 0 end;
  model_prepare_for_quant_convert _ m _ := Ok m;
  model_export_predictor _ _ _ _ _ _ := Ok "/custom/predictor";
  model_prepare_for_export _ m _ _ _ :=
    match m with
    | ModelObj 4 => Ok (config two_parts None)
    | ModelObj 7 => Ok (config two_parts (Some (MethodStr "torchscript")))
    | ModelObj 8 =>
        Ok (config two_parts (Some (MethodDict [("backbone", "torchscript")])))
    | _ => Ok (config (SingleModel m) None)
    end;
  export_caffe2 _ _ _ _ _ := Ok tt;
  trace_and_save_torchscript _ _ _ _ _ _ := Ok tt;
  custom_export _ _ _ _ _ _ := Ok (PyMapping []);
|}.

Definition cfg : CfgNode :=
  {| QUANTIZATION_QAT_ENABLED := false;
     QUANTIZATION_BACKEND := "qnnpack";
     QUANTIZATION_EAGER_MODE := false |}.

Definition loader : DataLoader := [BatchObj 0; BatchObj 1].

Definition world : World :=
  {| cwd := "/home/user"; registry := ModelExportMethodRegistry; dirs := ∅; files := ∅;
     trace := [] |}.

End Fixture.

(** ** More to read from a run *)

(** The arguments of a call of post training quantization. *)
Definition ptq_call (ev : Event) : option (CfgNode * Model * DataLoader) :=
  match ev with
  | PostTrainingQuantize cfg m dl => Some (cfg, m, dl)
  | _ => None
  end.

Definition ptq_calls (evs : list Event) : list (CfgNode * Model * DataLoader) :=
  omap ptq_call evs.

(** What the conversion call of the int8 path gives back. *)
Definition conversion_outcome `{Collaborators} (cfg : CfgNode) (m : Model) (w : World)
    : result Model :=
  if QUANTIZATION_EAGER_MODE cfg then quantization_convert w m
  else if hasattr m "prepare_for_quant_convert" then model_prepare_for_quant_convert w m cfg
  else convert_fx w m.

Definition converting_message (cfg : CfgNode) : string :=
  "Converting quantized model " +:+ QUANTIZATION_BACKEND cfg +:+ "...".

Definition quantized_message `{Collaborators} (m : Model) : string :=
  "Quantized Model:" +:+ newline +:+ format_model m.

(** The conversion and the export of a model that enters the conversion
    step in world [w]. *)
Definition convert_then_export `{Collaborators} (cfg : CfgNode) (m : Model) (pt od : string)
    (dl : DataLoader) (w : World) : result string * World :=
  let w1 := record_event (Log INFO (converting_message cfg)) w in
  let w2 := record_event (conversion_call cfg m) w1 in
  match conversion_outcome cfg m w1 with
  | Ok m' =>
      export_predictor cfg m' pt od dl (record_event (Log INFO (quantized_message m')) w2)
  | Raise e => (Raise e, w2)
  end.

(** A name that is one plain path component. *)
Definition plain_name (name : string) : bool :=
  negb (bool_decide (name = "")) && negb (bool_decide (name = "."))
  && negb (bool_decide (name = "..")) && negb (PyStr.contains "/" name).

(** A path component: not empty, no separator in it. *)
Definition is_component (c : string) : Prop :=
  c <> "" /\ PyStr.contains "/" c = false.

(** The components [normpath] keeps of an absolute path. *)
Definition canonical_components (s : string) : list string :=
  fold_left (PosixPath.normpath_step 1) (PyStr.split PosixPath.sep s) [].

(** The path [abspath] normalizes: the path itself when absolute, else the
    path joined to the working directory. *)
Definition absolute (cwd p : string) : string :=
  if PosixPath.isabs p then p else PosixPath.join2 cwd p.

(** Where the manifest of a predictor goes. *)
Definition manifest_path (predictor_path : string) : string :=
  PosixPath.join2 predictor_path "predictor_info.json".

(** The Model Infos of sub-models saved under their names. *)
Definition named_infos (predictor_type : string) (names : list string)
    : PyDict.t ModelInfo :=
  map (fun name => (name, {| path := name; type := predictor_type |})) names.

(** An export call made on model [m] with sample inputs [ia] and export
    kwargs [kw], saving to [sp]; the caffe2 back end is given the first of
    the inputs. *)
Definition export_call_of (m : Model) (ia : option InputArgs) (sp : string)
    (kw : PyDict.t pyval) (ev : Event) : Prop :=
  match ev with
  | ExportCaffe2 m' x sp' kw' =>
      m' = m /\ (exists xs, ia = Some (ArgsTuple (x :: xs))) /\ sp' = sp /\ kw' = kw
  | TraceAndSaveTorchscript m' ia' sp' _ kw' => m' = m /\ ia' = ia /\ sp' = sp /\ kw' = kw
  | CustomExportCall _ m' ia' sp' kw' => m' = m /\ ia' = ia /\ sp' = sp /\ kw' = kw
  | _ => False
  end.

(** The sample inputs of the sub-model [name], where there are any. *)
Definition sample_inputs (model_inputs : option InputArgs) (name : string)
    : option InputArgs :=
  match model_inputs with
  | Some (ArgsDict d) => PyDict.get name d
  | _ => None
  end.

(** The export kwargs of the sub-model [name], where there are any. *)
Definition sample_kwargs (export_config : PredictorExportConfig) (name : string)
    : PyDict.t pyval :=
  match model_export_kwargs export_config with
  | Some kw => match PyDict.get name kw with
               | Some (PyMapping dk) => dk
               | _ => []
               end
  | None => []
  end.

(** What [default_export_predictor] does once the predictor root is made:
    export the model or the sub-models, assemble the Predictor Info and
    write the manifest. *)
Definition export_and_assemble `{Collaborators} (export_config : PredictorExportConfig)
    (model_inputs : option InputArgs) (predictor_path predictor_type : string)
    : M string :=
  predictor_init_kwargs ←
    match model export_config with
    | ModelDict d =>
        models_info ← export_named_models export_config model_inputs predictor_path
                        predictor_type (PyDict.items d) [];
        mret (PyDict.set "models" (ArgModelsInfo models_info)
                (base_init_kwargs export_config))
    | SingleModel m =>
        model_info ← _export_single_model predictor_path m model_inputs predictor_path
                       (method_or (model_export_method export_config) predictor_type)
                       (kwargs_or (model_export_kwargs export_config))
                       predictor_type;
        mret (PyDict.set "model" (ArgModelInfo model_info)
                (base_init_kwargs export_config))
    end;
  predictor_info ← lift (PredictorInfo_new predictor_init_kwargs);
  PathManager_write (PosixPath.join2 predictor_path "predictor_info.json")
    (PredictorInfo_to_dict predictor_info);;
  mret predictor_path.

(** A second set of collaborators: a model without batch normalization
    trained quantization aware, and registered export classes that misbehave. *)
Module Fixture2.

Definition collaborators : Collaborators := {|
  isinstance_Module m := true;
  hasattr m attr := bool_decide (attr = "prepare_for_export");
  format_model m := "Model";
  post_training_quantize _ _ m _ := Ok (ModelObj 20);
  quantization_convert _ m := Ok (ModelObj 21);
  convert_fx _ m := Ok (ModelObj 22);
  check_bn_exist m := false;
  fuse_model _ m := Ok m;
  count_bn_exist m := 0;
  model_prepare_for_quant_convert _ m _ := Ok m;
  model_export_predictor _ _ _ _ _ _ := Ok "/custom/predictor";
  model_prepare_for_export _ m _ _ _ := Ok (Fixture.config (SingleModel m) None);
  export_caffe2 _ _ _ _ _ := Ok tt;
  trace_and_save_torchscript _ _ _ _ _ _ := Raise (RuntimeError "tracing failed");
  custom_export _ id _ _ _ _ := match id with 0 => Ok PyNone | _ => Ok (PyMapping []) end;
|}.

Definition qat_cfg : CfgNode :=
  {| QUANTIZATION_QAT_ENABLED := true;
     QUANTIZATION_BACKEND := "fbgemm";
     QUANTIZATION_EAGER_MODE := true |}.

(** A registry where "broken" names a class whose [export] returns [None]
    and "plugin" one whose [export] returns a dict. *)
Definition world : World :=
  {| cwd := "/home/user";
     registry := {| Registry.name := "ModelExportMethod"; Registry.allow_override := true;
                    Registry.obj_map :=
                      <["plugin" := CustomExport 1]>
                        (<["broken" := CustomExport 0]>
                           (Registry.obj_map ModelExportMethodRegistry)) |};
     dirs := ∅; files := ∅; trace := [] |}.

End Fixture2.

(** * Properties *)

(** ** Strings and paths *)

Lemma startswith_spec (p s : string) :
  PyStr.startswith p s = true <-> exists t, s = p +:+ t.
Proof.
  revert s. induction p as [|a p IH]; intros s; simpl.
  - split; [intros _; by exists s | done].
  - destruct s as [|b s].
    + split; [done | intros [t Ht]; discriminate].
    + destruct (Ascii.eqb a b) eqn:E.
      * apply Ascii.eqb_eq in E as ->. rewrite IH. split.
        -- intros [t ->]. by exists t.
        -- intros [t Ht]. injection Ht as ->. by exists t.
      * split; [done |]. intros [t Ht]. injection Ht as -> _.
        by rewrite Ascii.eqb_refl in E.
Qed.

Lemma contains_unfold (needle hay : string) :
  PyStr.contains needle hay =
    PyStr.startswith needle hay ||
    match hay with
    | EmptyString => false
    | String _ t => PyStr.contains needle t
    end.
Proof. by destruct hay. Qed.

(** Python's [needle in hay] is true exactly when [needle] occurs in [hay]. *)
Lemma contains_occurs_in (needle hay : string) :
  PyStr.contains needle hay = true <-> PyStr.occurs_in needle hay.
Proof.
  unfold PyStr.occurs_in. split.
  - induction hay as [|c hay IH]; rewrite contains_unfold; intros Hc.
    + rewrite orb_false_r in Hc. apply startswith_spec in Hc as [t ->].
      by exists "", t.
    + apply orb_true_iff in Hc as [Hc | Hc].
      * apply startswith_spec in Hc as [t ->]. by exists "", t.
      * destruct (IH Hc) as (b & a & ->). by exists (String c b), a.
  - intros (b & a & ->). induction b as [|c b IH]; rewrite contains_unfold.
    + apply orb_true_iff. left. apply startswith_spec. by exists a.
    + simpl. rewrite IH. apply orb_true_r.
Qed.

Lemma commonprefix_self (l : list string) : PosixPath.commonprefix l l = l.
Proof.
  induction l as [|x l IH]; [done |]. simpl.
  rewrite bool_decide_eq_true_2 by done. by rewrite IH.
Qed.

(** A path relative to itself is the current directory, whatever the
    working directory. *)
Lemma relpath_self (cwd p : string) :
  PyStr.truthy p = true -> PosixPath.relpath cwd p p = Some ".".
Proof.
  intros Hp. unfold PosixPath.relpath. rewrite Hp. simpl.
  rewrite commonprefix_self, Nat.sub_diag, drop_all. done.
Qed.

(** The literal shape of a joined path when the second part is a plain
    relative name and the first a plain directory. *)
Lemma join2_plain (dir name : string) :
  PyStr.startswith "/" name = false ->
  PyStr.truthy dir = true ->
  PyStr.endswith_char PosixPath.sep dir = false ->
  PosixPath.join2 dir name = dir +:+ "/" +:+ name.
Proof.
  intros Hn Hd He. unfold PosixPath.join2. by rewrite Hn, Hd, He.
Qed.

Example join2_relative : PosixPath.join2 "out" "torchscript" = "out/torchscript".
Proof. reflexivity. Qed.
Example join2_trailing : PosixPath.join2 "out/" "torchscript" = "out/torchscript".
Proof. reflexivity. Qed.
Example join2_absolute : PosixPath.join2 "out" "/tmp/x" = "/tmp/x".
Proof. reflexivity. Qed.
Example normpath_dots : PosixPath.normpath "/a/./b/../c//d" = "/a/c/d".
Proof. vm_compute. reflexivity. Qed.
Example relpath_sub :
  PosixPath.relpath "/home" "out/torchscript/backbone" "out/torchscript" = Some "backbone".
Proof. vm_compute. reflexivity. Qed.
Example relpath_up :
  PosixPath.relpath "/home" "/tmp/x" "out/torchscript" = Some "../../../tmp/x".
Proof. vm_compute. reflexivity. Qed.
Example contains_int8 : PyStr.contains "int8" "torchscript_int8@tracing" = true.
Proof. reflexivity. Qed.
Example contains_fp32 : PyStr.contains "int8" "caffe2_fp32" = false.
Proof. reflexivity. Qed.

(** ** Dicts *)

Section PyDictFacts.
Context {V : Type}.
Implicit Types (d : PyDict.t V) (k : string) (v : V).

Lemma get_None_keys k d : PyDict.get k d = None <-> k ∉ PyDict.keys d.
Proof.
  induction d as [|[k' v'] d IH]; simpl.
  - split; [intros _; apply not_elem_of_nil | done].
  - case_bool_decide as E.
    + subst. split; [done |]. intros Hn. exfalso. apply Hn. left.
    + rewrite IH. rewrite not_elem_of_cons. naive_solver.
Qed.

Lemma mem_keys k d : PyDict.mem k d = true <-> k ∈ PyDict.keys d.
Proof.
  unfold PyDict.mem. destruct (PyDict.get k d) eqn:E.
  - split; [intros _ | done]. destruct (decide (k ∈ PyDict.keys d)); [done |].
    apply get_None_keys in n. congruence.
  - apply get_None_keys in E. split; [done | intros; contradiction].
Qed.

(** A new key goes last, an old one keeps its place. *)
Lemma keys_set k v d :
  PyDict.keys (PyDict.set k v d) =
    if PyDict.mem k d then PyDict.keys d else PyDict.keys d ++ [k].
Proof.
  unfold PyDict.mem. induction d as [|[k' v'] d IH]; simpl; [done |].
  case_bool_decide as E; simpl.
  - by subst.
  - rewrite IH. by destruct (PyDict.get k d).
Qed.

Lemma keys_set_fresh k v d :
  k ∉ PyDict.keys d -> PyDict.keys (PyDict.set k v d) = PyDict.keys d ++ [k].
Proof.
  intros Hk. rewrite keys_set. apply get_None_keys in Hk.
  unfold PyDict.mem. by rewrite Hk.
Qed.

Lemma set_preserves (P : V -> Prop) k v d :
  P v -> Forall (fun kv => P kv.2) d -> Forall (fun kv => P kv.2) (PyDict.set k v d).
Proof.
  intros Hv. induction 1 as [|[k' v'] d Hx Hd IH]; simpl.
  - by repeat constructor.
  - case_bool_decide; constructor; done.
Qed.

End PyDictFacts.

(** ** Running computations *)

Lemma bind_run {A B} (c : M A) (k : A -> M B) (w : World) :
  (c ≫= k) w =
    match c w with
    | (Ok a, w') => k a w'
    | (Raise e, w') => (Raise e, w')
    end.
Proof. reflexivity. Qed.

Lemma bind_Ok_inv {A B} (c : M A) (k : A -> M B) (w w' : World) (b : B) :
  (c ≫= k) w = (Ok b, w') ->
  exists a w1, c w = (Ok a, w1) /\ k a w1 = (Ok b, w').
Proof.
  rewrite bind_run. destruct (c w) as [[a|e] w1]; [eauto | discriminate].
Qed.

Lemma bind_Ok_intro {A B} (c : M A) (k : A -> M B) (w w1 : World) (a : A) :
  c w = (Ok a, w1) -> (c ≫= k) w = k a w1.
Proof. intros Hc. by rewrite bind_run, Hc. Qed.

Lemma bind_Raise_intro {A B} (c : M A) (k : A -> M B) (w w1 : World) (e : exception) :
  c w = (Raise e, w1) -> (c ≫= k) w = (Raise e, w1).
Proof. intros Hc. by rewrite bind_run, Hc. Qed.

Lemma assert_Ok_inv (cond : bool) (payload : option Model) (w w' : World) (u : unit) :
  assert_ cond payload w = (Ok u, w') -> cond = true /\ w' = w.
Proof. destruct cond; [by injection 1 | discriminate]. Qed.

(** Runs the binds, calls and log records a goal starts with. *)
Ltac run_steps :=
  cbv beta iota zeta delta
    [mbind M_bind mret M_ret call logger_info logger_warning assert_ raise negb].

(** ** Worlds and events *)

Lemma World_eta (w : World) :
  {| cwd := cwd w; registry := registry w; dirs := dirs w; files := files w;
     trace := trace w |} = w.
Proof. by destruct w. Qed.

Lemma play_app (e1 e2 : list Event) (w : World) :
  play (e1 ++ e2) w = play e2 (play e1 w).
Proof. apply fold_left_app. Qed.

Lemma apply_event_record (ev : Event) (w : World) :
  fs_event ev = false -> apply_event ev w = record_event ev w.
Proof. by destruct ev. Qed.

Lemma files_apply_write (p : string) (content : json) (w : World) :
  files (apply_event (WriteJson p content) w) !! p = Some content.
Proof. simpl. apply lookup_insert_eq. Qed.

Lemma trace_apply_event (ev : Event) (w : World) :
  trace (apply_event ev w) = trace w ++ [ev].
Proof. by destruct ev. Qed.

Lemma trace_record_event (ev : Event) (w : World) :
  trace (record_event ev w) = trace w ++ [ev].
Proof. reflexivity. Qed.

Lemma trace_record_events (evs : list Event) (w : World) :
  trace (record_events evs w) = trace w ++ evs.
Proof. reflexivity. Qed.

Lemma play_trace (evs : list Event) (w : World) : trace (play evs w) = trace w ++ evs.
Proof.
  revert w. induction evs as [|ev evs IH]; intros w; simpl.
  - by rewrite app_nil_r.
  - rewrite IH. destruct ev; simpl; by rewrite <- app_assoc.
Qed.

Section Emits.
Context {A B : Type} (P : Event -> Prop).

Lemma emits_ret (a : A) : emits P (mret a : M A).
Proof. intros w. by exists []. Qed.

Lemma emits_raise (e : exception) : emits P (raise e : M A).
Proof. intros w. by exists []. Qed.

Lemma emits_lift (r : result A) : emits P (lift r).
Proof. intros w. by exists []. Qed.

Lemma emits_bind (c : M A) (k : A -> M B) :
  emits P c -> (forall a, emits P (k a)) -> emits P (c ≫= k).
Proof.
  intros Hc Hk w. rewrite bind_run. destruct (Hc w) as (e1 & Hw1 & HP1).
  destruct (c w) as [[a|e] w1]; simpl in Hw1; subst w1.
  - destruct (Hk a (play e1 w)) as (e2 & Hw2 & HP2).
    exists (e1 ++ e2). rewrite play_app. split; [done | by apply Forall_app].
  - by exists e1.
Qed.

Lemma emits_call (ev : Event) (outcome : World -> result A) :
  P ev -> fs_event ev = false -> emits P (call ev outcome).
Proof.
  intros HP Hfs w. exists [ev]. simpl. rewrite apply_event_record by done.
  split; [done | by constructor].
Qed.

End Emits.

Lemma emits_assert (P : Event -> Prop) (cond : bool) (payload : option Model) :
  emits P (assert_ cond payload).
Proof. destruct cond; [apply emits_ret | apply emits_raise]. Qed.

Lemma emits_mkdirs (P : Event -> Prop) (p : string) :
  P (Mkdirs p) -> emits P (PathManager_mkdirs p).
Proof. intros HP w. exists [Mkdirs p]. split; [done | by constructor]. Qed.

Lemma emits_write (P : Event -> Prop) (p : string) (content : json) :
  P (WriteJson p content) -> emits P (PathManager_write p content).
Proof. intros HP w. exists [WriteJson p content]. split; [done | by constructor]. Qed.

Lemma emits_relpath (P : Event -> Prop) (p start : string) :
  emits P (os_path_relpath p start).
Proof.
  intros w. exists []. unfold os_path_relpath. by destruct (PosixPath.relpath _ _ _).
Qed.

Lemma emits_weaken {A} (P Q : Event -> Prop) (c : M A) :
  (forall ev, P ev -> Q ev) -> emits P c -> emits Q c.
Proof.
  intros HPQ Hc w. destruct (Hc w) as (evs & Hw & HP). exists evs.
  split; [done |]. eapply Forall_impl; eauto.
Qed.

(** ** The registry *)

Lemma register_get (r r' : Registry.t) (key : string) (impl : ExportMethod) :
  Registry.register key impl r = Ok r' ->
  Registry.get key r' = Ok impl /\
  Registry.allow_override r' = Registry.allow_override r /\
  forall k, k <> key -> Registry.get k r' = Registry.get k r.
Proof.
  unfold Registry.register, Registry.get. intros Hreg.
  assert (r' = {| Registry.name := Registry.name r;
                  Registry.allow_override := Registry.allow_override r;
                  Registry.obj_map := <[key := impl]> (Registry.obj_map r) |}) as ->.
  { destruct (Registry.obj_map r !! key); [destruct (Registry.allow_override r) |];
      congruence. }
  simpl. rewrite lookup_insert_eq. repeat split.
  intros k Hk. by rewrite lookup_insert_ne.
Qed.

(** The module makes its registry with [allow_override=True], and the nine
    registrations of the import go through. *)
Lemma ModelExportMethodRegistry_imported :
  ModelExportMethodRegistry_import = Ok ModelExportMethodRegistry /\
  Registry.allow_override ModelExportMethodRegistry = true /\
  Forall (fun key => is_Some (Registry.obj_map ModelExportMethodRegistry !! key))
    [ "caffe2"; "torchscript"; "torchscript@tracing"; "torchscript@scripting";
      "torchscript_int8"; "torchscript_int8@tracing"; "torchscript_int8@scripting";
      "torchscript_mobile"; "torchscript_mobile_int8" ].
Proof.
  split; [reflexivity |]. split; [reflexivity |].
  repeat constructor; by eexists.
Qed.

(** Several keys of the registry name one class. *)
Example registry_aliases :
  Registry.get "torchscript_int8@tracing" ModelExportMethodRegistry
    = Ok DefaultTorchscriptExport /\
  Registry.get "torchscript" ModelExportMethodRegistry = Ok DefaultTorchscriptExport /\
  Registry.get "torchscript_mobile_int8" ModelExportMethodRegistry
    = Ok DefaultTorchscriptMobileExport /\
  Registry.get "onnx" ModelExportMethodRegistry = Raise (KeyError (KeyStr "onnx")).
Proof. repeat split; vm_compute; reflexivity. Qed.

(** C4. Registering a key that the registry already holds fails with a
    DuplicateKeyError when the registry does not allow overriding; when it
    does, the registration replaces the implementation, [get] of the key
    returns the new one, and the other keys are as before. *)
Theorem register_present_key (r : Registry.t) (key : string) (old impl : ExportMethod)
    (Hpresent : Registry.get key r = Ok old) :
  (Registry.allow_override r = false ->
     Registry.register key impl r = Raise (DuplicateKeyError key)) /\
  (Registry.allow_override r = true ->
     exists r', Registry.register key impl r = Ok r' /\
                Registry.get key r' = Ok impl /\
                forall k, k <> key -> Registry.get k r' = Registry.get k r).
Proof.
  unfold Registry.get in Hpresent.
  destruct (Registry.obj_map r !! key) as [old'|] eqn:Hk; [| discriminate].
  split; intros Hov.
  - unfold Registry.register. by rewrite Hk, Hov.
  - destruct (Registry.register key impl r) as [r'|e] eqn:Hreg.
    + exists r'. split; [done |]. by apply register_get in Hreg as (? & _ & ?).
    + unfold Registry.register in Hreg. rewrite Hk, Hov in Hreg. discriminate.
Qed.

(** ** _export_single_model *)

Section SingleModelFacts.
Context `{Collaborators}.

Lemma registry_get_world (meth : MethodField) (w w' : World) (r : result ExportMethod) :
  ModelExportMethodRegistry_get meth w = (r, w') -> w' = w.
Proof. destruct meth; simpl; by injection 1. Qed.

Lemma unpack_kwargs_world (explicit : list string) (kw : pyval) (w w' : World)
    (r : result (PyDict.t pyval)) :
  unpack_kwargs explicit kw w = (r, w') -> w' = w.
Proof.
  unfold unpack_kwargs. destruct kw; try by injection 1.
  destruct (existsb _ _); by injection 1.
Qed.

Lemma relpath_world (p start : string) (w w' : World) (r : result string) :
  os_path_relpath p start w = (r, w') ->
  w' = w /\ match r with
            | Ok rel => PosixPath.relpath (cwd w) p start = Some rel
            | Raise e => PosixPath.relpath (cwd w) p start = None /\ e = ValueError
            end.
Proof.
  unfold os_path_relpath. destruct (PosixPath.relpath _ _ _); injection 1 as <- <-; done.
Qed.

(** When [_export_single_model] returns, this is what happened. *)
Lemma export_single_model_Ok_iff (predictor_path : string) (model : Model)
    (input_args : option InputArgs) (save_path : string)
    (model_export_method : MethodField) (model_export_kwargs : pyval)
    (predictor_type : string) (w w' : World) (mi : ModelInfo) :
  _export_single_model predictor_path model input_args save_path model_export_method
    model_export_kwargs predictor_type w = (Ok mi, w') <->
  isinstance_Module model = true /\
  exists impl kwargs load_kwargs,
    ModelExportMethodRegistry_get model_export_method w = (Ok impl, w) /\
    unpack_kwargs ["model"; "input_args"; "save_path"] model_export_kwargs w
      = (Ok kwargs, w) /\
    ExportMethod_export impl model input_args save_path kwargs w = (Ok load_kwargs, w') /\
    isinstance_dict load_kwargs = true /\
    PosixPath.relpath (cwd w') save_path predictor_path = Some (path mi) /\
    type mi = predictor_type.
Proof.
  unfold _export_single_model. split.
  - intros Hrun.
    apply bind_Ok_inv in Hrun as (u & w1 & Ha & Hrun).
    apply assert_Ok_inv in Ha as [Hmod ->].
    apply bind_Ok_inv in Hrun as (impl & w1 & Hget & Hrun).
    pose proof (registry_get_world _ _ _ _ Hget) as ->.
    apply bind_Ok_inv in Hrun as (kwargs & w1 & Hkw & Hrun).
    pose proof (unpack_kwargs_world _ _ _ _ _ Hkw) as ->.
    apply bind_Ok_inv in Hrun as (load & w1 & Hexp & Hrun).
    apply bind_Ok_inv in Hrun as (u' & w2 & Ha & Hrun).
    apply assert_Ok_inv in Ha as [Hdict ->].
    apply bind_Ok_inv in Hrun as (rel & w2 & Hrel & Hrun).
    apply relpath_world in Hrel as [-> Hrel].
    injection Hrun as <- <-. split; [done |].
    exists impl, kwargs, load. done.
  - intros (Hmod & impl & kwargs & load & Hget & Hkw & Hexp & Hdict & Hrel & Htype).
    rewrite Hmod, bind_run. simpl.
    rewrite (bind_Ok_intro _ _ _ _ _ Hget), (bind_Ok_intro _ _ _ _ _ Hkw),
      (bind_Ok_intro _ _ _ _ _ Hexp).
    rewrite Hdict, bind_run. simpl. rewrite bind_run.
    unfold os_path_relpath. rewrite Hrel. simpl. destruct mi; simpl in *. by subst.
Qed.

(** C8. [_export_single_model] fails on the [isinstance(model, nn.Module)]
    check, before anything else is done, when the model is not a module
    (the specification's TypeConstraintError: the assertion raised with the
    offending model).  When the model is a module, the function returns
    exactly when the registered method is found, its [export] is invoked
    and returns a dict; what it returns then is the Model Info whose path
    is the save path relative to the predictor root and whose type is the
    given predictor type. *)
Theorem export_single_model_contract (predictor_path : string) (model : Model)
    (input_args : option InputArgs) (save_path : string)
    (model_export_method : MethodField) (model_export_kwargs : pyval)
    (predictor_type : string) (w : World) :
  (isinstance_Module model = false ->
     _export_single_model predictor_path model input_args save_path model_export_method
       model_export_kwargs predictor_type w
     = (Raise (AssertionError (Some model)), w)) /\
  (isinstance_Module model = true ->
     forall impl kwargs load_kwargs w' rel,
       ModelExportMethodRegistry_get model_export_method w = (Ok impl, w) ->
       unpack_kwargs ["model"; "input_args"; "save_path"] model_export_kwargs w
         = (Ok kwargs, w) ->
       ExportMethod_export impl model input_args save_path kwargs w
         = (Ok load_kwargs, w') ->
       isinstance_dict load_kwargs = true ->
       PosixPath.relpath (cwd w') save_path predictor_path = Some rel ->
       _export_single_model predictor_path model input_args save_path
         model_export_method model_export_kwargs predictor_type w
       = (Ok {| path := rel; type := predictor_type |}, w')) /\
  (forall mi w',
     _export_single_model predictor_path model input_args save_path model_export_method
       model_export_kwargs predictor_type w = (Ok mi, w') ->
     PosixPath.relpath (cwd w') save_path predictor_path = Some (path mi) /\
     type mi = predictor_type).
Proof.
  split; [| split].
  - intros Hmod. unfold _export_single_model. by rewrite Hmod.
  - intros Hmod impl kwargs load w' rel Hget Hkw Hexp Hdict Hrel.
    apply export_single_model_Ok_iff. split; [done |].
    exists impl, kwargs, load. done.
  - intros mi w' Hrun. apply export_single_model_Ok_iff in Hrun.
    destruct Hrun as (_ & impl & kwargs & load & _ & _ & _ & _ & Hrel & Htype). done.
Qed.

End SingleModelFacts.

(** ** The events of the exporters *)

Ltac emits_step :=
  lazymatch goal with
  | |- emits _ (_ ≫= _) => apply emits_bind; [| intros ?]
  | |- emits _ (mret _) => apply emits_ret
  | |- emits _ (raise _) => apply emits_raise
  | |- emits _ (lift _) => apply emits_lift
  | |- emits _ (assert_ _ _) => apply emits_assert
  | |- emits _ (os_path_relpath _ _) => apply emits_relpath
  | |- emits _ (call _ _) => apply emits_call; [by eauto | done]
  | |- emits _ (PathManager_mkdirs _) => apply emits_mkdirs; by eauto
  | |- emits _ (PathManager_write _ _) => apply emits_write; by eauto
  | |- emits _ (match ?x with _ => _ end) => destruct x
  end.

Ltac emits_auto := repeat emits_step.

Section ExporterEvents.
Context `{Collaborators}.

Lemma emits_registry_get (P : Event -> Prop) (meth : MethodField) :
  emits P (ModelExportMethodRegistry_get meth).
Proof. destruct meth; [| apply emits_raise]. intros w. by exists []. Qed.

Lemma emits_unpack_kwargs (P : Event -> Prop) (explicit : list string) (kw : pyval) :
  emits P (unpack_kwargs explicit kw).
Proof. unfold unpack_kwargs. emits_auto. Qed.

Lemma emits_ExportMethod_export (P : Event -> Prop) (impl : ExportMethod) (m : Model)
    (ia : option InputArgs) (sp : string) (kwargs : PyDict.t pyval) :
  (forall ev, export_event ev -> P ev) ->
  emits P (ExportMethod_export impl m ia sp kwargs).
Proof.
  intros HP.
  assert (forall ev, export_save_path ev = Some sp -> P ev) as HP'.
  { intros ev Hev. apply HP. by exists sp. }
  destruct impl; simpl.
  - unfold DefaultCaffe2Export_export. emits_auto.
  - unfold DefaultTorchscriptExport_export. emits_auto.
  - unfold DefaultTorchscriptMobileExport_export.
    apply emits_bind; [apply emits_unpack_kwargs | intros ?]. emits_auto.
  - emits_auto.
Qed.

Lemma emits_export_single_model (P : Event -> Prop) (pp : string) (m : Model)
    (ia : option InputArgs) (sp : string) (meth : MethodField) (kw : pyval)
    (pt : string) :
  (forall ev, export_event ev -> P ev) ->
  emits P (_export_single_model pp m ia sp meth kw pt).
Proof.
  intros HP. unfold _export_single_model.
  apply emits_bind; [apply emits_assert | intros _].
  apply emits_bind; [apply emits_registry_get | intros impl].
  apply emits_bind; [apply emits_unpack_kwargs | intros kwargs].
  apply emits_bind; [by apply emits_ExportMethod_export | intros load].
  emits_auto.
Qed.

Lemma emits_export_named_model (P : Event -> Prop) (ec : PredictorExportConfig)
    (mi : option InputArgs) (pp pt name : string) (m : Model) :
  (forall ev, export_event ev -> P ev) ->
  emits P (export_named_model ec mi pp pt name m).
Proof.
  intros HP. unfold export_named_model.
  apply emits_bind; [| intros ia].
  { unfold named_input_args, InputArgs_getitem. emits_auto. }
  apply emits_bind; [| intros meth].
  { unfold named_export_method, MethodField_getitem. emits_auto. }
  apply emits_bind; [| intros kw].
  { unfold named_export_kwargs, kwargs_getitem. emits_auto. }
  by apply emits_export_single_model.
Qed.

Lemma emits_export_named_models (P : Event -> Prop) (ec : PredictorExportConfig)
    (mi : option InputArgs) (pp pt : string) (items : list (string * Model))
    (acc : PyDict.t ModelInfo) :
  (forall ev, export_event ev -> P ev) ->
  emits P (export_named_models ec mi pp pt items acc).
Proof.
  intros HP. revert acc. induction items as [|[name m] items IH]; intros acc; simpl.
  - apply emits_ret.
  - apply emits_bind; [by apply emits_export_named_model | intros info]. apply IH.
Qed.

Lemma export_event_exporter (ev : Event) : export_event ev -> exporter_event ev.
Proof. intros [p Hp]. by destruct ev. Qed.


(** The events of a run of [default_export_predictor], returning or not:
    none at all, or the draw from the data loader first. *)
Lemma default_export_predictor_events (cfg : CfgNode) (m : Model) (pt od : string)
    (dl : DataLoader) (w : World) :
  exists evs,
    (default_export_predictor cfg m pt od dl w).2 = play evs w /\
    Forall exporter_event evs /\
    (evs = [] \/ exists rest, evs = IterNext dl :: rest).
Proof.
  unfold default_export_predictor. rewrite bind_run.
  destruct (hasattr m "prepare_for_export"); simpl; [| exists []; by auto].
  match goal with
  | |- context [next_iter dl ≫= ?k] =>
      assert (forall inputs, emits exporter_event (k inputs)) as Hk
  end.
  { intros inputs.
    apply emits_bind; [emits_auto | intros ec].
    apply emits_bind; [emits_auto | intros model_inputs].
    apply emits_bind; [emits_auto | intros _].
    apply emits_bind; [| intros kwargs; emits_auto].
    destruct (model ec).
    - apply emits_bind; [| intros; emits_auto].
      apply emits_export_single_model, export_event_exporter.
    - apply emits_bind; [| intros; emits_auto].
      apply emits_export_named_models, export_event_exporter. }
  rewrite bind_run. unfold next_iter at 1, call at 1.
  destruct dl as [|b dl'].
  - exists [IterNext []]. split; [done |]. split; [by repeat constructor | eauto].
  - destruct (Hk b (record_event (IterNext (b :: dl')) w)) as (evs & Hw & HP).
    exists (IterNext (b :: dl') :: evs). split; [exact Hw |].
    split; [by constructor | eauto].
Qed.

Lemma emits_default_export_predictor (cfg : CfgNode) (m : Model) (pt od : string)
    (dl : DataLoader) :
  emits exporter_event (default_export_predictor cfg m pt od dl).
Proof.
  intros w. destruct (default_export_predictor_events cfg m pt od dl w)
    as (evs & Hw & HP & _). by exists evs.
Qed.

Lemma emits_export_predictor (cfg : CfgNode) (m : Model) (pt od : string)
    (dl : DataLoader) :
  emits exporter_event (export_predictor cfg m pt od dl).
Proof.
  unfold export_predictor. destruct (hasattr m "export_predictor").
  - emits_auto.
  - apply emits_default_export_predictor.
Qed.

End ExporterEvents.

(** ** Runs of the exporters that return *)

Lemma record_events_cons (ev : Event) (evs : list Event) (w : World) :
  record_events evs (record_event ev w) = record_events (ev :: evs) w.
Proof. unfold record_events, record_event. simpl. by rewrite <- app_assoc. Qed.

Lemma record_events_nil (w : World) : record_events [] w = w.
Proof. unfold record_events. by rewrite app_nil_r, World_eta. Qed.

Lemma export_save_paths_cons (ev : Event) (evs : list Event) :
  export_save_paths (ev :: evs) =
    match export_save_path ev with
    | Some p => p :: export_save_paths evs
    | None => export_save_paths evs
    end.
Proof. reflexivity. Qed.

Lemma call_inv {A} (ev : Event) (outcome : World -> result A) (w w' : World)
    (r : result A) :
  call ev outcome w = (r, w') -> r = outcome w /\ w' = record_event ev w.
Proof. by injection 1. Qed.

Section ExporterRuns.
Context `{Collaborators}.

(** An export method that returns has made one export call, to the save
    path it was given. *)
Lemma ExportMethod_export_Ok (impl : ExportMethod) (m : Model) (ia : option InputArgs)
    (sp : string) (kwargs : PyDict.t pyval) (w w' : World) (load : pyval) :
  ExportMethod_export impl m ia sp kwargs w = (Ok load, w') ->
  exists ev, w' = record_event ev w /\ export_save_path ev = Some sp.
Proof.
  destruct impl; simpl; intros Hrun.
  - unfold DefaultCaffe2Export_export in Hrun.
    apply bind_Ok_inv in Hrun as (x & w1 & Hx & Hrun).
    apply bind_Ok_inv in Hrun as (u & w2 & Hcall & Hrun).
    apply call_inv in Hcall as [_ ->]. injection Hrun as _ <-.
    assert (w1 = w) as ->.
    { destruct ia as [[[|? ?]|?]|]; simpl in Hx; by inversion Hx. }
    by eexists.
  - unfold DefaultTorchscriptExport_export in Hrun.
    apply bind_Ok_inv in Hrun as (u & w2 & Hcall & Hrun).
    apply call_inv in Hcall as [_ ->]. injection Hrun as _ <-. by eexists.
  - unfold DefaultTorchscriptMobileExport_export in Hrun.
    apply bind_Ok_inv in Hrun as (kw & w1 & Hkw & Hrun).
    apply unpack_kwargs_world in Hkw as ->.
    apply bind_Ok_inv in Hrun as (u & w2 & Hcall & Hrun).
    apply call_inv in Hcall as [_ ->]. injection Hrun as _ <-. by eexists.
  - apply call_inv in Hrun as [_ ->]. by eexists.
Qed.

Lemma export_single_model_Ok (pp : string) (m : Model) (ia : option InputArgs)
    (sp : string) (meth : MethodField) (kw : pyval) (pt : string) (w w' : World)
    (mi : ModelInfo) :
  _export_single_model pp m ia sp meth kw pt w = (Ok mi, w') ->
  exists ev, w' = record_event ev w /\ export_save_path ev = Some sp /\
             PosixPath.relpath (cwd w) sp pp = Some (path mi) /\ type mi = pt.
Proof.
  intros Hrun. apply export_single_model_Ok_iff in Hrun.
  destruct Hrun as (_ & impl & kwargs & load & _ & _ & Hexp & _ & Hrel & Htype).
  apply ExportMethod_export_Ok in Hexp as (ev & -> & Hev).
  exists ev. done.
Qed.

Lemma named_input_args_world (mi : option InputArgs) (name : string) (w w' : World)
    (r : result (option InputArgs)) :
  named_input_args mi name w = (r, w') -> w' = w.
Proof.
  unfold named_input_args, InputArgs_getitem.
  destruct mi as [[xs|d]|]; simpl; try by injection 1.
  rewrite bind_run. destruct (PyDict.get name d); simpl; by injection 1.
Qed.

Lemma named_export_method_world (ec : PredictorExportConfig) (pt name : string)
    (w w' : World) (r : result MethodField) :
  named_export_method ec pt name w = (r, w') ->
  w' = w /\ forall w0, named_export_method ec pt name w0 = (r, w0).
Proof.
  unfold named_export_method, MethodField_getitem.
  destruct (model_export_method ec) as [[s|d]|]; simpl; try by injection 1 as <- <-.
  destruct (PyDict.get name d); simpl; by injection 1 as <- <-.
Qed.

Lemma named_export_kwargs_world (ec : PredictorExportConfig) (name : string)
    (w w' : World) (r : result pyval) :
  named_export_kwargs ec name w = (r, w') -> w' = w.
Proof.
  unfold named_export_kwargs, kwargs_getitem.
  destruct (model_export_kwargs ec) as [kw|]; simpl; [| by injection 1].
  destruct (PyDict.get name kw); simpl; by injection 1.
Qed.

(** One turn of the loop that returns: the method of the sub-model was
    found, and one export call was made, to [predictor_path/name]. *)
Lemma export_named_model_Ok (ec : PredictorExportConfig) (mi : option InputArgs)
    (pp pt name : string) (m : Model) (w w' : World) (info : ModelInfo) :
  export_named_model ec mi pp pt name m w = (Ok info, w') ->
  (exists meth, forall w0, named_export_method ec pt name w0 = (Ok meth, w0)) /\
  exists ev, w' = record_event ev w /\
             export_save_path ev = Some (PosixPath.join2 pp name) /\
             type info = pt.
Proof.
  unfold export_named_model. intros Hrun.
  apply bind_Ok_inv in Hrun as (ia & w1 & Hia & Hrun).
  apply named_input_args_world in Hia as ->.
  apply bind_Ok_inv in Hrun as (meth & w1 & Hmeth & Hrun).
  apply named_export_method_world in Hmeth as [-> Hmeth].
  apply bind_Ok_inv in Hrun as (kw & w1 & Hkw & Hrun).
  apply named_export_kwargs_world in Hkw as ->.
  apply export_single_model_Ok in Hrun as (ev & -> & Hev & _ & Htype).
  split; [by exists meth |]. by exists ev.
Qed.

(** The loop that returns: one export call per pair, in the order of the
    pairs, each to its own directory under the predictor root; the dict it
    leaves has the keys it started with, then the names of the pairs. *)
Lemma export_named_models_Ok (ec : PredictorExportConfig) (mi : option InputArgs)
    (pp pt : string) (items : list (string * Model)) (acc infos : PyDict.t ModelInfo)
    (w w' : World) :
  export_named_models ec mi pp pt items acc w = (Ok infos, w') ->
  (exists evs, w' = record_events evs w /\
               export_save_paths evs = map (fun kv => PosixPath.join2 pp kv.1) items) /\
  Forall (fun kv => exists meth, forall w0,
            named_export_method ec pt kv.1 w0 = (Ok meth, w0)) items /\
  (NoDup (PyDict.keys acc) -> NoDup (PyDict.keys infos)) /\
  (forall k, k ∈ PyDict.keys infos <-> k ∈ PyDict.keys acc \/ k ∈ PyDict.keys items) /\
  (NoDup (PyDict.keys acc ++ PyDict.keys items) ->
     PyDict.keys infos = PyDict.keys acc ++ PyDict.keys items) /\
  (Forall (fun kv => type kv.2 = pt) acc -> Forall (fun kv => type kv.2 = pt) infos).
Proof.
  revert acc w. induction items as [|[name m] items IH]; intros acc w Hrun; simpl in Hrun.
  - injection Hrun as <- <-. split; [| split; [| split; [| split; [| split]]]].
    + exists []. by rewrite record_events_nil.
    + constructor.
    + done.
    + intros k. simpl. rewrite elem_of_nil. naive_solver.
    + intros _. simpl. by rewrite app_nil_r.
    + done.
  - apply bind_Ok_inv in Hrun as (info & w1 & Hbody & Hrun).
    apply export_named_model_Ok in Hbody as (Hmeth & ev & -> & Hev & Htype).
    apply IH in Hrun as ((evs & -> & Hevs) & Hall & Hnd & Hmem & Hkeys & Htypes).
    split; [| split; [| split; [| split; [| split]]]].
    + exists (ev :: evs). rewrite record_events_cons. split; [done |].
      rewrite export_save_paths_cons. by rewrite Hev, Hevs.
    + by constructor.
    + intros Hacc. apply Hnd. rewrite keys_set.
      destruct (PyDict.mem name acc) eqn:Hm; [done |].
      apply NoDup_app. split; [done |]. split; [| apply NoDup_singleton].
      intros k Hk Hk'. apply list_elem_of_singleton in Hk' as ->.
      apply mem_keys in Hk. congruence.
    + intros k. rewrite Hmem. rewrite keys_set. simpl.
      destruct (PyDict.mem name acc) eqn:Hm.
      * apply mem_keys in Hm. rewrite elem_of_cons. naive_solver.
      * rewrite elem_of_app, list_elem_of_singleton, elem_of_cons. naive_solver.
    + simpl. intros Hnd'.
      assert (name ∉ PyDict.keys acc) as Hfresh.
      { apply NoDup_app in Hnd' as (_ & Hdisj & _). intros Hin.
        apply (Hdisj name Hin). left. }
      rewrite Hkeys; rewrite keys_set_fresh by done; by rewrite <- app_assoc.
    + intros Hacc. apply Htypes.
      by apply (set_preserves (fun mi => type mi = pt)).
Qed.

End ExporterRuns.

(** ** default_export_predictor *)

Section DefaultExporter.
Context `{Collaborators}.

(** A run of [default_export_predictor] that returns, step by step. *)
Lemma default_export_predictor_Ok (cfg : CfgNode) (pm : Model) (pt od : string)
    (dl : DataLoader) (w w' : World) (p : string) :
  default_export_predictor cfg pm pt od dl w = (Ok p, w') ->
  let root := PosixPath.join2 od pt in
  exists b ec mi w3 kwargs pinfo,
    hasattr pm "prepare_for_export" = true /\
    head dl = Some b /\
    model_prepare_for_export (record_event (IterNext dl) w) pm cfg b pt = Ok ec /\
    match data_generator ec with
    | Some g => exists x, g b = Ok x /\ mi = Some x
    | None => mi = None
    end /\
    match model ec with
    | SingleModel m =>
        exists info,
          _export_single_model root m mi root
            (method_or (model_export_method ec) pt) (kwargs_or (model_export_kwargs ec))
            pt (play (prologue cfg pm pt od dl b ec) w) = (Ok info, w3) /\
          kwargs = PyDict.set "model" (ArgModelInfo info) (base_init_kwargs ec)
    | ModelDict d =>
        exists infos,
          export_named_models ec mi root pt (PyDict.items d) []
            (play (prologue cfg pm pt od dl b ec) w) = (Ok infos, w3) /\
          kwargs = PyDict.set "models" (ArgModelsInfo infos) (base_init_kwargs ec)
    end /\
    PredictorInfo_new kwargs = Ok pinfo /\
    w' = apply_event (WriteJson (PosixPath.join2 root "predictor_info.json")
                        (PredictorInfo_to_dict pinfo)) w3 /\
    p = root.
Proof.
  intros Hrun root. unfold default_export_predictor in Hrun.
  apply bind_Ok_inv in Hrun as (u & w1 & Ha & Hrun).
  apply assert_Ok_inv in Ha as [Hattr ->].
  apply bind_Ok_inv in Hrun as (b & w1 & Hnext & Hrun).
  apply call_inv in Hnext as [Hb ->].
  apply bind_Ok_inv in Hrun as (ec & w1 & Hprep & Hrun).
  apply call_inv in Hprep as [Hec ->].
  apply bind_Ok_inv in Hrun as (mi & w1 & Hgen & Hrun).
  apply bind_Ok_inv in Hrun as (u' & w2 & Hmk & Hrun).
  injection Hmk as _ <-.
  apply bind_Ok_inv in Hrun as (kwargs & w3 & Hbody & Hrun).
  apply bind_Ok_inv in Hrun as (pinfo & w4 & Hnew & Hrun).
  injection Hnew as Hnew <-.
  apply bind_Ok_inv in Hrun as (u'' & w4 & Hwrite & Hrun).
  injection Hwrite as _ <-. injection Hrun as <- <-.
  assert (head dl = Some b) as Hhead by (destruct dl; by inversion Hb).
  assert (match data_generator ec with
          | Some g => exists x, g b = Ok x /\ mi = Some x
          | None => mi = None
          end /\
          apply_event (Mkdirs (PosixPath.join2 od pt)) w1
          = play (prologue cfg pm pt od dl b ec) w) as [Hmi Hw].
  { unfold prologue. destruct (data_generator ec) as [g|].
    - apply bind_Ok_inv in Hgen as (x & w5 & Hcall & Hret).
      apply call_inv in Hcall as [Hx ->]. injection Hret as <- <-.
      split; [by exists x | done].
    - injection Hgen as <- <-. done. }
  exists b, ec, mi, w3, kwargs, pinfo.
  split; [done |]. split; [done |]. split; [done |]. split; [done |].
  split; [| by rewrite Hnew].
  fold root in Hbody. change (PathManager_mkdirs root w1).2 with
    (apply_event (Mkdirs root) w1) in *.
  destruct (model ec) as [m|d].
  - apply bind_Ok_inv in Hbody as (info & w5 & Hexp & Hret).
    injection Hret as <- <-. exists info. by rewrite <- Hw.
  - apply bind_Ok_inv in Hbody as (infos & w5 & Hexp & Hret).
    injection Hret as <- <-. exists infos. by rewrite <- Hw.
Qed.

End DefaultExporter.

Section DefaultExporterClaims.
Context `{Collaborators}.

Lemma export_save_paths_app (e1 e2 : list Event) :
  export_save_paths (e1 ++ e2) = export_save_paths e1 ++ export_save_paths e2.
Proof. apply omap_app. Qed.

Lemma export_save_paths_prologue (cfg : CfgNode) (pm : Model) (pt od : string)
    (dl : DataLoader) (b : Batch) (ec : PredictorExportConfig) :
  export_save_paths (prologue cfg pm pt od dl b ec) = [].
Proof. unfold prologue. by destruct (data_generator ec). Qed.

Lemma PredictorInfo_new_model (ec : PredictorExportConfig) (info : ModelInfo) :
  PredictorInfo_new (PyDict.set "model" (ArgModelInfo info) (base_init_kwargs ec))
  = Ok {| pi_model := Some info; pi_models := None;
          pi_preprocess_info := preprocess_info ec;
          pi_postprocess_info := postprocess_info ec;
          pi_run_func_info := run_func_info ec |}.
Proof. reflexivity. Qed.

Lemma PredictorInfo_new_models (ec : PredictorExportConfig) (infos : PyDict.t ModelInfo) :
  PredictorInfo_new (PyDict.set "models" (ArgModelsInfo infos) (base_init_kwargs ec))
  = Ok {| pi_model := None; pi_models := Some infos;
          pi_preprocess_info := preprocess_info ec;
          pi_postprocess_info := postprocess_info ec;
          pi_run_func_info := run_func_info ec |}.
Proof. reflexivity. Qed.

(** The keyword arguments given to [PredictorInfo] have the key [model] in
    the single-model case and the key [models] in the mapping case, never
    both. *)
Lemma init_kwargs_keys (ec : PredictorExportConfig) (info : ModelInfo)
    (infos : PyDict.t ModelInfo) :
  PyDict.keys (PyDict.set "model" (ArgModelInfo info) (base_init_kwargs ec))
  = ["preprocess_info"; "postprocess_info"; "run_func_info"; "model"] /\
  PyDict.keys (PyDict.set "models" (ArgModelsInfo infos) (base_init_kwargs ec))
  = ["preprocess_info"; "postprocess_info"; "run_func_info"; "models"].
Proof. split; reflexivity. Qed.

Lemma keys_entries (infos : PyDict.t ModelInfo) :
  PyDict.keys (map (fun '(k, mi) => (k, ModelInfo_to_dict mi)) infos) = PyDict.keys infos.
Proof.
  unfold PyDict.keys. rewrite map_map. apply map_ext. by intros [k mi].
Qed.

(** The single-model case of a run that returns: one export call, to the
    predictor root, and a manifest whose [model] entry has the path of the
    root relative to itself. *)
Lemma default_export_predictor_single (cfg : CfgNode) (pm : Model) (pt od : string)
    (dl : DataLoader) (w w' : World) (p : string) (b : Batch)
    (ec : PredictorExportConfig) (m : Model) :
  default_export_predictor cfg pm pt od dl w = (Ok p, w') ->
  head dl = Some b ->
  model_prepare_for_export (record_event (IterNext dl) w) pm cfg b pt = Ok ec ->
  model ec = SingleModel m ->
  let root := PosixPath.join2 od pt in
  let manifest :=
    PredictorInfo_to_dict
      {| pi_model := Some {| path := "."; type := pt |}; pi_models := None;
         pi_preprocess_info := preprocess_info ec;
         pi_postprocess_info := postprocess_info ec;
         pi_run_func_info := run_func_info ec |} in
  p = root /\
  files w' !! PosixPath.join2 root "predictor_info.json" = Some manifest /\
  exists ev,
    export_save_path ev = Some root /\
    trace w' = trace w ++ prologue cfg pm pt od dl b ec ++
               [ev; WriteJson (PosixPath.join2 root "predictor_info.json") manifest].
Proof.
  intros Hrun Hb Hec Hm root manifest.
  apply default_export_predictor_Ok in Hrun
    as (b' & ec' & mi & w3 & kwargs & pinfo & _ & Hb' & Hec' & _ & Hbody & Hnew & -> & ->).
  assert (b' = b) as -> by congruence. assert (ec' = ec) as -> by congruence.
  rewrite Hm in Hbody. destruct Hbody as (info & Hexp & ->).
  rewrite PredictorInfo_new_model in Hnew. injection Hnew as <-.
  apply export_single_model_Ok in Hexp as (ev & -> & Hev & Hrel & Htype).
  fold root in Hrel, Hev.
  assert (PyStr.truthy root = true) as Hroot.
  { destruct (PyStr.truthy root) eqn:E; [done |].
    unfold PosixPath.relpath in Hrel. by rewrite E in Hrel. }
  rewrite relpath_self in Hrel by done.
  assert (info = {| path := "."; type := pt |}) as ->.
  { destruct info; simpl in *. congruence. }
  split; [done |]. split.
  - apply files_apply_write.
  - exists ev. split; [done |].
    rewrite trace_apply_event, trace_record_event, play_trace.
    by rewrite <- !app_assoc.
Qed.

(** And the other way round: with a batch to draw, a configuration with a
    single model and no data generator, the run returns as soon as
    [_export_single_model] does. *)
Lemma default_export_predictor_single_returns (cfg : CfgNode) (pm : Model)
    (pt od : string) (b : Batch) (rest : DataLoader) (w w3 : World)
    (ec : PredictorExportConfig) (m : Model) (info : ModelInfo) :
  hasattr pm "prepare_for_export" = true ->
  model_prepare_for_export (record_event (IterNext (b :: rest)) w) pm cfg b pt = Ok ec ->
  model ec = SingleModel m ->
  data_generator ec = None ->
  let root := PosixPath.join2 od pt in
  _export_single_model root m None root (method_or (model_export_method ec) pt)
    (kwargs_or (model_export_kwargs ec)) pt
    (play (prologue cfg pm pt od (b :: rest) b ec) w) = (Ok info, w3) ->
  default_export_predictor cfg pm pt od (b :: rest) w
  = (Ok root,
     apply_event
       (WriteJson (PosixPath.join2 root "predictor_info.json")
          (PredictorInfo_to_dict
             {| pi_model := Some info; pi_models := None;
                pi_preprocess_info := preprocess_info ec;
                pi_postprocess_info := postprocess_info ec;
                pi_run_func_info := run_func_info ec |})) w3).
Proof.
  intros Hattr Hec Hm Hgen root Hexp.
  unfold prologue in Hexp. rewrite Hgen in Hexp.
  set (w1 := record_event (IterNext (b :: rest)) w) in *.
  set (w1' := record_event (PrepareForExport pm cfg b pt) w1).
  set (w2 := apply_event (Mkdirs root) w1').
  unfold default_export_predictor.
  rewrite (bind_Ok_intro _ _ w w tt); [| by rewrite Hattr].
  rewrite (bind_Ok_intro _ _ w w1 b); [| reflexivity].
  rewrite (bind_Ok_intro _ _ w1 w1' ec); [| unfold call; by rewrite Hec].
  rewrite Hgen.
  rewrite (bind_Ok_intro _ _ w1' w1' None); [| reflexivity].
  rewrite (bind_Ok_intro _ _ w1' w2 tt); [| reflexivity].
  rewrite Hm.
  rewrite (bind_Ok_intro _ _ w2 w3
             (PyDict.set "model" (ArgModelInfo info) (base_init_kwargs ec)));
    [| rewrite (bind_Ok_intro _ _ w2 w3 info); [reflexivity | exact Hexp]].
  rewrite (bind_Ok_intro _ _ w3 w3
             {| pi_model := Some info; pi_models := None;
                pi_preprocess_info := preprocess_info ec;
                pi_postprocess_info := postprocess_info ec;
                pi_run_func_info := run_func_info ec |}); [| reflexivity].
  reflexivity.
Qed.

(** The mapping case of a run that returns. *)
Lemma default_export_predictor_named (cfg : CfgNode) (pm : Model) (pt od : string)
    (dl : DataLoader) (w w' : World) (p : string) (b : Batch)
    (ec : PredictorExportConfig) (d : PyDict.t Model) :
  default_export_predictor cfg pm pt od dl w = (Ok p, w') ->
  head dl = Some b ->
  model_prepare_for_export (record_event (IterNext dl) w) pm cfg b pt = Ok ec ->
  model ec = ModelDict d ->
  let root := PosixPath.join2 od pt in
  exists infos evs,
    let manifest :=
      PredictorInfo_to_dict
        {| pi_model := None; pi_models := Some infos;
           pi_preprocess_info := preprocess_info ec;
           pi_postprocess_info := postprocess_info ec;
           pi_run_func_info := run_func_info ec |} in
    p = root /\
    files w' !! PosixPath.join2 root "predictor_info.json" = Some manifest /\
    trace w' = trace w ++ prologue cfg pm pt od dl b ec ++ evs ++
               [WriteJson (PosixPath.join2 root "predictor_info.json") manifest] /\
    export_save_paths evs = map (PosixPath.join2 root) (PyDict.keys d) /\
    NoDup (PyDict.keys infos) /\
    (forall name, name ∈ PyDict.keys infos <-> name ∈ PyDict.keys d) /\
    (PyDict.wf d -> PyDict.keys infos = PyDict.keys d) /\
    Forall (fun kv => type kv.2 = pt) infos /\
    Forall (fun kv => exists meth, forall w0,
              named_export_method ec pt kv.1 w0 = (Ok meth, w0)) d.
Proof.
  intros Hrun Hb Hec Hm root.
  apply default_export_predictor_Ok in Hrun
    as (b' & ec' & mi & w3 & kwargs & pinfo & _ & Hb' & Hec' & _ & Hbody & Hnew & -> & ->).
  assert (b' = b) as -> by congruence. assert (ec' = ec) as -> by congruence.
  rewrite Hm in Hbody. destruct Hbody as (infos & Hloop & ->).
  rewrite PredictorInfo_new_models in Hnew. injection Hnew as <-.
  apply export_named_models_Ok in Hloop
    as ((evs & -> & Hevs) & Hall & Hnd & Hmem & Hkeys & Htypes).
  exists infos, evs. cbv zeta.
  split; [done |]. split; [apply files_apply_write |]. split.
  { rewrite trace_apply_event, trace_record_events, play_trace.
    by rewrite <- !app_assoc. }
  split.
  { rewrite Hevs. unfold PyDict.keys, PyDict.items. by rewrite map_map. }
  split; [apply Hnd; constructor |]. split.
  { intros name. rewrite Hmem. simpl. rewrite elem_of_nil. naive_solver. }
  split; [apply Hkeys | split; [by apply Htypes | done]].
Qed.

(** C1. A run of [default_export_predictor] that returns, on an Export
    Configuration with a single model, has written a manifest with the key
    [model] and without the key [models], and its one export call saved to
    [output_dir/predictor_type] itself.  On a configuration whose model is
    a mapping the manifest has the key [models] and not [model], with
    exactly one entry per name of the mapping (in the order of the
    mapping), and the export calls saved to
    [output_dir/predictor_type/name], one per name.  The paths are joined
    as [os.path.join] joins them. *)
Theorem default_export_predictor_layout (cfg : CfgNode) (pm : Model) (pt od : string)
    (dl : DataLoader) (w w' : World) (p : string) (b : Batch)
    (ec : PredictorExportConfig)
    (Hrun : default_export_predictor cfg pm pt od dl w = (Ok p, w'))
    (Hbatch : head dl = Some b)
    (Hconfig : model_prepare_for_export (record_event (IterNext dl) w) pm cfg b pt
               = Ok ec) :
  let root := PosixPath.join2 od pt in
  p = root /\
  exists manifest evs,
    files w' !! PosixPath.join2 root "predictor_info.json" = Some (JObject manifest) /\
    trace w' = trace w ++ evs /\
    match model ec with
    | SingleModel _ =>
        (exists info, PyDict.get "model" manifest = Some (ModelInfo_to_dict info)) /\
        PyDict.get "models" manifest = None /\
        export_save_paths evs = [root]
    | ModelDict d =>
        PyDict.get "model" manifest = None /\
        exists entries,
          PyDict.get "models" manifest = Some (JObject entries) /\
          NoDup (PyDict.keys entries) /\
          (forall name, name ∈ PyDict.keys entries <-> name ∈ PyDict.keys d) /\
          (PyDict.wf d -> PyDict.keys entries = PyDict.keys d) /\
          export_save_paths evs = map (PosixPath.join2 root) (PyDict.keys d)
    end.
Proof.
  intros root. destruct (model ec) as [m|d] eqn:Hm.
  - destruct (default_export_predictor_single _ _ _ _ _ _ _ _ _ _ _ Hrun Hbatch Hconfig Hm)
      as (Hp & Hfile & ev & Hev & Htrace).
    split; [done |]. eexists _, _. split; [exact Hfile |]. split; [exact Htrace |].
    split; [by eexists |]. split; [done |].
    rewrite export_save_paths_app, export_save_paths_prologue.
    rewrite export_save_paths_cons, Hev. done.
  - destruct (default_export_predictor_named _ _ _ _ _ _ _ _ _ _ _ Hrun Hbatch Hconfig Hm)
      as (infos & evs & Hp & Hfile & Htrace & Hpaths & Hnd & Hmem & Hkeys & _).
    split; [done |]. eexists _, _. split; [exact Hfile |]. split; [exact Htrace |].
    split; [done |]. eexists. split; [reflexivity |].
    rewrite keys_entries. split; [done |]. split; [done |]. split; [done |].
    rewrite export_save_paths_app, export_save_paths_prologue.
    rewrite export_save_paths_app, Hpaths. simpl. by rewrite app_nil_r.
Qed.

(** C10. In the single-model case the Model Info stored under the manifest
    key [model] has the relative path ["."] (and the given predictor type):
    the save path is the predictor root itself. *)
Theorem single_model_relative_path (cfg : CfgNode) (pm : Model) (pt od : string)
    (dl : DataLoader) (w w' : World) (p : string) (b : Batch)
    (ec : PredictorExportConfig) (m : Model)
    (Hrun : default_export_predictor cfg pm pt od dl w = (Ok p, w'))
    (Hbatch : head dl = Some b)
    (Hconfig : model_prepare_for_export (record_event (IterNext dl) w) pm cfg b pt
               = Ok ec)
    (Hsingle : model ec = SingleModel m) :
  exists manifest,
    files w' !! PosixPath.join2 (PosixPath.join2 od pt) "predictor_info.json"
      = Some (JObject manifest) /\
    PyDict.get "model" manifest
      = Some (ModelInfo_to_dict {| path := "."; type := pt |}).
Proof.
  destruct (default_export_predictor_single _ _ _ _ _ _ _ _ _ _ _ Hrun Hbatch Hconfig
              Hsingle) as (_ & Hfile & _).
  eexists. split; [exact Hfile |]. reflexivity.
Qed.

End DefaultExporterClaims.

(** ** Failures of the default exporter *)

Section DefaultExporterFailures.
Context `{Collaborators}.

(** C5. On a data loader with no batch [default_export_predictor] raises
    (StopIteration from the draw, when the model has [prepare_for_export]),
    having made no directory and written no file.  For every loader, a
    [mkdirs] in the events of a run comes after the draw from the loader. *)
Theorem empty_loader_raises_before_mkdirs (cfg : CfgNode) (pm : Model) (pt od : string) :
  (forall w,
     default_export_predictor cfg pm pt od [] w =
       if hasattr pm "prepare_for_export"
       then (Raise StopIteration, record_event (IterNext []) w)
       else (Raise (AssertionError (Some pm)), w)) /\
  (forall w,
     dirs (default_export_predictor cfg pm pt od [] w).2 = dirs w /\
     files (default_export_predictor cfg pm pt od [] w).2 = files w) /\
  (forall dl w before p after,
     trace (default_export_predictor cfg pm pt od dl w).2
       = trace w ++ before ++ Mkdirs p :: after ->
     IterNext dl ∈ before).
Proof.
  assert (forall w,
     default_export_predictor cfg pm pt od [] w =
       if hasattr pm "prepare_for_export"
       then (Raise StopIteration, record_event (IterNext []) w)
       else (Raise (AssertionError (Some pm)), w)) as Hempty.
  { intros w. unfold default_export_predictor. rewrite bind_run.
    by destruct (hasattr pm "prepare_for_export"). }
  split; [done |]. split.
  - intros w. rewrite Hempty. by destruct (hasattr pm "prepare_for_export").
  - intros dl w before p after Htrace.
    destruct (default_export_predictor_events cfg pm pt od dl w)
      as (evs & Hw & _ & Hfirst).
    rewrite Hw, play_trace in Htrace. apply app_inv_head in Htrace.
    destruct Hfirst as [-> | [rest ->]].
    + by destruct before.
    + destruct before as [|ev before]; [discriminate |].
      injection Htrace as <- _. left.
Qed.

(** The loop over a list of pairs in two parts. *)
Lemma export_named_models_app (ec : PredictorExportConfig) (mi : option InputArgs)
    (pp pt : string) (items1 items2 : list (string * Model))
    (acc : PyDict.t ModelInfo) (w : World) :
  export_named_models ec mi pp pt (items1 ++ items2) acc w =
    match export_named_models ec mi pp pt items1 acc w with
    | (Ok infos, w1) => export_named_models ec mi pp pt items2 infos w1
    | (Raise e, w1) => (Raise e, w1)
    end.
Proof.
  revert acc w. induction items1 as [|[name m] items1 IH]; intros acc w; simpl.
  - done.
  - rewrite !bind_run.
    destruct (export_named_model ec mi pp pt name m w) as [[info|e] w1]; [| done].
    apply IH.
Qed.

(** The method lookup of a sub-model whose name the mapping of methods
    does not have. *)
Lemma named_export_method_missing (ec : PredictorExportConfig) (md : PyDict.t string)
    (pt name : string) (w : World) :
  model_export_method ec = Some (MethodDict md) ->
  PyDict.get name md = None ->
  named_export_method ec pt name w = (Raise (KeyError (KeyStr name)), w).
Proof.
  intros Hmeth Hname. unfold named_export_method, MethodField_getitem.
  by rewrite Hmeth, Hname.
Qed.

Lemma export_named_model_missing (ec : PredictorExportConfig) (md : PyDict.t string)
    (mi : option InputArgs) (pp pt name : string) (m : Model) (w : World)
    (ia : option InputArgs) :
  model_export_method ec = Some (MethodDict md) ->
  PyDict.get name md = None ->
  named_input_args mi name w = (Ok ia, w) ->
  export_named_model ec mi pp pt name m w = (Raise (KeyError (KeyStr name)), w).
Proof.
  intros Hmeth Hname Hia. unfold export_named_model.
  rewrite (bind_Ok_intro _ _ _ _ _ Hia).
  apply bind_Raise_intro. by eapply named_export_method_missing.
Qed.

(** C9. With [model_export_method] a mapping that lacks the name of a
    sub-model, the lookup of the method of that sub-model raises a KeyError
    (the specification's KeyNotFoundError) with the name as key: the turn
    of the loop for that name raises it before any export is attempted,
    once its sample inputs are found; the loop raises it when it gets to
    that name; and no run of [default_export_predictor] on such a
    configuration returns. *)
Theorem missing_method_key_raises (ec : PredictorExportConfig) (d : PyDict.t Model)
    (md : PyDict.t string) (name : string)
    (Hmodel : model ec = ModelDict d)
    (Hmethod : model_export_method ec = Some (MethodDict md))
    (Hname : name ∈ PyDict.keys d)
    (Hmissing : PyDict.get name md = None) :
  (forall mi pp pt m w ia,
     named_input_args mi name w = (Ok ia, w) ->
     export_named_model ec mi pp pt name m w = (Raise (KeyError (KeyStr name)), w)) /\
  (forall mi pp pt m before after acc infos w w1 ia,
     export_named_models ec mi pp pt before acc w = (Ok infos, w1) ->
     named_input_args mi name w1 = (Ok ia, w1) ->
     export_named_models ec mi pp pt (before ++ (name, m) :: after) acc w
     = (Raise (KeyError (KeyStr name)), w1)) /\
  (forall cfg pm pt od dl w b,
     head dl = Some b ->
     model_prepare_for_export (record_event (IterNext dl) w) pm cfg b pt = Ok ec ->
     exists e w', default_export_predictor cfg pm pt od dl w = (Raise e, w')).
Proof.
  split; [| split].
  - intros mi pp pt m w ia Hia. by eapply export_named_model_missing.
  - intros mi pp pt m before after acc infos w w1 ia Hbefore Hia.
    rewrite export_named_models_app, Hbefore. simpl.
    apply bind_Raise_intro. by eapply export_named_model_missing.
  - intros cfg pm pt od dl w b Hb Hec.
    destruct (default_export_predictor cfg pm pt od dl w) as [[p|e] w'] eqn:Hrun;
      [| by eauto].
    exfalso.
    destruct (default_export_predictor_named _ _ _ _ _ _ _ _ _ _ _ Hrun Hb Hec Hmodel)
      as (infos & evs & _ & _ & _ & _ & _ & _ & _ & _ & Hall).
    rewrite Forall_forall in Hall.
    apply list_elem_of_fmap in Hname as ([name' m] & -> & Hin).
    destruct (Hall _ Hin) as (meth & Hmeth). simpl in Hmeth.
    specialize (Hmeth w).
    rewrite (named_export_method_missing _ _ _ _ _ Hmethod Hmissing) in Hmeth.
    discriminate.
Qed.

End DefaultExporterFailures.

(** ** The export method of a sub-model *)

Section NamedExportMethod.
Context `{Collaborators}.

(** C3, as the code has it.  In the mapping case the export method of a
    sub-model is the value at its name when [model_export_method] is a
    mapping (a KeyError when the name is missing) and [predictor_type] when
    [model_export_method] is absent: there the code and the specification
    agree.  A single string is not taken as the method of every sub-model:
    indexing it by the name raises a TypeError, and the turn of the loop
    raises it before any export is attempted. *)
Theorem named_export_method_two_way (ec : PredictorExportConfig) (pt name : string)
    (w : World) :
  ((forall s, model_export_method ec <> Some (MethodStr s)) ->
     named_export_method ec pt name w =
       (match spec_named_export_method (model_export_method ec) pt name with
        | Some s => Ok (MethodStr s)
        | None => Raise (KeyError (KeyStr name))
        end, w)) /\
  (forall s, model_export_method ec = Some (MethodStr s) ->
     named_export_method ec pt name w = (Raise TypeError, w) /\
     forall mi pp m ia,
       named_input_args mi name w = (Ok ia, w) ->
       export_named_model ec mi pp pt name m w = (Raise TypeError, w)).
Proof.
  split.
  - intros Hnot. unfold named_export_method, spec_named_export_method, MethodField_getitem.
    destruct (model_export_method ec) as [[s|d]|]; [by destruct (Hnot s) | | done].
    by destruct (PyDict.get name d).
  - intros s Hs.
    assert (named_export_method ec pt name w = (Raise TypeError, w)) as Hraise.
    { unfold named_export_method. by rewrite Hs. }
    split; [done |]. intros mi pp m ia Hia. unfold export_named_model.
    rewrite (bind_Ok_intro _ _ _ _ _ Hia). by apply bind_Raise_intro.
Qed.

End NamedExportMethod.

Section NamedExportMethodExample.
Existing Instance Fixture.collaborators.

(** The three-way fallback of C3 fails where [model_export_method] is a
    single string and the model a mapping: the specification reads the
    method of "backbone" as "torchscript", the code raises a TypeError, in
    the lookup and so in the whole export. *)
Lemma three_way_fallback_counterexample :
  let ec := Fixture.config Fixture.two_parts (Some (MethodStr "torchscript")) in
  spec_named_export_method (model_export_method ec) "caffe2" "backbone"
    = Some "torchscript" /\
  named_export_method ec "caffe2" "backbone" Fixture.world
    <> (Ok (MethodStr "torchscript"), Fixture.world) /\
  named_export_method ec "caffe2" "backbone" Fixture.world
    = (Raise TypeError, Fixture.world) /\
  (default_export_predictor Fixture.cfg Fixture.str_method_model "caffe2" "out"
     Fixture.loader Fixture.world).1 = Raise TypeError.
Proof.
  split; [reflexivity |]. split; [intros Heq; vm_compute in Heq; discriminate |].
  split; vm_compute; reflexivity.
Qed.

End NamedExportMethodExample.

(** ** export_predictor *)

Section Dispatch.
Context `{Collaborators}.

(** C2. A model with an [export_predictor] attribute is exported by that
    method alone, called with (cfg, predictor_type, output_dir,
    data_loader): what [export_predictor] returns or raises is what the
    method does, and the world is left with that one call and nothing of
    the default exporter (no draw from the loader, no directory, no file).
    A model without the attribute is exported by
    [default_export_predictor]. *)
Theorem export_predictor_dispatch (cfg : CfgNode) (pm : Model) (pt od : string)
    (dl : DataLoader) (w : World) :
  (hasattr pm "export_predictor" = true ->
     export_predictor cfg pm pt od dl w
     = (model_export_predictor w pm cfg pt od dl,
        record_event (ModelExportPredictor pm cfg pt od dl) w) /\
     trace (export_predictor cfg pm pt od dl w).2
     = trace w ++ [ModelExportPredictor pm cfg pt od dl] /\
     dirs (export_predictor cfg pm pt od dl w).2 = dirs w /\
     files (export_predictor cfg pm pt od dl w).2 = files w) /\
  (hasattr pm "export_predictor" = false ->
     export_predictor cfg pm pt od dl w = default_export_predictor cfg pm pt od dl w).
Proof.
  unfold export_predictor. split; intros ->; done.
Qed.

End Dispatch.

(** ** convert_and_export_predictor *)

Section Convert.
Context `{Collaborators}.

Lemma exporter_event_no_warning (ev : Event) : exporter_event ev -> warning_of ev = None.
Proof. by destruct ev. Qed.

Lemma exporter_event_no_quantization (ev : Event) :
  exporter_event ev -> ~ quantization_event ev.
Proof. destruct ev; simpl; tauto. Qed.

Lemma warnings_none (evs : list Event) :
  Forall (fun ev => warning_of ev = None) evs -> warnings evs = [].
Proof.
  induction 1 as [|ev evs Hev _ IH]; [done |].
  unfold warnings in *. simpl. by rewrite Hev.
Qed.

Lemma warnings_app (e1 e2 : list Event) : warnings (e1 ++ e2) = warnings e1 ++ warnings e2.
Proof. apply omap_app. Qed.

(** The run on the non-int8 path: fuse, log, warn if batch normalization is
    left, then export whatever the count was. *)
Lemma convert_non_int8 (cfg : CfgNode) (m : Model) (pt od : string) (dl : DataLoader)
    (w : World) :
  PyStr.contains "int8" pt = false ->
  let w1 := record_event (FuseModel m) w in
  match fuse_model w m with
  | Raise e => convert_and_export_predictor cfg m pt od dl w = (Raise e, w1)
  | Ok m' =>
      let w2 := record_event (Log INFO ("Fused Model:" +:+ newline +:+ format_model m'))
                  w1 in
      convert_and_export_predictor cfg m pt od dl w =
        export_predictor cfg m' pt od dl
          (if bool_decide (0 < count_bn_exist m')
           then record_event (Log WARNING bn_warning) w2 else w2)
  end.
Proof.
  intros Hpt w1. destruct (fuse_model w m) as [m'|e] eqn:Hfuse;
    unfold convert_and_export_predictor; rewrite Hpt; run_steps; rewrite Hfuse;
    run_steps; [| done].
  by destruct (bool_decide (0 < count_bn_exist m')).
Qed.

(** The run on the int8 path of a model that was not trained quantization
    aware, up to the check after post training quantization. *)
Lemma convert_int8_ptq (cfg : CfgNode) (m : Model) (pt od : string) (dl : DataLoader)
    (w : World) :
  PyStr.contains "int8" pt = true ->
  QUANTIZATION_QAT_ENABLED cfg = false ->
  let w0 := record_event (Log INFO ptq_message) w in
  let w1 := record_event (PostTrainingQuantize cfg m dl) w0 in
  match post_training_quantize w0 cfg m dl with
  | Raise e => convert_and_export_predictor cfg m pt od dl w = (Raise e, w1)
  | Ok m' =>
      if check_bn_exist m'
      then convert_and_export_predictor cfg m pt od dl w
           = (Raise (AssertionError None), w1)
      else exists rest,
          trace (convert_and_export_predictor cfg m pt od dl w).2 =
            trace w1 ++
            [Log INFO ("Converting quantized model " +:+ QUANTIZATION_BACKEND cfg +:+ "...");
             conversion_call cfg m'] ++ rest
  end.
Proof.
  intros Hpt Hqat w0 w1.
  destruct (post_training_quantize w0 cfg m dl) as [m'|e] eqn:Hptq;
    [destruct (check_bn_exist m') eqn:Hbn |];
    unfold convert_and_export_predictor; rewrite Hpt, Hqat; run_steps;
    match goal with
    | |- context [record_event (Log INFO ?s) w] =>
        change (record_event (Log INFO s) w) with w0
    end;
    rewrite Hptq; run_steps; [by rewrite Hbn | | done].
  rewrite Hbn. run_steps.
  set (w2 := record_event (Log INFO _) (record_event (PostTrainingQuantize _ _ _) w0)).
  assert (trace w2 = trace w1 ++
            [Log INFO ("Converting quantized model " +:+ QUANTIZATION_BACKEND cfg +:+ "...")])
    as Hw2 by done.
  unfold conversion_call.
  destruct (QUANTIZATION_EAGER_MODE cfg);
    [| destruct (hasattr m' "prepare_for_quant_convert")]; cbv beta iota;
    [ destruct (quantization_convert w2 m') as [m''|e]
    | destruct (model_prepare_for_quant_convert w2 m' cfg) as [m''|e]
    | destruct (convert_fx w2 m') as [m''|e] ]; cbv beta iota.
  all: try (exists []; cbn [snd]; rewrite trace_record_event, Hw2;
            by rewrite <- !app_assoc).
  all: match goal with
       | |- context [export_predictor ?c ?m2 ?t ?o ?l ?w3] =>
           destruct (emits_export_predictor c m2 t o l w3) as (evs & Hw & _);
           exists (Log INFO ("Quantized Model:" +:+ newline +:+ format_model m2) :: evs);
           rewrite Hw, play_trace
       end;
       rewrite !trace_record_event, Hw2; by rewrite <- !app_assoc.
Qed.

(** Off the int8 path no call of the quantization step is made. *)
Lemma convert_non_int8_events (cfg : CfgNode) (m : Model) (pt od : string)
    (dl : DataLoader) :
  PyStr.contains "int8" pt = false ->
  emits (fun ev => ~ quantization_event ev) (convert_and_export_predictor cfg m pt od dl).
Proof.
  intros Hpt. unfold convert_and_export_predictor. rewrite Hpt.
  apply emits_bind.
  - unfold logger_info, logger_warning. emits_auto.
  - intros m'. eapply emits_weaken; [| apply emits_export_predictor].
    apply exporter_event_no_quantization.
Qed.

(** On the int8 path nothing is logged at level WARNING. *)
Lemma convert_int8_no_warning (cfg : CfgNode) (m : Model) (pt od : string)
    (dl : DataLoader) :
  PyStr.contains "int8" pt = true ->
  emits (fun ev => warning_of ev = None) (convert_and_export_predictor cfg m pt od dl).
Proof.
  intros Hpt. unfold convert_and_export_predictor. rewrite Hpt.
  apply emits_bind.
  - unfold logger_info. emits_auto.
  - intros m'. eapply emits_weaken; [| apply emits_export_predictor].
    apply exporter_event_no_warning.
Qed.

(** C6. [convert_and_export_predictor] takes the quantization path exactly
    when "int8" occurs in [predictor_type].  On that path, for a model not
    trained quantization aware ([QUANTIZATION.QAT.ENABLED] off), it first
    calls post training quantization with the data loader; if batch
    normalization is left in the model that comes back, the assertion fails
    and no conversion is called; else the conversion is called next, on the
    quantized model.  Off that path no quantization call is made at all. *)
Theorem int8_path_quantizes (cfg : CfgNode) (m : Model) (pt od : string)
    (dl : DataLoader) (w : World) :
  (PyStr.occurs_in "int8" pt ->
   QUANTIZATION_QAT_ENABLED cfg = false ->
   let w0 := record_event (Log INFO ptq_message) w in
   let w1 := record_event (PostTrainingQuantize cfg m dl) w0 in
   match post_training_quantize w0 cfg m dl with
   | Raise e => convert_and_export_predictor cfg m pt od dl w = (Raise e, w1)
   | Ok m' =>
       if check_bn_exist m'
       then convert_and_export_predictor cfg m pt od dl w
            = (Raise (AssertionError None), w1)
       else exists rest,
           trace (convert_and_export_predictor cfg m pt od dl w).2 =
             trace w1 ++
             [Log INFO ("Converting quantized model " +:+ QUANTIZATION_BACKEND cfg
                        +:+ "...");
              conversion_call cfg m'] ++ rest
   end) /\
  (~ PyStr.occurs_in "int8" pt ->
   exists evs,
     trace (convert_and_export_predictor cfg m pt od dl w).2 = trace w ++ evs /\
     Forall (fun ev => ~ quantization_event ev) evs).
Proof.
  split.
  - intros Hocc Hqat. apply contains_occurs_in in Hocc. by apply convert_int8_ptq.
  - intros Hocc.
    assert (PyStr.contains "int8" pt = false) as Hpt.
    { destruct (PyStr.contains "int8" pt) eqn:E; [| done].
      by apply contains_occurs_in in E. }
    destruct (convert_non_int8_events cfg m pt od dl Hpt w) as (evs & Hw & HP).
    exists evs. by rewrite Hw, play_trace.
Qed.

(** C7. Off the int8 path the model is fused and the fused model logged;
    if batch normalization is left in it, a warning is logged, and with or
    without the warning the fused model goes on to [export_predictor],
    whose outcome is the outcome of the whole.  That warning is the only
    record the module ever logs at level WARNING. *)
Theorem non_int8_path_warns (cfg : CfgNode) (m : Model) (pt od : string)
    (dl : DataLoader) (w : World) :
  (PyStr.contains "int8" pt = false ->
   let w1 := record_event (FuseModel m) w in
   match fuse_model w m with
   | Raise e => convert_and_export_predictor cfg m pt od dl w = (Raise e, w1)
   | Ok m' =>
       let w2 := record_event (Log INFO ("Fused Model:" +:+ newline +:+ format_model m'))
                   w1 in
       convert_and_export_predictor cfg m pt od dl w =
         export_predictor cfg m' pt od dl
           (if bool_decide (0 < count_bn_exist m')
            then record_event (Log WARNING bn_warning) w2 else w2)
   end) /\
  (exists evs,
     trace (convert_and_export_predictor cfg m pt od dl w).2 = trace w ++ evs /\
     warnings evs =
       if PyStr.contains "int8" pt then []
       else match fuse_model w m with
            | Ok m' => if bool_decide (0 < count_bn_exist m') then [bn_warning] else []
            | Raise _ => []
            end).
Proof.
  split; [apply convert_non_int8 |].
  destruct (PyStr.contains "int8" pt) eqn:Hpt.
  - destruct (convert_int8_no_warning cfg m pt od dl Hpt w) as (evs & Hw & HP).
    exists evs. rewrite Hw, play_trace. split; [done | by apply warnings_none].
  - pose proof (convert_non_int8 cfg m pt od dl w Hpt) as Hrun. cbv zeta in Hrun.
    destruct (fuse_model w m) as [m'|e].
    + rewrite Hrun.
      match goal with
      | |- context [export_predictor ?c ?m2 ?t ?o ?l ?w3] =>
          destruct (emits_export_predictor c m2 t o l w3) as (evs & Hw & HP);
          rewrite Hw, play_trace
      end.
      assert (warnings evs = []) as Hevs.
      { apply warnings_none. eapply Forall_impl; [exact HP |].
        apply exporter_event_no_warning. }
      destruct (bool_decide (0 < count_bn_exist m')).
      * eexists ([_; _; _] ++ evs). rewrite !trace_record_event, <- !app_assoc.
        split; [reflexivity |]. by rewrite warnings_app, Hevs.
      * eexists ([_; _] ++ evs). rewrite !trace_record_event, <- !app_assoc.
        split; [reflexivity |]. by rewrite warnings_app, Hevs.
    + rewrite Hrun. exists [FuseModel m]. done.
Qed.

End Convert.

(** * The exporter at work *)

Section Witnesses.
Existing Instance Fixture.collaborators.
Import Fixture.

Lemma register_present_key_witness :
  let locked :=
    {| Registry.name := "locked"; Registry.allow_override := false;
       Registry.obj_map := {["caffe2" := DefaultCaffe2Export]} |} in
  Registry.get "caffe2" locked = Ok DefaultCaffe2Export /\
  Registry.register "caffe2" (CustomExport 7) locked = Raise (DuplicateKeyError "caffe2") /\
  Registry.get "caffe2" ModelExportMethodRegistry = Ok DefaultCaffe2Export /\
  exists r', Registry.register "caffe2" (CustomExport 7) ModelExportMethodRegistry = Ok r' /\
             Registry.get "caffe2" r' = Ok (CustomExport 7) /\
             Registry.get "torchscript" r' = Ok DefaultTorchscriptExport.
Proof.
  intros locked.
  assert (Registry.get "caffe2" locked = Ok DefaultCaffe2Export) as Hlocked
    by reflexivity.
  assert (Registry.get "caffe2" ModelExportMethodRegistry = Ok DefaultCaffe2Export) as Himported
    by (vm_compute; reflexivity).
  split; [exact Hlocked |].
  split; [exact (proj1 (register_present_key locked "caffe2" DefaultCaffe2Export
                          (CustomExport 7) Hlocked) eq_refl) |].
  split; [exact Himported |].
  destruct (proj2 (register_present_key ModelExportMethodRegistry "caffe2" DefaultCaffe2Export
                     (CustomExport 7) Himported) eq_refl) as (r' & Hreg & Hget & Hother).
  exists r'. split; [exact Hreg |]. split; [exact Hget |].
  rewrite Hother by discriminate. vm_compute. reflexivity.
Defined.

Lemma export_single_model_contract_witness :
  isinstance_Module not_a_module = false /\
  _export_single_model "out/ts" not_a_module None "out/ts/head"
    (MethodStr "torchscript") (PyMapping []) "torchscript" world
  = (Raise (AssertionError (Some not_a_module)), world) /\
  isinstance_Module head = true /\
  _export_single_model "out/ts" head None "out/ts/head"
    (MethodStr "torchscript") (PyMapping []) "torchscript" world
  = (Ok {| path := "head"; type := "torchscript" |},
     record_event (TraceAndSaveTorchscript head None "out/ts/head" false []) world).
Proof.
  destruct (export_single_model_contract "out/ts" not_a_module None "out/ts/head"
              (MethodStr "torchscript") (PyMapping []) "torchscript" world)
    as (Hfail & _ & _).
  destruct (export_single_model_contract "out/ts" head None "out/ts/head"
              (MethodStr "torchscript") (PyMapping []) "torchscript" world)
    as (_ & Hok & _).
  split; [reflexivity |]. split; [exact (Hfail eq_refl) |]. split; [reflexivity |].
  apply (Hok eq_refl DefaultTorchscriptExport [] (PyMapping [])); vm_compute; reflexivity.
Defined.

Lemma default_export_predictor_layout_witness :
  let run := default_export_predictor cfg two_part_model "torchscript" "out" loader world in
  run.1 = Ok "out/torchscript" /\
  exists manifest entries evs,
    files run.2 !! "out/torchscript/predictor_info.json" = Some (JObject manifest) /\
    PyDict.get "models" manifest = Some (JObject entries) /\
    PyDict.get "model" manifest = None /\
    PyDict.keys entries = ["backbone"; "head"] /\
    trace run.2 = trace world ++ evs /\
    export_save_paths evs = ["out/torchscript/backbone"; "out/torchscript/head"].
Proof.
  intros run.
  assert (run = (Ok "out/torchscript", run.2)) as Hrun by (vm_compute; reflexivity).
  split; [by rewrite Hrun |].
  destruct (default_export_predictor_layout cfg two_part_model "torchscript" "out" loader
              world run.2 "out/torchscript" (BatchObj 0) (config two_parts None)
              Hrun eq_refl eq_refl)
    as (_ & manifest & evs & Hfile & Htrace & Hmodel & entries & Hmodels & _ & _ &
        Hkeys & Hpaths).
  exists manifest, entries, evs.
  split; [exact Hfile |]. split; [exact Hmodels |]. split; [exact Hmodel |].
  split; [| split; [exact Htrace | exact Hpaths]].
  apply Hkeys. unfold PyDict.wf. compute_done.
Defined.

Lemma single_model_relative_path_witness :
  let run := default_export_predictor cfg plain_model "torchscript" "out" loader world in
  run.1 = Ok "out/torchscript" /\
  exists manifest,
    files run.2 !! "out/torchscript/predictor_info.json" = Some (JObject manifest) /\
    PyDict.get "model" manifest
    = Some (JObject [("path", JString "."); ("type", JString "torchscript")]).
Proof.
  intros run.
  assert (run = (Ok "out/torchscript", run.2)) as Hrun by (vm_compute; reflexivity).
  split; [by rewrite Hrun |].
  exact (single_model_relative_path cfg plain_model "torchscript" "out" loader world
           run.2 "out/torchscript" (BatchObj 0) (config (SingleModel plain_model) None)
           plain_model Hrun eq_refl eq_refl eq_refl).
Defined.

Lemma export_predictor_dispatch_witness :
  hasattr custom_model "export_predictor" = true /\
  export_predictor cfg custom_model "torchscript" "out" loader world
  = (Ok "/custom/predictor",
     record_event (ModelExportPredictor custom_model cfg "torchscript" "out" loader) world) /\
  hasattr plain_model "export_predictor" = false /\
  export_predictor cfg plain_model "torchscript" "out" loader world
  = default_export_predictor cfg plain_model "torchscript" "out" loader world.
Proof.
  destruct (export_predictor_dispatch cfg custom_model "torchscript" "out" loader world)
    as (Hcustom & _).
  destruct (export_predictor_dispatch cfg plain_model "torchscript" "out" loader world)
    as (_ & Hplain).
  split; [reflexivity |]. split; [exact (proj1 (Hcustom eq_refl)) |].
  split; [reflexivity | exact (Hplain eq_refl)].
Defined.

Lemma empty_loader_raises_before_mkdirs_witness :
  default_export_predictor cfg plain_model "torchscript" "out" [] world
  = (Raise StopIteration, record_event (IterNext []) world) /\
  dirs (default_export_predictor cfg plain_model "torchscript" "out" [] world).2 = ∅ /\
  IterNext loader ∈ [IterNext loader; PrepareForExport plain_model cfg (BatchObj 0)
                                         "torchscript"].
Proof.
  destruct (empty_loader_raises_before_mkdirs cfg plain_model "torchscript" "out")
    as (Hempty & Hfs & Horder).
  split; [exact (Hempty world) |]. split; [exact (proj1 (Hfs world)) |].
  apply (Horder loader world _ "out/torchscript"
           [TraceAndSaveTorchscript plain_model None "out/torchscript" false [];
            WriteJson "out/torchscript/predictor_info.json"
              (PredictorInfo_to_dict
                 {| pi_model := Some {| path := "."; type := "torchscript" |};
                    pi_models := None;
                    pi_preprocess_info := func "IdentityPreprocess";
                    pi_postprocess_info := func "IdentityPostprocess";
                    pi_run_func_info := func "NaiveRunFunc" |})]).
  vm_compute. reflexivity.
Defined.

Lemma missing_method_key_raises_witness :
  let ec := config two_parts (Some (MethodDict [("backbone", "torchscript")])) in
  export_named_model ec None "out/torchscript" "torchscript" "head" head world
  = (Raise (KeyError (KeyStr "head")), world) /\
  exists e w', default_export_predictor cfg short_method_model "torchscript" "out" loader
                 world = (Raise e, w').
Proof.
  intros ec.
  assert ("head" ∈ PyDict.keys [("backbone", backbone); ("head", head)]) as Hname
    by (right; left).
  destruct (missing_method_key_raises ec [("backbone", backbone); ("head", head)]
              [("backbone", "torchscript")] "head" eq_refl eq_refl Hname eq_refl)
    as (Hturn & _ & Hrun).
  split.
  - exact (Hturn None "out/torchscript" "torchscript" head world None eq_refl).
  - exact (Hrun cfg short_method_model "torchscript" "out" loader world (BatchObj 0)
             eq_refl eq_refl).
Defined.

Lemma named_export_method_two_way_witness :
  named_export_method (config two_parts None) "caffe2" "head" world
  = (Ok (MethodStr "caffe2"), world) /\
  named_export_method (config two_parts (Some (MethodDict [("head", "torchscript")])))
    "caffe2" "head" world
  = (Ok (MethodStr "torchscript"), world) /\
  export_named_model (config two_parts (Some (MethodStr "torchscript"))) None
    "out/caffe2" "caffe2" "head" head world
  = (Raise TypeError, world).
Proof.
  split; [| split].
  - apply (proj1 (named_export_method_two_way (config two_parts None) "caffe2" "head"
                    world)). discriminate.
  - apply (proj1 (named_export_method_two_way
                    (config two_parts (Some (MethodDict [("head", "torchscript")])))
                    "caffe2" "head" world)). discriminate.
  - apply (proj2 (proj2 (named_export_method_two_way
                           (config two_parts (Some (MethodStr "torchscript")))
                           "caffe2" "head" world) "torchscript" eq_refl)
             None "out/caffe2" head None).
    reflexivity.
Defined.

Lemma int8_path_quantizes_witness :
  PyStr.occurs_in "int8" "torchscript_int8" /\
  convert_and_export_predictor cfg bn_model "torchscript_int8" "out" loader world
  = (Raise (AssertionError None),
     record_event (PostTrainingQuantize cfg bn_model loader)
       (record_event (Log INFO ptq_message) world)) /\
  ~ PyStr.occurs_in "int8" "torchscript" /\
  exists evs,
    trace (convert_and_export_predictor cfg bn_model "torchscript" "out" loader world).2
    = trace world ++ evs /\
    Forall (fun ev => ~ quantization_event ev) evs.
Proof.
  assert (PyStr.occurs_in "int8" "torchscript_int8") as Hocc
    by (by exists "torchscript_", "").
  assert (~ PyStr.occurs_in "int8" "torchscript") as Hnot.
  { intros Hin. apply contains_occurs_in in Hin. vm_compute in Hin. discriminate. }
  split; [exact Hocc |].
  split; [exact (proj1 (int8_path_quantizes cfg bn_model "torchscript_int8" "out" loader
                          world) Hocc eq_refl) |].
  split; [exact Hnot |].
  exact (proj2 (int8_path_quantizes cfg bn_model "torchscript" "out" loader world) Hnot).
Defined.

Lemma non_int8_path_warns_witness :
  PyStr.contains "int8" "torchscript" = false /\
  convert_and_export_predictor cfg bn_model "torchscript" "out" loader world
  = export_predictor cfg bn_model "torchscript" "out" loader
      (record_event (Log WARNING bn_warning)
         (record_event (Log INFO ("Fused Model:" +:+ newline +:+ "Model"))
            (record_event (FuseModel bn_model) world))) /\
  (convert_and_export_predictor cfg bn_model "torchscript" "out" loader world).1
  = Ok "out/torchscript" /\
  exists evs,
    trace (convert_and_export_predictor cfg bn_model "torchscript" "out" loader world).2
    = trace world ++ evs /\
    warnings evs = [bn_warning].
Proof.
  destruct (non_int8_path_warns cfg bn_model "torchscript" "out" loader world)
    as (Hrun & Hwarn).
  split; [reflexivity |]. split; [exact (Hrun eq_refl) |].
  split; [vm_compute; reflexivity | exact Hwarn].
Defined.

End Witnesses.

(** * Further properties *)

(** ** What a run leaves on the file system *)






Section FileSystem.
Context `{Collaborators}.




End FileSystem.

Section DirectoryOrder.
Context `{Collaborators}.



End DirectoryOrder.

(** ** The default exporter, step by step *)

Section Steps.
Context `{Collaborators}.

(** Every outcome of a run of [default_export_predictor]. *)
Lemma default_export_predictor_steps (cfg : CfgNode) (pm : Model) (pt od : string)
    (dl : DataLoader) (w : World) :
  default_export_predictor cfg pm pt od dl w =
    if hasattr pm "prepare_for_export" then
      let w1 := record_event (IterNext dl) w in
      match dl with
      | [] => (Raise StopIteration, w1)
      | b :: _ =>
          let w2 := record_event (PrepareForExport pm cfg b pt) w1 in
          match model_prepare_for_export w1 pm cfg b pt with
          | Raise e => (Raise e, w2)
          | Ok ec =>
              match data_generator ec with
              | Some g =>
                  match g b with
                  | Raise e => (Raise e, record_event (DataGenerator b) w2)
                  | Ok x =>
                      export_and_assemble ec (Some x) (PosixPath.join2 od pt) pt
                        (play (prologue cfg pm pt od dl b ec) w)
                  end
              | None =>
                  export_and_assemble ec None (PosixPath.join2 od pt) pt
                    (play (prologue cfg pm pt od dl b ec) w)
              end
          end
      end
    else (Raise (AssertionError (Some pm)), w).
Proof.
  unfold default_export_predictor.
  destruct (hasattr pm "prepare_for_export"); [| done].
  rewrite (bind_Ok_intro _ _ w w tt) by done. cbv zeta.
  set (w1 := record_event (IterNext dl) w).
  destruct dl as [|b dl']; [by rewrite (bind_Raise_intro _ _ w w1 StopIteration) |].
  rewrite (bind_Ok_intro _ _ w w1 b) by done.
  set (w2 := record_event (PrepareForExport pm cfg b pt) w1).
  destruct (model_prepare_for_export w1 pm cfg b pt) as [ec|e] eqn:Hec;
    [| by rewrite (bind_Raise_intro _ _ w1 w2 e) by (unfold call; by rewrite Hec)].
  rewrite (bind_Ok_intro _ _ w1 w2 ec) by (unfold call; by rewrite Hec).
  unfold prologue. destruct (data_generator ec) as [g|].
  - destruct (g b) as [x|e] eqn:Hg.
    + rewrite (bind_Ok_intro _ _ w2 (record_event (DataGenerator b) w2) (Some x))
        by (rewrite (bind_Ok_intro _ _ w2 (record_event (DataGenerator b) w2) x)
              by done; done).
      by rewrite (bind_Ok_intro _ _ _
                    (apply_event (Mkdirs (PosixPath.join2 od pt))
                       (record_event (DataGenerator b) w2)) tt).
    + by rewrite (bind_Raise_intro _ _ w2 (record_event (DataGenerator b) w2) e)
        by (by apply bind_Raise_intro).
  - rewrite (bind_Ok_intro _ _ w2 w2 None) by done.
    by rewrite (bind_Ok_intro _ _ _ (apply_event (Mkdirs (PosixPath.join2 od pt)) w2) tt).
Qed.

(** An export method makes at most one call, to the save path given, and
    leaves the world alone when it raises before the call. *)
Lemma ExportMethod_export_events (impl : ExportMethod) (m : Model)
    (ia : option InputArgs) (sp : string) (kwargs : PyDict.t pyval) (w : World) :
  (exists e, ExportMethod_export impl m ia sp kwargs w = (Raise e, w)) \/
  (exists ev, (ExportMethod_export impl m ia sp kwargs w).2 = record_event ev w /\
              export_save_path ev = Some sp).
Proof.
  destruct impl; simpl.
  - unfold DefaultCaffe2Export_export. rewrite bind_run.
    destruct ia as [[[|x xs]|d]|]; simpl; try (left; by eauto).
    right. rewrite bind_run. unfold call at 1.
    destruct (export_caffe2 w m x sp kwargs); by eexists.
  - unfold DefaultTorchscriptExport_export. right. rewrite bind_run. unfold call at 1.
    destruct (trace_and_save_torchscript w m ia sp false kwargs); by eexists.
  - unfold DefaultTorchscriptMobileExport_export. rewrite bind_run.
    destruct (unpack_kwargs _ (PyMapping kwargs) w) as [[kw|e] w1] eqn:Hkw;
      apply unpack_kwargs_world in Hkw as Hw; subst w1; [| left; by eauto].
    right. rewrite bind_run. unfold call at 1.
    destruct (trace_and_save_torchscript w m ia sp true kw); by eexists.
  - right. by eexists.
Qed.

Lemma export_single_model_events (pp : string) (m : Model) (ia : option InputArgs)
    (sp : string) (meth : MethodField) (kw : pyval) (pt : string) (w : World) :
  (exists e, _export_single_model pp m ia sp meth kw pt w = (Raise e, w)) \/
  (exists ev, (_export_single_model pp m ia sp meth kw pt w).2 = record_event ev w /\
              export_save_path ev = Some sp).
Proof.
  unfold _export_single_model. rewrite bind_run.
  destruct (isinstance_Module m); simpl; [| left; by eauto].
  rewrite bind_run.
  destruct (ModelExportMethodRegistry_get meth w) as [[impl|e] w1] eqn:Hget;
    apply registry_get_world in Hget as Hw; subst w1; [| left; by eauto].
  rewrite bind_run.
  destruct (unpack_kwargs _ kw w) as [[kwargs|e] w1] eqn:Hkw;
    apply unpack_kwargs_world in Hkw as Hw; subst w1; [| left; by eauto].
  rewrite bind_run.
  destruct (ExportMethod_export_events impl m ia sp kwargs w) as [[e He] | (ev & Hev & Hsp)].
  - rewrite He. left. by eauto.
  - right. exists ev. split; [| done].
    destruct (ExportMethod_export impl m ia sp kwargs w) as [[load|e] w1];
      simpl in Hev; subst w1; [| done].
    rewrite bind_run. destruct (isinstance_dict load); simpl; [| done].
    rewrite bind_run. unfold os_path_relpath.
    by destruct (PosixPath.relpath _ _ _).
Qed.

Lemma export_named_model_events (ec : PredictorExportConfig) (mi : option InputArgs)
    (pp pt name : string) (m : Model) (w : World) :
  (exists e, export_named_model ec mi pp pt name m w = (Raise e, w)) \/
  (exists ev, (export_named_model ec mi pp pt name m w).2 = record_event ev w /\
              export_save_path ev = Some (PosixPath.join2 pp name)).
Proof.
  unfold export_named_model. rewrite bind_run.
  destruct (named_input_args mi name w) as [[ia|e] w1] eqn:Hia;
    apply named_input_args_world in Hia as Hw; subst w1; [| left; by eauto].
  rewrite bind_run.
  destruct (named_export_method ec pt name w) as [[meth|e] w1] eqn:Hmeth;
    apply named_export_method_world in Hmeth as [Hw _]; subst w1; [| left; by eauto].
  rewrite bind_run.
  destruct (named_export_kwargs ec name w) as [[kw|e] w1] eqn:Hkw;
    apply named_export_kwargs_world in Hkw as Hw; subst w1; [| left; by eauto].
  apply export_single_model_events.
Qed.

(** The loop exports the sub-models in the order of the mapping and stops
    at the first turn that raises. *)
Lemma export_named_models_events (ec : PredictorExportConfig) (mi : option InputArgs)
    (pp pt : string) (items : list (string * Model)) (acc : PyDict.t ModelInfo)
    (w : World) :
  exists evs later,
    (export_named_models ec mi pp pt items acc w).2 = record_events evs w /\
    map (fun kv => PosixPath.join2 pp kv.1) items = export_save_paths evs ++ later /\
    length (export_save_paths evs) = length evs /\
    (forall infos, (export_named_models ec mi pp pt items acc w).1 = Ok infos ->
                   later = []).
Proof.
  revert acc w. induction items as [|[name m] items IH]; intros acc w; simpl.
  - exists [], []. by rewrite record_events_nil.
  - rewrite bind_run.
    destruct (export_named_model_events ec mi pp pt name m w)
      as [[e He] | (ev & Hev & Hsp)].
    + rewrite He. exists [], (PosixPath.join2 pp name
                              :: map (fun kv => PosixPath.join2 pp kv.1) items).
      by rewrite record_events_nil.
    + destruct (export_named_model ec mi pp pt name m w) as [[info|e] w1];
        simpl in Hev; subst w1.
      * destruct (IH (PyDict.set name info acc) (record_event ev w))
          as (evs & later & Hw & Hpaths & Hlen & Hok).
        exists (ev :: evs), later. rewrite Hw, record_events_cons.
        rewrite export_save_paths_cons, Hsp. simpl. rewrite Hpaths, Hlen. done.
      * exists [ev], (map (fun kv => PosixPath.join2 pp kv.1) items).
        rewrite export_save_paths_cons, Hsp. simpl.
        split; [by rewrite <- (record_events_nil (record_event ev w)), record_events_cons |].
        done.
Qed.

End Steps.

Section Assemble.
Context `{Collaborators}.

(** The single-model case after the root is made: [_export_single_model]
    at the root, then the manifest. *)
Lemma export_and_assemble_single (ec : PredictorExportConfig) (mi : option InputArgs)
    (root pt : string) (m : Model) (w : World) :
  model ec = SingleModel m ->
  export_and_assemble ec mi root pt w =
    match _export_single_model root m mi root (method_or (model_export_method ec) pt)
            (kwargs_or (model_export_kwargs ec)) pt w with
    | (Ok info, w') =>
        (Ok root,
         apply_event
           (WriteJson (manifest_path root)
              (PredictorInfo_to_dict
                 {| pi_model := Some info; pi_models := None;
                    pi_preprocess_info := preprocess_info ec;
                    pi_postprocess_info := postprocess_info ec;
                    pi_run_func_info := run_func_info ec |})) w')
    | (Raise e, w') => (Raise e, w')
    end.
Proof.
  intros Hm. unfold export_and_assemble. rewrite Hm, !bind_run.
  destruct (_export_single_model _ _ _ _ _ _ _ _) as [[info|e] w']; [| done].
  cbn [mret M_ret]. rewrite bind_run. unfold lift.
  by rewrite PredictorInfo_new_model.
Qed.

(** The mapping case after the root is made. *)
Lemma export_and_assemble_named (ec : PredictorExportConfig) (mi : option InputArgs)
    (root pt : string) (d : PyDict.t Model) (w : World) :
  model ec = ModelDict d ->
  export_and_assemble ec mi root pt w =
    match export_named_models ec mi root pt (PyDict.items d) [] w with
    | (Ok infos, w') =>
        (Ok root,
         apply_event
           (WriteJson (manifest_path root)
              (PredictorInfo_to_dict
                 {| pi_model := None; pi_models := Some infos;
                    pi_preprocess_info := preprocess_info ec;
                    pi_postprocess_info := postprocess_info ec;
                    pi_run_func_info := run_func_info ec |})) w')
    | (Raise e, w') => (Raise e, w')
    end.
Proof.
  intros Hm. unfold export_and_assemble. rewrite Hm, !bind_run.
  destruct (export_named_models _ _ _ _ _ _ _) as [[infos|e] w']; [| done].
  cbn [mret M_ret]. rewrite bind_run. unfold lift.
  by rewrite PredictorInfo_new_models.
Qed.

Lemma export_and_assemble_named_events (ec : PredictorExportConfig)
    (mi : option InputArgs) (root pt : string) (d : PyDict.t Model) (w : World) :
  model ec = ModelDict d ->
  exists evs later,
    trace (export_and_assemble ec mi root pt w).2 = trace w ++ evs /\
    map (PosixPath.join2 root) (PyDict.keys d) = export_save_paths evs ++ later /\
    (forall p, (export_and_assemble ec mi root pt w).1 = Ok p -> later = []).
Proof.
  intros Hm. rewrite (export_and_assemble_named _ _ _ _ _ _ Hm).
  destruct (export_named_models_events ec mi root pt (PyDict.items d) [] w)
    as (evs & later & Hw & Hpaths & _ & Hok).
  assert (map (PosixPath.join2 root) (PyDict.keys d)
          = map (fun kv : string * Model => PosixPath.join2 root kv.1) (PyDict.items d))
    as -> by (unfold PyDict.keys, PyDict.items; by rewrite map_map).
  destruct (export_named_models _ _ _ _ _ _ _) as [[infos|e] w']; simpl in Hw; subst w'.
  - eexists (evs ++ [_]), later. cbn [fst snd].
    rewrite trace_apply_event, trace_record_events.
    rewrite export_save_paths_app, <- !app_assoc. simpl.
    split; [done |]. split; [| intros _ _; by eapply Hok].
    rewrite Hpaths. by rewrite app_nil_l.
  - exists evs, later. cbn [fst snd]. rewrite trace_record_events.
    split; [done |]. split; [done |]. intros p Hp. discriminate.
Qed.

(** X3. Sub-models are exported in the order of the mapping, and the first
    failure ends the export.  In every run of [default_export_predictor]
    on a configuration whose model is a mapping, the save paths of the
    export calls made are the paths [root/name] of a first part of the
    names of the mapping, in order; when the run returns, of all of them. *)
Theorem sub_models_exported_in_order (cfg : CfgNode) (pm : Model) (pt od : string)
    (dl : DataLoader) (w : World) (b : Batch) (ec : PredictorExportConfig)
    (d : PyDict.t Model)
    (Hbatch : head dl = Some b)
    (Hconfig : model_prepare_for_export (record_event (IterNext dl) w) pm cfg b pt
               = Ok ec)
    (Hmodel : model ec = ModelDict d) :
  exists evs later,
    trace (default_export_predictor cfg pm pt od dl w).2 = trace w ++ evs /\
    map (PosixPath.join2 (PosixPath.join2 od pt)) (PyDict.keys d)
      = export_save_paths evs ++ later /\
    (forall p, (default_export_predictor cfg pm pt od dl w).1 = Ok p -> later = []).
Proof.
  rewrite default_export_predictor_steps.
  destruct (hasattr pm "prepare_for_export").
  2: { exists [], (map (PosixPath.join2 (PosixPath.join2 od pt)) (PyDict.keys d)).
       simpl. rewrite app_nil_r. repeat split. intros p Hp. discriminate. }
  destruct dl as [|b' dl']; [discriminate |]. injection Hbatch as ->.
  cbv zeta. rewrite Hconfig.
  assert (forall mi,
            exists evs later,
              trace (export_and_assemble ec mi (PosixPath.join2 od pt) pt
                       (play (prologue cfg pm pt od (b :: dl') b ec) w)).2
              = trace w ++ evs /\
              map (PosixPath.join2 (PosixPath.join2 od pt)) (PyDict.keys d)
              = export_save_paths evs ++ later /\
              (forall p, (export_and_assemble ec mi (PosixPath.join2 od pt) pt
                            (play (prologue cfg pm pt od (b :: dl') b ec) w)).1 = Ok p ->
                         later = [])) as Htail.
  { intros mi.
    destruct (export_and_assemble_named_events ec mi (PosixPath.join2 od pt) pt d
                (play (prologue cfg pm pt od (b :: dl') b ec) w) Hmodel)
      as (evs & later & Htrace & Hpaths & Hok).
    exists (prologue cfg pm pt od (b :: dl') b ec ++ evs), later.
    rewrite Htrace, play_trace, export_save_paths_app, export_save_paths_prologue.
    by rewrite <- app_assoc. }
  destruct (data_generator ec) as [g|]; [| apply Htail].
  destruct (g b) as [x|e]; [apply Htail |].
  eexists [_; _; _], _. simpl. rewrite <- !app_assoc. split; [reflexivity |].
  split; [reflexivity |]. intros p Hp. discriminate.
Qed.

Lemma play_registry (evs : list Event) (w : World) :
  registry (play evs w) = registry w.
Proof.
  revert w. induction evs as [|ev evs IH]; intros w; simpl; [done |].
  rewrite IH. by destruct ev.
Qed.

(** A single-model run whose [_export_single_model] raises: the run raises
    the same, in the same world. *)
Lemma default_export_predictor_single_raises (cfg : CfgNode) (pm : Model)
    (pt od : string) (dl : DataLoader) (w w' : World) (b : Batch)
    (ec : PredictorExportConfig) (m : Model) (e : exception) :
  hasattr pm "prepare_for_export" = true ->
  head dl = Some b ->
  model_prepare_for_export (record_event (IterNext dl) w) pm cfg b pt = Ok ec ->
  data_generator ec = None ->
  model ec = SingleModel m ->
  _export_single_model (PosixPath.join2 od pt) m None (PosixPath.join2 od pt)
    (method_or (model_export_method ec) pt) (kwargs_or (model_export_kwargs ec)) pt
    (play (prologue cfg pm pt od dl b ec) w) = (Raise e, w') ->
  default_export_predictor cfg pm pt od dl w = (Raise e, w').
Proof.
  intros Hattr Hb Hec Hgen Hm Hraise. rewrite default_export_predictor_steps, Hattr.
  destruct dl as [|b' dl']; [discriminate |]. injection Hb as ->.
  cbv zeta. rewrite Hec, Hgen.
  by rewrite (export_and_assemble_single _ _ _ _ _ _ Hm), Hraise.
Qed.

(** X4. A method that is not registered fails the export after the
    predictor root is made.  With a single model, no data generator, and
    the export method (the configuration's, or else the predictor type)
    not a key of the registry, [default_export_predictor] raises KeyError
    with that key: the directory [output_dir/predictor_type] has been made,
    no export was called and no manifest written. *)
Theorem unregistered_method_raises (cfg : CfgNode) (pm : Model) (pt od : string)
    (dl : DataLoader) (w : World) (b : Batch) (ec : PredictorExportConfig) (m : Model)
    (key : string)
    (Hattr : hasattr pm "prepare_for_export" = true)
    (Hbatch : head dl = Some b)
    (Hconfig : model_prepare_for_export (record_event (IterNext dl) w) pm cfg b pt
               = Ok ec)
    (Hgen : data_generator ec = None)
    (Hmodel : model ec = SingleModel m)
    (Hmodule : isinstance_Module m = true)
    (Hmethod : method_or (model_export_method ec) pt = MethodStr key)
    (Hkey : Registry.obj_map (registry w) !! key = None) :
  default_export_predictor cfg pm pt od dl w
  = (Raise (KeyError (KeyStr key)),
     play [IterNext dl; PrepareForExport pm cfg b pt; Mkdirs (PosixPath.join2 od pt)] w) /\
  (model_export_method ec = None -> key = pt).
Proof.
  split.
  - apply (default_export_predictor_single_raises cfg pm pt od dl w _ b ec m); try done.
    unfold prologue. rewrite Hgen. simpl app.
    unfold _export_single_model. rewrite Hmodule, Hmethod.
    rewrite bind_run. simpl assert_. cbv iota beta. cbn [mret M_ret].
    apply bind_Raise_intro. unfold ModelExportMethodRegistry_get, Registry.get.
    cbn [registry]. by rewrite Hkey.
  - intros Hnone. rewrite Hnone in Hmethod. by injection Hmethod.
Qed.

(** X5. The caffe2 export needs sample inputs.  With a single model whose
    export method is registered as [DefaultCaffe2Export], no data generator
    and no export kwargs, [default_export_predictor] raises TypeError on
    [input_args[0]]: [export_caffe2] is never called, the predictor root is
    left made and without a manifest. *)
Theorem caffe2_without_inputs_raises (cfg : CfgNode) (pm : Model) (pt od : string)
    (dl : DataLoader) (w : World) (b : Batch) (ec : PredictorExportConfig) (m : Model)
    (key : string)
    (Hattr : hasattr pm "prepare_for_export" = true)
    (Hbatch : head dl = Some b)
    (Hconfig : model_prepare_for_export (record_event (IterNext dl) w) pm cfg b pt
               = Ok ec)
    (Hgen : data_generator ec = None)
    (Hkwargs : model_export_kwargs ec = None)
    (Hmodel : model ec = SingleModel m)
    (Hmodule : isinstance_Module m = true)
    (Hmethod : method_or (model_export_method ec) pt = MethodStr key)
    (Hkey : Registry.obj_map (registry w) !! key = Some DefaultCaffe2Export) :
  default_export_predictor cfg pm pt od dl w
  = (Raise TypeError,
     play [IterNext dl; PrepareForExport pm cfg b pt; Mkdirs (PosixPath.join2 od pt)] w).
Proof.
  apply (default_export_predictor_single_raises cfg pm pt od dl w _ b ec m); try done.
  unfold prologue. rewrite Hgen, Hkwargs. simpl app.
  unfold _export_single_model, ModelExportMethodRegistry_get, Registry.get.
  rewrite Hmodule, Hmethod. run_steps. rewrite play_registry, Hkey. reflexivity.
Qed.

(** X6. The check of what an export returns comes after the export.  When
    the registered method is called and returns something that is not a
    dict, [_export_single_model] raises AssertionError in the world the
    export left: whatever the export saved stays saved. *)
Theorem non_dict_load_kwargs_raises (pp : string) (m : Model) (ia : option InputArgs)
    (sp : string) (key : string) (kw : PyDict.t pyval) (pt : string) (w w' : World)
    (impl : ExportMethod) (load : pyval)
    (Hmodule : isinstance_Module m = true)
    (Hkey : Registry.get key (registry w) = Ok impl)
    (Hreserved : existsb (fun k => PyDict.mem k kw) ["model"; "input_args"; "save_path"]
                 = false)
    (Hexport : ExportMethod_export impl m ia sp kw w = (Ok load, w'))
    (Hload : isinstance_dict load = false) :
  _export_single_model pp m ia sp (MethodStr key) (PyMapping kw) pt w
  = (Raise (AssertionError None), w') /\
  exists ev, w' = record_event ev w /\ export_save_path ev = Some sp.
Proof.
  split; [| by eapply ExportMethod_export_Ok].
  unfold _export_single_model. rewrite Hmodule.
  rewrite bind_run. simpl assert_. cbv iota beta. cbn [mret M_ret].
  rewrite (bind_Ok_intro _ _ w w impl) by (simpl; by rewrite Hkey).
  rewrite (bind_Ok_intro _ _ w w kw) by (unfold unpack_kwargs; by rewrite Hreserved).
  rewrite (bind_Ok_intro _ _ w w' load) by done.
  by rewrite Hload.
Qed.

(** A loop that returns: every turn returned. *)
Lemma export_named_models_Ok_turns (ec : PredictorExportConfig) (mi : option InputArgs)
    (pp pt : string) (items : list (string * Model)) (acc infos : PyDict.t ModelInfo)
    (w w' : World) :
  export_named_models ec mi pp pt items acc w = (Ok infos, w') ->
  Forall (fun kv => exists info w0 w1,
            export_named_model ec mi pp pt kv.1 kv.2 w0 = (Ok info, w1)) items.
Proof.
  revert acc w. induction items as [|[name m] items IH]; intros acc w Hrun; simpl in Hrun.
  - constructor.
  - apply bind_Ok_inv in Hrun as (info & w1 & Hturn & Hrun).
    constructor; [by eauto | by eapply IH].
Qed.

(** A turn that returns was given a dict of kwargs, free of the keywords
    the call writes out. *)
Lemma export_named_model_Ok_kwargs (ec : PredictorExportConfig) (mi : option InputArgs)
    (pp pt name : string) (m : Model) (w w' : World) (info : ModelInfo)
    (kw : PyDict.t pyval) :
  model_export_kwargs ec = Some kw ->
  export_named_model ec mi pp pt name m w = (Ok info, w') ->
  exists dk, PyDict.get name kw = Some (PyMapping dk) /\
             existsb (fun k => PyDict.mem k dk) ["model"; "input_args"; "save_path"]
             = false.
Proof.
  intros Hkw Hrun. unfold export_named_model in Hrun.
  apply bind_Ok_inv in Hrun as (ia & w1 & Hia & Hrun).
  apply bind_Ok_inv in Hrun as (meth & w2 & Hmeth & Hrun).
  apply bind_Ok_inv in Hrun as (kwv & w3 & Hkwv & Hrun).
  unfold named_export_kwargs, kwargs_getitem in Hkwv. rewrite Hkw in Hkwv.
  destruct (PyDict.get name kw) as [v|]; [| discriminate].
  injection Hkwv as -> ->.
  apply export_single_model_Ok_iff in Hrun
    as (_ & impl & kwargs & load & _ & Hunpack & _).
  unfold unpack_kwargs in Hunpack. destruct kwv as [| | | |dk]; try discriminate.
  exists dk. split; [done |]. by destruct (existsb _ _).
Qed.

(** X7. When export kwargs are given for a mapping of models, each
    sub-model needs its own dict.  A name missing from
    [model_export_kwargs] makes the turn of that sub-model raise KeyError
    with the name, before any export is attempted; and a run of
    [default_export_predictor] returns only if [model_export_kwargs] has,
    for every name of the mapping, a dict without the keys model,
    input_args and save_path. *)
Theorem named_kwargs_required (ec : PredictorExportConfig) (d : PyDict.t Model)
    (kw : PyDict.t pyval)
    (Hmodel : model ec = ModelDict d)
    (Hkwargs : model_export_kwargs ec = Some kw) :
  (forall name mi pp pt m w ia meth,
     PyDict.get name kw = None ->
     named_input_args mi name w = (Ok ia, w) ->
     named_export_method ec pt name w = (Ok meth, w) ->
     export_named_model ec mi pp pt name m w = (Raise (KeyError (KeyStr name)), w)) /\
  (forall cfg pm pt od dl w b p w',
     head dl = Some b ->
     model_prepare_for_export (record_event (IterNext dl) w) pm cfg b pt = Ok ec ->
     default_export_predictor cfg pm pt od dl w = (Ok p, w') ->
     forall name, name ∈ PyDict.keys d ->
       exists dk, PyDict.get name kw = Some (PyMapping dk) /\
                  existsb (fun k => PyDict.mem k dk) ["model"; "input_args"; "save_path"]
                  = false).
Proof.
  split.
  - intros name mi pp pt m w ia meth Hmissing Hia Hmeth. unfold export_named_model.
    rewrite (bind_Ok_intro _ _ _ _ _ Hia), (bind_Ok_intro _ _ _ _ _ Hmeth).
    apply bind_Raise_intro. unfold named_export_kwargs, kwargs_getitem.
    by rewrite Hkwargs, Hmissing.
  - intros cfg pm pt od dl w b p w' Hb Hec Hrun name Hname.
    apply default_export_predictor_Ok in Hrun
      as (b' & ec' & mi & w3 & kwargs & pinfo & _ & Hb' & Hec' & _ & Hbody & _).
    assert (b' = b) as -> by congruence. assert (ec' = ec) as -> by congruence.
    rewrite Hmodel in Hbody. destruct Hbody as (infos & Hloop & _).
    apply export_named_models_Ok_turns in Hloop. rewrite Forall_forall in Hloop.
    apply list_elem_of_fmap in Hname as ([name' m] & -> & Hin).
    destruct (Hloop _ Hin) as (info & w0 & w1 & Hturn).
    by eapply export_named_model_Ok_kwargs.
Qed.

End Assemble.

(** ** The registry after import *)

Section ImportedRegistry.
Context `{Collaborators}.

Lemma get_Some_elem_of {V} (d : PyDict.t V) (k : string) (v : V) :
  NoDup (PyDict.keys d) -> (PyDict.get k d = Some v <-> (k, v) ∈ d).
Proof.
  induction d as [|[k' v'] d IH]; simpl; intros Hnd.
  - split; [done | by intros ?%elem_of_nil].
  - apply NoDup_cons in Hnd as [Hk' Hnd]. case_bool_decide as E.
    + subst k'. split.
      * intros [= ->]. left.
      * intros [[= ->] | Hin]%elem_of_cons; [done |].
        exfalso. apply Hk'. apply list_elem_of_fmap. by exists (k, v).
    + rewrite (IH Hnd). rewrite elem_of_cons. naive_solver.
Qed.

Lemma imported_obj_map :
  Registry.obj_map ModelExportMethodRegistry =
    <["torchscript_mobile" := DefaultTorchscriptMobileExport]>
      (<["torchscript_mobile_int8" := DefaultTorchscriptMobileExport]>
         (<["torchscript" := DefaultTorchscriptExport]>
            (<["torchscript@tracing" := DefaultTorchscriptExport]>
               (<["torchscript@scripting" := DefaultTorchscriptExport]>
                  (<["torchscript_int8" := DefaultTorchscriptExport]>
                     (<["torchscript_int8@tracing" := DefaultTorchscriptExport]>
                        (<["torchscript_int8@scripting" := DefaultTorchscriptExport]>
                           (<["caffe2" := DefaultCaffe2Export]> ∅)))))))).
Proof. reflexivity. Qed.

(** [get] on the imported registry reads the table of the decorators. *)
Lemma imported_registry_get (key : string) :
  Registry.get key ModelExportMethodRegistry =
    match PyDict.get key module_registrations with
    | Some impl => Ok impl
    | None => Raise (KeyError (KeyStr key))
    end.
Proof.
  unfold Registry.get. rewrite imported_obj_map.
  repeat (rewrite lookup_insert; case_decide; [subst key; reflexivity |]).
  rewrite lookup_empty. unfold module_registrations. simpl.
  by rewrite !bool_decide_eq_false_2 by done.
Qed.

(** X8. After the import the registry knows the nine keys of the
    decorators and no other: [get] returns a class for a key exactly when
    a decorator registered the class under the key, and raises KeyError
    with the key otherwise. *)
Theorem imported_registry_keys (key : string) :
  (forall impl,
     Registry.get key ModelExportMethodRegistry = Ok impl <->
     (key, impl) ∈ module_registrations) /\
  (key ∉ PyDict.keys module_registrations ->
   Registry.get key ModelExportMethodRegistry = Raise (KeyError (KeyStr key))).
Proof.
  assert (NoDup (PyDict.keys module_registrations)) as Hnd by compute_done.
  rewrite imported_registry_get. split.
  - intros impl. rewrite <- (get_Some_elem_of _ _ _ Hnd).
    destruct (PyDict.get key module_registrations); naive_solver.
  - intros Hkey. apply get_None_keys in Hkey. by rewrite Hkey.
Qed.

(** X9. The classes registered by the module hand back an empty dict.
    For every key of the imported registry, an [export] that returns has
    made one call of its back end, to the save path given, and returns
    [{}]: the check on [load_kwargs] in [_export_single_model] passes. *)
Theorem imported_exports_return_dict (key : string) (impl : ExportMethod) (m : Model)
    (ia : option InputArgs) (sp : string) (kwargs : PyDict.t pyval) (w w' : World)
    (load : pyval)
    (Hkey : Registry.get key ModelExportMethodRegistry = Ok impl)
    (Hexport : ExportMethod_export impl m ia sp kwargs w = (Ok load, w')) :
  load = PyMapping [] /\
  isinstance_dict load = true /\
  exists ev, w' = record_event ev w /\ export_save_path ev = Some sp /\
             forall id m' ia' sp' kw', ev <> CustomExportCall id m' ia' sp' kw'.
Proof.
  rewrite imported_registry_get in Hkey.
  assert (impl = DefaultCaffe2Export \/ impl = DefaultTorchscriptExport \/
          impl = DefaultTorchscriptMobileExport) as Himpl.
  { destruct (PyDict.get key module_registrations) as [impl'|] eqn:Hget; [| discriminate].
    injection Hkey as ->.
    apply get_Some_elem_of in Hget; [| compute_done].
    unfold module_registrations in Hget.
    repeat (apply elem_of_cons in Hget as [[= _ ->] | Hget]; [by auto |]).
    by apply elem_of_nil in Hget. }
  destruct Himpl as [-> | [-> | ->]]; simpl in Hexport.
  - unfold DefaultCaffe2Export_export in Hexport.
    apply bind_Ok_inv in Hexport as (x & w1 & Hx & Hexport).
    apply bind_Ok_inv in Hexport as (u & w2 & Hcall & Hexport).
    apply call_inv in Hcall as [_ ->]. injection Hexport as <- <-.
    assert (w1 = w) as ->.
    { destruct ia as [[[|? ?]|?]|]; simpl in Hx; by inversion Hx. }
    split; [done |]. split; [done |]. eexists. split; [done |]. split; [done |]. done.
  - unfold DefaultTorchscriptExport_export in Hexport.
    apply bind_Ok_inv in Hexport as (u & w2 & Hcall & Hexport).
    apply call_inv in Hcall as [_ ->]. injection Hexport as <- <-.
    split; [done |]. split; [done |]. eexists. split; [done |]. split; [done |]. done.
  - unfold DefaultTorchscriptMobileExport_export in Hexport.
    apply bind_Ok_inv in Hexport as (kw & w1 & Hkw & Hexport).
    apply unpack_kwargs_world in Hkw as ->.
    apply bind_Ok_inv in Hexport as (u & w2 & Hcall & Hexport).
    apply call_inv in Hcall as [_ ->]. injection Hexport as <- <-.
    split; [done |]. split; [done |]. eexists. split; [done |]. split; [done |]. done.
Qed.

End ImportedRegistry.

(** ** The int8 path to its end *)

Section Int8Path.
Context `{Collaborators}.

Lemma ptq_calls_app (e1 e2 : list Event) :
  ptq_calls (e1 ++ e2) = ptq_calls e1 ++ ptq_calls e2.
Proof. apply omap_app. Qed.

Lemma ptq_calls_none (evs : list Event) :
  Forall (fun ev => ptq_call ev = None) evs -> ptq_calls evs = [].
Proof.
  induction 1 as [|ev evs Hev _ IH]; [done |].
  unfold ptq_calls in *. simpl. by rewrite Hev.
Qed.

Lemma exporter_event_no_ptq (ev : Event) : exporter_event ev -> ptq_call ev = None.
Proof. by destruct ev. Qed.

Lemma conversion_call_no_ptq (cfg : CfgNode) (m : Model) :
  ptq_call (conversion_call cfg m) = None.
Proof.
  unfold conversion_call. destruct (QUANTIZATION_EAGER_MODE cfg); [done |].
  by destruct (hasattr m "prepare_for_quant_convert").
Qed.

(** The int8 path of a model trained quantization aware. *)
Lemma convert_int8_qat (cfg : CfgNode) (m : Model) (pt od : string) (dl : DataLoader)
    (w : World) :
  PyStr.contains "int8" pt = true ->
  QUANTIZATION_QAT_ENABLED cfg = true ->
  convert_and_export_predictor cfg m pt od dl w = convert_then_export cfg m pt od dl w.
Proof.
  intros Hpt Hqat. unfold convert_and_export_predictor, convert_then_export.
  rewrite Hpt, Hqat. run_steps.
  unfold conversion_outcome, conversion_call, converting_message, quantized_message.
  destruct (QUANTIZATION_EAGER_MODE cfg);
    [| destruct (hasattr m "prepare_for_quant_convert")]; cbv beta iota;
    match goal with
    | |- context [match ?outcome with Ok _ => _ | Raise _ => _ end] =>
        destruct outcome
    end; reflexivity.
Qed.

(** The int8 path after post training quantization has given a model
    without batch normalization. *)
Lemma convert_int8_after_ptq (cfg : CfgNode) (m m1 : Model) (pt od : string)
    (dl : DataLoader) (w : World) :
  PyStr.contains "int8" pt = true ->
  QUANTIZATION_QAT_ENABLED cfg = false ->
  post_training_quantize (record_event (Log INFO ptq_message) w) cfg m dl = Ok m1 ->
  check_bn_exist m1 = false ->
  convert_and_export_predictor cfg m pt od dl w =
    convert_then_export cfg m1 pt od dl
      (record_event (PostTrainingQuantize cfg m dl)
         (record_event (Log INFO ptq_message) w)).
Proof.
  intros Hpt Hqat Hptq Hbn. unfold convert_and_export_predictor, convert_then_export.
  rewrite Hpt, Hqat. run_steps.
  match goal with
  | |- context [record_event (Log INFO ?s) w] =>
      change (record_event (Log INFO s) w) with (record_event (Log INFO ptq_message) w)
  end.
  rewrite Hptq. run_steps. rewrite Hbn. run_steps.
  unfold conversion_outcome, conversion_call, converting_message, quantized_message.
  destruct (QUANTIZATION_EAGER_MODE cfg);
    [| destruct (hasattr m1 "prepare_for_quant_convert")]; cbv beta iota;
    match goal with
    | |- context [match ?outcome with Ok _ => _ | Raise _ => _ end] =>
        destruct outcome
    end; reflexivity.
Qed.

(** The events of the conversion and the export: no call of post training
    quantization among them. *)
Lemma convert_then_export_events (cfg : CfgNode) (m : Model) (pt od : string)
    (dl : DataLoader) (w : World) :
  exists evs,
    trace (convert_then_export cfg m pt od dl w).2 = trace w ++ evs /\
    ptq_calls evs = [] /\
    exists rest, evs = Log INFO (converting_message cfg) :: conversion_call cfg m :: rest.
Proof.
  unfold convert_then_export. cbv zeta.
  destruct (conversion_outcome cfg m _) as [m'|e].
  - match goal with
    | |- context [export_predictor ?c ?m2 ?t ?o ?l ?w3] =>
        destruct (emits_export_predictor c m2 t o l w3) as (evs & Hw & HP)
    end.
    exists ([Log INFO (converting_message cfg); conversion_call cfg m;
             Log INFO (quantized_message m')] ++ evs).
    rewrite Hw, play_trace, !trace_record_event, <- !app_assoc.
    split; [done |]. split; [| by eexists].
    rewrite ptq_calls_app. unfold ptq_calls at 1. simpl.
    rewrite conversion_call_no_ptq. apply ptq_calls_none.
    eapply Forall_impl; [exact HP | apply exporter_event_no_ptq].
  - exists [Log INFO (converting_message cfg); conversion_call cfg m].
    cbn [snd]. rewrite !trace_record_event, <- !app_assoc.
    split; [done |]. split; [| by eexists].
    unfold ptq_calls. simpl. by rewrite conversion_call_no_ptq.
Qed.

(** X10. A model trained quantization aware goes straight to conversion.
    With "int8" in the predictor type and [QUANTIZATION.QAT.ENABLED] on,
    [convert_and_export_predictor] does not call post training
    quantization and does not check for batch normalization: it logs,
    converts the model it was given (eagerly, by the model's own
    [prepare_for_quant_convert], or by [convert_fx]), and what the run
    returns is what [export_predictor] returns on the converted model; a
    conversion that raises ends the run before any export. *)
Theorem qat_model_converted_directly (cfg : CfgNode) (m : Model) (pt od : string)
    (dl : DataLoader) (w : World)
    (Hint8 : PyStr.contains "int8" pt = true)
    (Hqat : QUANTIZATION_QAT_ENABLED cfg = true) :
  let w1 := record_event (Log INFO (converting_message cfg)) w in
  let w2 := record_event (conversion_call cfg m) w1 in
  convert_and_export_predictor cfg m pt od dl w =
    match conversion_outcome cfg m w1 with
    | Ok m' =>
        export_predictor cfg m' pt od dl
          (record_event (Log INFO (quantized_message m')) w2)
    | Raise e => (Raise e, w2)
    end.
Proof. by apply convert_int8_qat. Qed.

(** X11. After post training quantization the quantized model is the one
    converted, and the converted model the one exported.  With "int8" in
    the predictor type, QAT off, and a model without batch normalization
    back from post training quantization, the conversion is called on that
    model and [export_predictor] on the outcome of the conversion; a
    conversion that raises ends the run before any export. *)
Theorem ptq_output_converted_and_exported (cfg : CfgNode) (m m1 : Model)
    (pt od : string) (dl : DataLoader) (w : World)
    (Hint8 : PyStr.contains "int8" pt = true)
    (Hqat : QUANTIZATION_QAT_ENABLED cfg = false)
    (Hptq : post_training_quantize (record_event (Log INFO ptq_message) w) cfg m dl
            = Ok m1)
    (Hbn : check_bn_exist m1 = false) :
  let w0 := record_event (PostTrainingQuantize cfg m dl)
              (record_event (Log INFO ptq_message) w) in
  let w1 := record_event (Log INFO (converting_message cfg)) w0 in
  let w2 := record_event (conversion_call cfg m1) w1 in
  convert_and_export_predictor cfg m pt od dl w =
    match conversion_outcome cfg m1 w1 with
    | Ok m' =>
        export_predictor cfg m' pt od dl
          (record_event (Log INFO (quantized_message m')) w2)
    | Raise e => (Raise e, w2)
    end.
Proof. by apply convert_int8_after_ptq. Qed.

(** X12. Post training quantization is called at most once, and only for
    an int8 predictor type with QAT off.  In every run of
    [convert_and_export_predictor] the calls of [post_training_quantize]
    are: one, with the given cfg, model and data loader, when "int8" is in
    the predictor type and [QUANTIZATION.QAT.ENABLED] is off; none
    otherwise. *)
Theorem ptq_called_once (cfg : CfgNode) (m : Model) (pt od : string) (dl : DataLoader)
    (w : World) :
  exists evs,
    trace (convert_and_export_predictor cfg m pt od dl w).2 = trace w ++ evs /\
    ptq_calls evs =
      if PyStr.contains "int8" pt && negb (QUANTIZATION_QAT_ENABLED cfg)
      then [(cfg, m, dl)] else [].
Proof.
  destruct (PyStr.contains "int8" pt) eqn:Hpt; simpl.
  - destruct (QUANTIZATION_QAT_ENABLED cfg) eqn:Hqat; simpl.
    + rewrite convert_int8_qat by done.
      destruct (convert_then_export_events cfg m pt od dl w) as (evs & Ht & Hp & _).
      by exists evs.
    + pose proof (convert_int8_ptq cfg m pt od dl w Hpt Hqat) as Hrun. cbv zeta in Hrun.
      destruct (post_training_quantize _ cfg m dl) as [m1|e] eqn:Hptq.
      * destruct (check_bn_exist m1) eqn:Hbn.
        -- rewrite Hrun. exists [Log INFO ptq_message; PostTrainingQuantize cfg m dl].
           cbn [snd]. rewrite !trace_record_event, <- !app_assoc. done.
        -- rewrite (convert_int8_after_ptq cfg m m1) by done.
           destruct (convert_then_export_events cfg m1 pt od dl
                       (record_event (PostTrainingQuantize cfg m dl)
                          (record_event (Log INFO ptq_message) w)))
             as (evs & Ht & Hp & _).
           exists ([Log INFO ptq_message; PostTrainingQuantize cfg m dl] ++ evs).
           rewrite Ht, !trace_record_event, <- !app_assoc. split; [done |].
           rewrite ptq_calls_app, Hp. done.
      * rewrite Hrun. exists [Log INFO ptq_message; PostTrainingQuantize cfg m dl].
        cbn [snd]. rewrite !trace_record_event, <- !app_assoc. done.
  - destruct (convert_non_int8_events cfg m pt od dl Hpt w) as (evs & Hw & HP).
    exists evs. rewrite Hw, play_trace. split; [done |].
    apply ptq_calls_none. eapply Forall_impl; [exact HP |].
    intros ev Hev. by destruct ev.
Qed.

End Int8Path.

(** ** Paths under the predictor root *)

Section PathFacts.

Lemma append_cons (x : ascii) (a b : string) : String x a +:+ b = String x (a +:+ b).
Proof. reflexivity. Qed.

Lemma append_nil_r (s : string) : s +:+ "" = s.
Proof. induction s as [|x s IH]; [done | by rewrite append_cons, IH]. Qed.

Lemma append_assoc (a b c : string) : (a +:+ b) +:+ c = a +:+ b +:+ c.
Proof. induction a as [|x a IH]; [done | by rewrite !append_cons, IH]. Qed.

Lemma split_cons (c x : ascii) (s : string) :
  PyStr.split c (String x s) =
    if Ascii.eqb x c then "" :: PyStr.split c s
    else match PyStr.split c s with
         | [] => [String x ""]
         | piece :: rest => String x piece :: rest
         end.
Proof. reflexivity. Qed.

Lemma split_nonempty (c : ascii) (s : string) : PyStr.split c s <> [].
Proof.
  induction s as [|x s IH]; [done |]. rewrite split_cons.
  destruct (Ascii.eqb x c); [done |]. by destruct (PyStr.split c s).
Qed.

Lemma split_app_sep (c : ascii) (a b : string) :
  PyStr.split c (a +:+ String c b) = PyStr.split c a ++ PyStr.split c b.
Proof.
  induction a as [|x a IH].
  - change ("" +:+ String c b) with (String c b).
    by rewrite split_cons, Ascii.eqb_refl.
  - rewrite append_cons, !split_cons.
    destruct (Ascii.eqb x c); rewrite IH; [done |].
    destruct (PyStr.split c a) eqn:E; [by apply split_nonempty in E | done].
Qed.

Lemma startswith_sep (x : ascii) (t : string) :
  PyStr.startswith "/" (String x t) = Ascii.eqb "/" x.
Proof.
  change (PyStr.startswith "/" (String x t))
    with (if Ascii.eqb "/" x then PyStr.startswith "" t else false).
  destruct (Ascii.eqb "/" x); [by destruct t | done].
Qed.

Lemma contains_sep_cons (x : ascii) (t : string) :
  PyStr.contains "/" (String x t) = Ascii.eqb "/" x || PyStr.contains "/" t.
Proof. by rewrite contains_unfold, startswith_sep. Qed.

Lemma split_no_sep (name : string) :
  PyStr.contains "/" name = false -> PyStr.split "/" name = [name].
Proof.
  induction name as [|x name IH]; [done |]. intros Hc.
  rewrite contains_sep_cons in Hc. apply orb_false_iff in Hc as [Hx Hname].
  rewrite split_cons, Ascii.eqb_sym, Hx. by rewrite IH.
Qed.

Lemma split_pieces_no_sep (s : string) :
  Forall (fun p => PyStr.contains "/" p = false) (PyStr.split "/" s).
Proof.
  induction s as [|x s IH]; [by repeat constructor |]. rewrite split_cons.
  destruct (Ascii.eqb x "/") eqn:E; [by constructor |].
  destruct (PyStr.split "/" s) as [|p r].
  - constructor; [| done]. by rewrite contains_sep_cons, Ascii.eqb_sym, E.
  - inversion IH as [|? ? Hp Hr]; subst. constructor; [| done].
    by rewrite contains_sep_cons, Ascii.eqb_sym, E.
Qed.

Lemma Forall_removelast {A} (P : A -> Prop) (l : list A) :
  Forall P l -> Forall P (removelast l).
Proof.
  induction 1 as [|x l Hx Hl IH]; simpl; [done |].
  destruct l; [done | by constructor].
Qed.

Lemma step_components (k : nat) (comps : list string) (comp : string) :
  Forall is_component comps -> PyStr.contains "/" comp = false ->
  Forall is_component (PosixPath.normpath_step k comps comp).
Proof.
  intros Hcomps Hcomp. unfold PosixPath.normpath_step.
  destruct (bool_decide (comp = "") || bool_decide (comp = ".")) eqn:E; [done |].
  apply orb_false_iff in E as [E _]. apply bool_decide_eq_false in E.
  destruct (_ || _); [| by apply Forall_removelast].
  apply Forall_app. split; [done |]. by repeat constructor.
Qed.

Lemma fold_components (k : nat) (pieces acc : list string) :
  Forall is_component acc ->
  Forall (fun p => PyStr.contains "/" p = false) pieces ->
  Forall is_component (fold_left (PosixPath.normpath_step k) pieces acc).
Proof.
  intros Hacc Hpieces. revert acc Hacc.
  induction Hpieces as [|p pieces Hp _ IH]; intros acc Hacc; simpl; [done |].
  apply IH. by apply step_components.
Qed.

Lemma plain_name_spec (name : string) :
  plain_name name = true ->
  name <> "" /\ name <> "." /\ name <> ".." /\ PyStr.contains "/" name = false.
Proof.
  unfold plain_name. rewrite !andb_true_iff, !negb_true_iff.
  intros [[[H1 H2] H3] H4]. apply bool_decide_eq_false in H1, H2, H3. done.
Qed.

Lemma step_plain (k : nat) (comps : list string) (name : string) :
  plain_name name = true -> PosixPath.normpath_step k comps name = comps ++ [name].
Proof.
  intros (H1 & H2 & H3 & _)%plain_name_spec. unfold PosixPath.normpath_step.
  by rewrite !bool_decide_eq_false_2 by done.
Qed.

Lemma step_nonzero (k : nat) (comps : list string) (comp : string) :
  k <> 0 -> PosixPath.normpath_step k comps comp = PosixPath.normpath_step 1 comps comp.
Proof.
  intros Hk. unfold PosixPath.normpath_step.
  by rewrite (bool_decide_eq_false_2 (k = 0)), (bool_decide_eq_false_2 (1 = 0)) by done.
Qed.

Lemma fold_step_nonzero (k : nat) (pieces acc : list string) :
  k <> 0 ->
  fold_left (PosixPath.normpath_step k) pieces acc
  = fold_left (PosixPath.normpath_step 1) pieces acc.
Proof.
  intros Hk. revert acc. induction pieces as [|p pieces IH]; intros acc; simpl; [done |].
  by rewrite IH, step_nonzero.
Qed.

Lemma split_join (comps : list string) :
  Forall is_component comps -> comps <> [] ->
  PyStr.split "/" (PyStr.join "/" comps) = comps.
Proof.
  induction 1 as [|x rest [_ Hx] Hrest IH]; [done |]. intros _.
  destruct rest as [|y rest'].
  - simpl. by apply split_no_sep.
  - change (PyStr.join "/" (x :: y :: rest'))
      with (x +:+ String "/" (PyStr.join "/" (y :: rest'))).
    rewrite split_app_sep, split_no_sep, IH by done. done.
Qed.

Lemma filter_truthy_components (comps : list string) :
  Forall is_component comps ->
  filter (fun x => PyStr.truthy x = true) comps = comps.
Proof.
  induction 1 as [|x rest [Hx _] _ IH]; [done |].
  rewrite filter_cons_True by (by destruct x). by rewrite IH.
Qed.

Lemma isabs_cons (s : string) :
  PosixPath.isabs s = true -> exists t, s = String "/" t.
Proof.
  unfold PosixPath.isabs. destruct s as [|x t]; [discriminate |].
  rewrite startswith_sep. intros ->%Ascii.eqb_eq. by exists t.
Qed.

(** The components of a normalized absolute path. *)
Lemma normpath_abs (A : string) :
  PosixPath.isabs A = true ->
  filter (fun x => PyStr.truthy x = true) (PyStr.split PosixPath.sep (PosixPath.normpath A))
  = canonical_components A.
Proof.
  intros Habs. destruct (isabs_cons A Habs) as [t ->].
  unfold PosixPath.normpath, canonical_components, PosixPath.sep.
  change (PyStr.truthy (String "/" t)) with true. cbn [negb].
  change (PyStr.startswith "/" (String "/" t)) with true. cbv iota.
  set (pieces := PyStr.split "/" (String "/" t)).
  assert (forall k, k <> 0 ->
            filter (fun x => PyStr.truthy x = true)
              (PyStr.split "/"
                 (let path' := match k with 0 => "" | 1 => "/" | _ => "//" end
                                +:+ PyStr.join "/" (fold_left (PosixPath.normpath_step k)
                                                      pieces []) in
                  if PyStr.truthy path' then path' else "."))
            = fold_left (PosixPath.normpath_step 1) pieces []) as Hk.
  { intros k Hk. rewrite (fold_step_nonzero k) by done.
    set (comps := fold_left (PosixPath.normpath_step 1) pieces []).
    assert (Forall is_component comps) as Hcomps
      by (apply fold_components; [done | apply split_pieces_no_sep]).
    assert (filter (fun x => PyStr.truthy x = true)
              (PyStr.split "/" (PyStr.join "/" comps)) = comps) as Hsplit.
    { destruct comps as [|c comps'] eqn:E; [done |].
      rewrite split_join by done. by apply filter_truthy_components. }
    destruct k as [|[|k]]; [done | |]; cbv zeta iota.
    - change ("/" +:+ PyStr.join "/" comps) with (String "/" (PyStr.join "/" comps)).
      change (PyStr.truthy (String "/" (PyStr.join "/" comps))) with true. cbv iota.
      rewrite split_cons, Ascii.eqb_refl, filter_cons_False by done. done.
    - change ("//" +:+ PyStr.join "/" comps)
        with (String "/" (String "/" (PyStr.join "/" comps))).
      change (PyStr.truthy (String "/" (String "/" (PyStr.join "/" comps)))) with true.
      cbv iota.
      rewrite !split_cons, !Ascii.eqb_refl, !filter_cons_False by done. done. }
  destruct (PyStr.startswith "//" (String "/" t)
            && negb (PyStr.startswith "///" (String "/" t)));
    [exact (Hk 2 ltac:(done)) | exact (Hk 1 ltac:(done))].
Qed.

Lemma truthy_app_r (a b : string) : PyStr.truthy b = true -> PyStr.truthy (a +:+ b) = true.
Proof. destruct a; [done |]. by rewrite append_cons. Qed.

Lemma endswith_char_cons (c x : ascii) (s : string) :
  s <> "" -> PyStr.endswith_char c (String x s) = PyStr.endswith_char c s.
Proof. by destruct s. Qed.

Lemma append_nonempty_r (a b : string) : b <> "" -> a +:+ b <> "".
Proof. intros Hb. destruct a; [done |]. by rewrite append_cons. Qed.

Lemma endswith_char_app (c : ascii) (a b : string) :
  b <> "" -> PyStr.endswith_char c (a +:+ b) = PyStr.endswith_char c b.
Proof.
  intros Hb. induction a as [|x a IH]; [done |].
  rewrite append_cons, endswith_char_cons by by apply append_nonempty_r. done.
Qed.

(** A string that ends with the separator splits into pieces of which the
    last is empty; text without separator put behind it takes that place. *)
Lemma split_endswith (a b : string) :
  PyStr.endswith_char "/" a = true -> PyStr.contains "/" b = false ->
  exists init, init <> [] /\ PyStr.split "/" a = init ++ [""] /\
               PyStr.split "/" (a +:+ b) = init ++ [b].
Proof.
  intros Ha Hb. induction a as [|x a IH]; [done |].
  destruct a as [|y a'].
  - simpl in Ha. apply Ascii.eqb_eq in Ha as ->.
    exists [""]. split; [done |]. split; [done |].
    change ("/" +:+ b) with (String "/" b).
    rewrite split_cons, Ascii.eqb_refl. by rewrite split_no_sep.
  - rewrite endswith_char_cons in Ha by done.
    destruct (IH Ha) as (init & Hne & Hsplit & Happ).
    rewrite append_cons. rewrite (split_cons _ x), (split_cons _ x (_ +:+ _)).
    rewrite Hsplit, Happ.
    destruct (Ascii.eqb x "/").
    + by exists ("" :: init).
    + destruct init as [|p init']; [done |]. by exists (String x p :: init').
Qed.

Lemma plain_not_abs (name : string) :
  plain_name name = true -> PyStr.startswith "/" name = false.
Proof.
  intros (Hne & _ & _ & Hsep)%plain_name_spec. destruct name as [|x t]; [done |].
  rewrite contains_sep_cons in Hsep. rewrite startswith_sep.
  by apply orb_false_iff in Hsep as [-> _].
Qed.

Lemma plain_truthy (name : string) : plain_name name = true -> PyStr.truthy name = true.
Proof. intros (Hne & _)%plain_name_spec. by destruct name. Qed.

(** Joining one plain name to a path adds that name to its components. *)
Lemma canonical_join2 (A name : string) :
  PyStr.truthy A = true -> plain_name name = true ->
  canonical_components (PosixPath.join2 A name) = canonical_components A ++ [name].
Proof.
  intros HA Hname. unfold PosixPath.join2, canonical_components, PosixPath.sep.
  rewrite plain_not_abs, HA by done. cbn [negb orb].
  pose proof (plain_name_spec name Hname) as (_ & _ & _ & Hsep).
  destruct (PyStr.endswith_char "/" A) eqn:Hend.
  - destruct (split_endswith A name Hend Hsep) as (init & _ & -> & ->).
    rewrite !fold_left_app. cbn [fold_left].
    rewrite step_plain by done. done.
  - change ("/" +:+ name) with (String "/" name).
    rewrite split_app_sep, (split_no_sep name) by done.
    rewrite fold_left_app. cbn [fold_left]. by rewrite step_plain.
Qed.

Lemma canonical_join2_empty (cwd : string) :
  canonical_components (PosixPath.join2 cwd "") = canonical_components cwd.
Proof.
  unfold PosixPath.join2, canonical_components, PosixPath.sep.
  change (PyStr.startswith "/" "") with false. cbv iota.
  destruct (negb (PyStr.truthy cwd) || PyStr.endswith_char "/" cwd).
  - by rewrite append_nil_r.
  - change ("/" +:+ "") with (String "/" "").
    rewrite split_app_sep, fold_left_app. done.
Qed.

Lemma isabs_join2 (cwd p : string) :
  PosixPath.isabs cwd = true -> PosixPath.isabs p = false ->
  PosixPath.isabs (PosixPath.join2 cwd p) = true.
Proof.
  intros Hcwd Hp. unfold PosixPath.join2. unfold PosixPath.isabs in Hp. rewrite Hp.
  destruct (isabs_cons cwd Hcwd) as [t ->].
  destruct (_ || _); by rewrite append_cons.
Qed.

Lemma isabs_absolute (cwd p : string) :
  PosixPath.isabs cwd = true -> PosixPath.isabs (absolute cwd p) = true.
Proof.
  intros Hcwd. unfold absolute. destruct (PosixPath.isabs p) eqn:Hp; [done |].
  by apply isabs_join2.
Qed.

(** With an absolute working directory, the components [relpath] compares
    are those of the path joined to the working directory. *)
Lemma components_absolute (cwd p : string) :
  PosixPath.isabs cwd = true ->
  PosixPath.components cwd p = canonical_components (absolute cwd p).
Proof.
  intros Hcwd. unfold PosixPath.components, PosixPath.abspath.
  rewrite <- (normpath_abs (absolute cwd p)) by by apply isabs_absolute.
  unfold absolute. by destruct (PosixPath.isabs p).
Qed.

Lemma isabs_truthy (s : string) : PosixPath.isabs s = true -> PyStr.truthy s = true.
Proof. by intros [t ->]%isabs_cons. Qed.

(** Joining to the working directory and then a plain name is joining the
    name to the path first, whatever the path. *)
Lemma absolute_join2 (cwd root name : string) :
  PosixPath.isabs cwd = true -> plain_name name = true ->
  canonical_components (absolute cwd (PosixPath.join2 root name))
  = canonical_components (absolute cwd root) ++ [name].
Proof.
  intros Hcwd Hname.
  pose proof (plain_not_abs name Hname) as Hrel.
  pose proof (plain_truthy name Hname) as Htruthy.
  assert (name <> "") as Hne by by destruct name.
  destruct root as [|x t].
  - unfold absolute at 2. change (PosixPath.isabs "") with false. cbv iota.
    rewrite canonical_join2_empty.
    assert (PosixPath.join2 "" name = name) as ->.
    { unfold PosixPath.join2. by rewrite Hrel. }
    unfold absolute, PosixPath.isabs. rewrite Hrel.
    apply canonical_join2; [by apply isabs_truthy | done].
  - destruct (Ascii.eqb "/" x) eqn:Hx.
    + assert (PosixPath.isabs (String x t) = true) as Habs
        by (unfold PosixPath.isabs; by rewrite startswith_sep).
      assert (PosixPath.isabs (PosixPath.join2 (String x t) name) = true) as Habs'.
      { unfold PosixPath.join2. rewrite Hrel. unfold PosixPath.isabs.
        destruct (_ || _); by rewrite append_cons, startswith_sep. }
      unfold absolute. rewrite Habs, Habs'. by apply canonical_join2.
    + assert (PosixPath.isabs (String x t) = false) as Habs
        by (unfold PosixPath.isabs; by rewrite startswith_sep).
      assert (PosixPath.isabs (PosixPath.join2 (String x t) name) = false) as Habs'.
      { unfold PosixPath.join2. rewrite Hrel. unfold PosixPath.isabs.
        destruct (_ || _); by rewrite append_cons, startswith_sep. }
      unfold absolute. rewrite Habs, Habs'.
      assert (PosixPath.join2 cwd (PosixPath.join2 (String x t) name)
              = PosixPath.join2 (PosixPath.join2 cwd (String x t)) name) as ->.
      { unfold PosixPath.isabs in Habs, Habs'. unfold PosixPath.join2 at 1 3.
        rewrite Habs', Hrel. unfold PosixPath.join2.
        rewrite Hrel. unfold PosixPath.isabs in Habs. rewrite Habs.
        rewrite (isabs_truthy cwd Hcwd).
        change (PyStr.truthy (String x t)) with true. cbn [negb orb].
        destruct (PyStr.endswith_char PosixPath.sep cwd),
                 (PyStr.endswith_char PosixPath.sep (String x t)) eqn:Hend;
          rewrite ?endswith_char_app by done;
          rewrite ?(endswith_char_app _ _ ("/" +:+ String x t)) by done;
          change (PyStr.endswith_char PosixPath.sep ("/" +:+ String x t))
            with (PyStr.endswith_char PosixPath.sep (String x t));
          rewrite ?Hend, ?truthy_app_r by done; cbn [negb orb];
          by rewrite ?append_assoc. }
      apply canonical_join2; [| done].
      apply isabs_truthy. by apply isabs_join2.
Qed.

Lemma commonprefix_app (l k : list string) : PosixPath.commonprefix l (l ++ k) = l.
Proof.
  induction l as [|x l IH]; [by destruct k |].
  simpl. rewrite bool_decide_eq_true_2 by done. by rewrite IH.
Qed.

Lemma join2_truthy (root name : string) :
  PyStr.truthy name = true -> PyStr.truthy (PosixPath.join2 root name) = true.
Proof.
  intros Hname. unfold PosixPath.join2.
  destruct (PyStr.startswith "/" name); [done |].
  destruct (_ || _); [by apply truthy_app_r |].
  apply truthy_app_r. by apply truthy_app_r.
Qed.

(** The path of a plain name joined to a directory, relative to that
    directory, is the name: [relpath(join(root, name), root) == name],
    when the working directory is absolute. *)
Lemma relpath_child (cwd root name : string) :
  PosixPath.isabs cwd = true -> plain_name name = true ->
  PosixPath.relpath cwd (PosixPath.join2 root name) root = Some name.
Proof.
  intros Hcwd Hname. unfold PosixPath.relpath.
  rewrite join2_truthy by by apply plain_truthy. cbn [negb].
  rewrite !components_absolute by done. rewrite absolute_join2 by done.
  cbv zeta. rewrite commonprefix_app, Nat.sub_diag. simpl replicate.
  rewrite drop_app_length. done.
Qed.

End PathFacts.

Section NamedPaths.
Context `{Collaborators}.

Lemma play_cwd (evs : list Event) (w : World) : cwd (play evs w) = cwd w.
Proof.
  revert w. induction evs as [|ev evs IH]; intros w; simpl; [done |].
  rewrite IH. by destruct ev.
Qed.

Lemma set_fresh {V} (k : string) (v : V) (d : PyDict.t V) :
  k ∉ PyDict.keys d -> PyDict.set k v d = d ++ [(k, v)].
Proof.
  induction d as [|[k' v'] d IH]; simpl; intros Hk; [done |].
  apply not_elem_of_cons in Hk as [Hne Hk].
  rewrite bool_decide_eq_false_2 by done. by rewrite IH.
Qed.

(** One turn of the loop that returns: the entry's path is the save path
    relative to the predictor root, and the working directory stays. *)
Lemma export_named_model_Ok_path (ec : PredictorExportConfig) (mi : option InputArgs)
    (pp pt name : string) (m : Model) (w w' : World) (info : ModelInfo) :
  export_named_model ec mi pp pt name m w = (Ok info, w') ->
  cwd w' = cwd w /\
  PosixPath.relpath (cwd w) (PosixPath.join2 pp name) pp = Some (path info) /\
  type info = pt.
Proof.
  unfold export_named_model. intros Hrun.
  apply bind_Ok_inv in Hrun as (ia & w1 & Hia & Hrun).
  apply named_input_args_world in Hia as ->.
  apply bind_Ok_inv in Hrun as (meth & w1 & Hmeth & Hrun).
  apply named_export_method_world in Hmeth as [-> Hmeth].
  apply bind_Ok_inv in Hrun as (kw & w1 & Hkw & Hrun).
  apply named_export_kwargs_world in Hkw as ->.
  by apply export_single_model_Ok in Hrun as (ev & -> & _ & Hrel & Htype).
Qed.

(** The loop that returns, run with an absolute working directory over
    plain names: every entry's path is its name. *)
Lemma export_named_models_Ok_infos (ec : PredictorExportConfig)
    (mi : option InputArgs) (pp pt : string) (items : list (string * Model))
    (acc infos : PyDict.t ModelInfo) (w w' : World) :
  export_named_models ec mi pp pt items acc w = (Ok infos, w') ->
  PosixPath.isabs (cwd w) = true ->
  Forall (fun name => plain_name name = true) (PyDict.keys items) ->
  NoDup (PyDict.keys acc ++ PyDict.keys items) ->
  infos = acc ++ named_infos pt (PyDict.keys items).
Proof.
  revert acc w. induction items as [|[name m] items IH];
    intros acc w Hrun Hcwd Hnames Hnd; simpl in Hrun.
  - injection Hrun as <- _. simpl. by rewrite app_nil_r.
  - apply bind_Ok_inv in Hrun as (info & w1 & Hbody & Hrun).
    apply export_named_model_Ok_path in Hbody as (Hcwd1 & Hrel & Htype).
    simpl in Hnames. apply Forall_cons in Hnames as [Hname Hnames].
    rewrite relpath_child in Hrel by done. injection Hrel as Hpath.
    simpl in Hnd.
    assert (name ∉ PyDict.keys acc) as Hfresh.
    { apply NoDup_app in Hnd as (_ & Hdisj & _). intros Hin.
      apply (Hdisj name Hin). left. }
    apply IH in Hrun; [| by rewrite Hcwd1 | done |].
    + rewrite Hrun, set_fresh by done. rewrite <- app_assoc. simpl.
      destruct info as [ipath itype]. simpl in *. by subst.
    + rewrite keys_set_fresh by done. by rewrite <- app_assoc.
Qed.

(** X13. When the model of the Export Configuration is a mapping, the
    working directory is absolute and every name of the mapping is one plain
    path component, a run of [default_export_predictor] that returns has
    written a manifest whose entry under each name has that name as its
    path and the predictor type as its type, the entries in the order of
    the mapping: [os.path.relpath] undoes the [os.path.join] that made the
    save path. *)
Theorem named_models_saved_under_names (cfg : CfgNode) (pm : Model) (pt od : string)
    (dl : DataLoader) (w w' : World) (p : string) (b : Batch)
    (ec : PredictorExportConfig) (d : PyDict.t Model)
    (Hrun : default_export_predictor cfg pm pt od dl w = (Ok p, w'))
    (Hbatch : head dl = Some b)
    (Hconfig : model_prepare_for_export (record_event (IterNext dl) w) pm cfg b pt
               = Ok ec)
    (Hmodel : model ec = ModelDict d)
    (Hcwd : PosixPath.isabs (cwd w) = true)
    (Hnames : Forall (fun name => plain_name name = true) (PyDict.keys d))
    (Hwf : PyDict.wf d) :
  files w' !! manifest_path p =
    Some (PredictorInfo_to_dict
            {| pi_model := None;
               pi_models := Some (named_infos pt (PyDict.keys d));
               pi_preprocess_info := preprocess_info ec;
               pi_postprocess_info := postprocess_info ec;
               pi_run_func_info := run_func_info ec |}).
Proof.
  apply default_export_predictor_Ok in Hrun
    as (b' & ec' & mi & w3 & kwargs & pinfo & _ & Hb' & Hec' & _ & Hbody & Hnew & -> & ->).
  assert (b' = b) as -> by congruence. assert (ec' = ec) as -> by congruence.
  rewrite Hmodel in Hbody. destruct Hbody as (infos & Hloop & ->).
  rewrite PredictorInfo_new_models in Hnew. injection Hnew as <-.
  apply export_named_models_Ok_infos in Hloop; [| by rewrite play_cwd | done | done].
  simpl in Hloop. subst infos. apply files_apply_write.
Qed.

End NamedPaths.

Section CallArguments.
Context `{Collaborators}.

(** An export method that returns has made one export call, on the model,
    the inputs, the save path and the kwargs it was given. *)
Lemma ExportMethod_export_Ok_call (impl : ExportMethod) (m : Model)
    (ia : option InputArgs) (sp : string) (kwargs : PyDict.t pyval) (w w' : World)
    (load : pyval) :
  ExportMethod_export impl m ia sp kwargs w = (Ok load, w') ->
  exists ev, w' = record_event ev w /\ export_call_of m ia sp kwargs ev.
Proof.
  destruct impl; simpl; intros Hrun.
  - unfold DefaultCaffe2Export_export in Hrun.
    apply bind_Ok_inv in Hrun as (x & w1 & Hx & Hrun).
    apply bind_Ok_inv in Hrun as (u & w2 & Hcall & Hrun).
    apply call_inv in Hcall as [_ ->]. injection Hrun as _ <-.
    destruct ia as [[[|x0 xs]|?]|]; simpl in Hx; try discriminate.
    injection Hx as -> ->. eexists. split; [done |]. simpl. by eauto.
  - unfold DefaultTorchscriptExport_export in Hrun.
    apply bind_Ok_inv in Hrun as (u & w2 & Hcall & Hrun).
    apply call_inv in Hcall as [_ ->]. injection Hrun as _ <-. by eexists.
  - unfold DefaultTorchscriptMobileExport_export in Hrun.
    apply bind_Ok_inv in Hrun as (kw & w1 & Hkw & Hrun).
    pose proof (unpack_kwargs_world _ _ _ _ _ Hkw) as ->.
    unfold unpack_kwargs in Hkw. destruct (existsb _ _); [discriminate |].
    injection Hkw as <-.
    apply bind_Ok_inv in Hrun as (u & w2 & Hcall & Hrun).
    apply call_inv in Hcall as [_ ->]. injection Hrun as _ <-. by eexists.
  - apply call_inv in Hrun as [_ ->]. by eexists.
Qed.

(** One turn of the loop that returns: the export call was made on the
    sub-model, with the sample inputs and the kwargs under its name. *)
Lemma export_named_model_Ok_call (ec : PredictorExportConfig) (mi : option InputArgs)
    (pp pt name : string) (m : Model) (w w' : World) (info : ModelInfo) :
  export_named_model ec mi pp pt name m w = (Ok info, w') ->
  (mi <> None -> is_Some (sample_inputs mi name)) /\
  exists ev, w' = record_event ev w /\
             export_call_of m (sample_inputs mi name) (PosixPath.join2 pp name)
               (sample_kwargs ec name) ev.
Proof.
  unfold export_named_model. intros Hrun.
  apply bind_Ok_inv in Hrun as (ia & w1 & Hia & Hrun).
  pose proof (named_input_args_world _ _ _ _ _ Hia) as ->.
  assert (ia = sample_inputs mi name /\ (mi <> None -> is_Some ia)) as [-> Hsome].
  { unfold named_input_args, InputArgs_getitem in Hia.
    destruct mi as [[xs|d]|]; simpl in *; try discriminate.
    - rewrite bind_run in Hia. destruct (PyDict.get name d) as [v|]; [| discriminate].
      injection Hia as <-. by eauto.
    - by injection Hia as <-. }
  apply bind_Ok_inv in Hrun as (meth & w1 & Hmeth & Hrun).
  apply named_export_method_world in Hmeth as [-> Hmeth].
  apply bind_Ok_inv in Hrun as (kw & w1 & Hkw & Hrun).
  pose proof (named_export_kwargs_world _ _ _ _ _ Hkw) as ->.
  apply export_single_model_Ok_iff in Hrun
    as (_ & impl & kwargs & load & _ & Hunpack & Hexp & _).
  apply ExportMethod_export_Ok_call in Hexp as (ev & -> & Hev).
  split; [done |]. exists ev. split; [done |].
  assert (kwargs = sample_kwargs ec name) as <-; [| done].
  unfold named_export_kwargs, kwargs_getitem, sample_kwargs in *.
  unfold unpack_kwargs in Hunpack.
  destruct (model_export_kwargs ec) as [kwd|].
  - destruct (PyDict.get name kwd) as [v|]; [| discriminate].
    injection Hkw as <-. destruct v as [| | | |dk]; try discriminate.
    destruct (existsb _ _); [discriminate |]. by injection Hunpack.
  - injection Hkw as <-. simpl in Hunpack. by injection Hunpack.
Qed.

Lemma export_named_models_Ok_calls (ec : PredictorExportConfig) (mi : option InputArgs)
    (pp pt : string) (items : list (string * Model)) (acc infos : PyDict.t ModelInfo)
    (w w' : World) :
  export_named_models ec mi pp pt items acc w = (Ok infos, w') ->
  exists evs,
    w' = record_events evs w /\
    Forall2 (fun kv ev =>
               (mi <> None -> is_Some (sample_inputs mi kv.1)) /\
               export_call_of kv.2 (sample_inputs mi kv.1) (PosixPath.join2 pp kv.1)
                 (sample_kwargs ec kv.1) ev) items evs.
Proof.
  revert acc w. induction items as [|[name m] items IH]; intros acc w Hrun; simpl in Hrun.
  - injection Hrun as _ <-. exists []. by rewrite record_events_nil.
  - apply bind_Ok_inv in Hrun as (info & w1 & Hbody & Hrun).
    apply export_named_model_Ok_call in Hbody as (Hsome & ev & -> & Hev).
    apply IH in Hrun as (evs & -> & Hevs).
    exists (ev :: evs). rewrite record_events_cons. split; [done |].
    by constructor.
Qed.

(** X14. Every sub-model is exported with what is filed under its own
    name.  In a run of [default_export_predictor] that returns, on a
    configuration whose model is a mapping, the events between making the
    predictor root and writing the manifest are the export calls, one per
    pair (name, model) of the mapping and in its order: each on that model,
    saving to [root/name], with the sample inputs [model_inputs[name]]
    (none when there is no data generator) and the export kwargs
    [model_export_kwargs[name]] (none when there are no export kwargs). *)
Theorem sub_models_get_own_arguments (cfg : CfgNode) (pm : Model) (pt od : string)
    (dl : DataLoader) (w w' : World) (p : string) (b : Batch)
    (ec : PredictorExportConfig) (d : PyDict.t Model)
    (Hrun : default_export_predictor cfg pm pt od dl w = (Ok p, w'))
    (Hbatch : head dl = Some b)
    (Hconfig : model_prepare_for_export (record_event (IterNext dl) w) pm cfg b pt
               = Ok ec)
    (Hmodel : model ec = ModelDict d) :
  exists mi evs manifest,
    match data_generator ec with
    | Some g => exists x, g b = Ok x /\ mi = Some x
    | None => mi = None
    end /\
    trace w' = trace w ++ prologue cfg pm pt od dl b ec ++ evs
               ++ [WriteJson (manifest_path p) manifest] /\
    Forall2 (fun kv ev =>
               (mi <> None -> is_Some (sample_inputs mi kv.1)) /\
               export_call_of kv.2 (sample_inputs mi kv.1) (PosixPath.join2 p kv.1)
                 (sample_kwargs ec kv.1) ev) (PyDict.items d) evs.
Proof.
  apply default_export_predictor_Ok in Hrun
    as (b' & ec' & mi & w3 & kwargs & pinfo & _ & Hb' & Hec' & Hgen & Hbody & _ & -> & ->).
  assert (b' = b) as -> by congruence. assert (ec' = ec) as -> by congruence.
  rewrite Hmodel in Hbody. destruct Hbody as (infos & Hloop & _).
  apply export_named_models_Ok_calls in Hloop as (evs & -> & Hevs).
  exists mi, evs, (PredictorInfo_to_dict pinfo). split; [done |]. split; [| done].
  rewrite trace_apply_event, trace_record_events, play_trace.
  by rewrite <- !app_assoc.
Qed.

(** X15. A single model is exported with what the data generator made of
    the first batch.  In a run of [default_export_predictor] that returns,
    on a configuration with a single model, the one event between making
    the predictor root and writing the manifest is an export call on that
    model, saving to the predictor root, with the sample inputs
    [data_generator(inputs)] (none when there is no data generator) and the
    configuration's export kwargs (none when it has none). *)
Theorem single_model_gets_generated_inputs (cfg : CfgNode) (pm : Model) (pt od : string)
    (dl : DataLoader) (w w' : World) (p : string) (b : Batch)
    (ec : PredictorExportConfig) (m : Model)
    (Hrun : default_export_predictor cfg pm pt od dl w = (Ok p, w'))
    (Hbatch : head dl = Some b)
    (Hconfig : model_prepare_for_export (record_event (IterNext dl) w) pm cfg b pt
               = Ok ec)
    (Hsingle : model ec = SingleModel m) :
  exists mi ev manifest,
    match data_generator ec with
    | Some g => exists x, g b = Ok x /\ mi = Some x
    | None => mi = None
    end /\
    trace w' = trace w ++ prologue cfg pm pt od dl b ec
               ++ [ev; WriteJson (manifest_path p) manifest] /\
    export_call_of m mi p (default [] (model_export_kwargs ec)) ev.
Proof.
  apply default_export_predictor_Ok in Hrun
    as (b' & ec' & mi & w3 & kwargs & pinfo & _ & Hb' & Hec' & Hgen & Hbody & _ & -> & ->).
  assert (b' = b) as -> by congruence. assert (ec' = ec) as -> by congruence.
  rewrite Hsingle in Hbody. destruct Hbody as (info & Hexp & _).
  apply export_single_model_Ok_iff in Hexp
    as (_ & impl & kw & load & _ & Hunpack & Hexp & _).
  apply ExportMethod_export_Ok_call in Hexp as (ev & -> & Hev).
  exists mi, ev, (PredictorInfo_to_dict pinfo). split; [done |]. split.
  - rewrite trace_apply_event, trace_record_event, play_trace.
    by rewrite <- !app_assoc.
  - assert (kw = default [] (model_export_kwargs ec)) as <-; [| done].
    unfold kwargs_or, unpack_kwargs in Hunpack.
    destruct (model_export_kwargs ec) as [[|kv d]|]; cbn [PyDict.truthy default] in *.
    + by injection Hunpack.
    + destruct (existsb _ _); [discriminate |]. by injection Hunpack.
    + by injection Hunpack.
Qed.

End CallArguments.

Section EntryPoint.
Context `{Collaborators}.





End EntryPoint.

(** ** The further properties at work *)

Section FurtherWitnesses.
Existing Instance Fixture.collaborators.
Import Fixture.

Lemma sub_models_exported_in_order_witness :
  exists evs later,
    trace (default_export_predictor cfg two_part_model "torchscript" "out" loader world).2
    = trace world ++ evs /\
    map (PosixPath.join2 (PosixPath.join2 "out" "torchscript")) ["backbone"; "head"]
    = export_save_paths evs ++ later /\
    (forall p,
       (default_export_predictor cfg two_part_model "torchscript" "out" loader world).1
       = Ok p -> later = []).
Proof.
  exact (sub_models_exported_in_order cfg two_part_model "torchscript" "out" loader world
           (BatchObj 0) (config two_parts None) [("backbone", backbone); ("head", head)]
           eq_refl eq_refl eq_refl).
Defined.

Lemma named_models_saved_under_names_witness :
  let run := default_export_predictor cfg two_part_model "torchscript" "out" loader world in
  run.1 = Ok "out/torchscript" /\
  files run.2 !! manifest_path "out/torchscript" =
    Some (PredictorInfo_to_dict
            {| pi_model := None;
               pi_models :=
                 Some [("backbone", {| path := "backbone"; type := "torchscript" |});
                       ("head", {| path := "head"; type := "torchscript" |})];
               pi_preprocess_info := func "IdentityPreprocess";
               pi_postprocess_info := func "IdentityPostprocess";
               pi_run_func_info := func "NaiveRunFunc" |}).
Proof.
  intros run.
  assert (run = (Ok "out/torchscript", run.2)) as Hrun by (vm_compute; reflexivity).
  split; [by rewrite Hrun |].
  assert (Forall (fun name => plain_name name = true)
            (PyDict.keys [("backbone", backbone); ("head", head)])) as Hnames
    by (repeat constructor).
  assert (PyDict.wf [("backbone", backbone); ("head", head)]) as Hwf
    by (unfold PyDict.wf; compute_done).
  exact (named_models_saved_under_names cfg two_part_model "torchscript" "out" loader
           world run.2 "out/torchscript" (BatchObj 0) (config two_parts None)
           [("backbone", backbone); ("head", head)] Hrun eq_refl eq_refl eq_refl eq_refl
           Hnames Hwf).
Defined.

Lemma unregistered_method_raises_witness :
  Registry.obj_map (registry world) !! "onnx" = None /\
  default_export_predictor cfg plain_model "onnx" "out" loader world
  = (Raise (KeyError (KeyStr "onnx")),
     play [IterNext loader; PrepareForExport plain_model cfg (BatchObj 0) "onnx";
           Mkdirs "out/onnx"] world).
Proof.
  assert (Registry.obj_map (registry world) !! "onnx" = None) as Hkey
    by (vm_compute; reflexivity).
  split; [exact Hkey |].
  exact (proj1 (unregistered_method_raises cfg plain_model "onnx" "out" loader world
                  (BatchObj 0) (config (SingleModel plain_model) None) plain_model "onnx"
                  eq_refl eq_refl eq_refl eq_refl eq_refl eq_refl eq_refl Hkey)).
Defined.

Lemma caffe2_without_inputs_raises_witness :
  Registry.obj_map (registry world) !! "caffe2" = Some DefaultCaffe2Export /\
  default_export_predictor cfg plain_model "caffe2" "out" loader world
  = (Raise TypeError,
     play [IterNext loader; PrepareForExport plain_model cfg (BatchObj 0) "caffe2";
           Mkdirs "out/caffe2"] world).
Proof.
  assert (Registry.obj_map (registry world) !! "caffe2" = Some DefaultCaffe2Export)
    as Hkey by (vm_compute; reflexivity).
  split; [exact Hkey |].
  exact (caffe2_without_inputs_raises cfg plain_model "caffe2" "out" loader world
           (BatchObj 0) (config (SingleModel plain_model) None) plain_model "caffe2"
           eq_refl eq_refl eq_refl eq_refl eq_refl eq_refl eq_refl eq_refl Hkey).
Defined.

Lemma named_kwargs_required_witness :
  let ec :=
    {| model := two_parts; data_generator := None; model_export_method := None;
       model_export_kwargs := Some [("backbone", PyMapping [])];
       preprocess_info := func "IdentityPreprocess";
       postprocess_info := func "IdentityPostprocess";
       run_func_info := func "NaiveRunFunc" |} in
  export_named_model ec None "out/torchscript" "torchscript" "head" head world
  = (Raise (KeyError (KeyStr "head")), world).
Proof.
  intros ec.
  exact (proj1 (named_kwargs_required ec [("backbone", backbone); ("head", head)]
                  [("backbone", PyMapping [])] eq_refl eq_refl)
           "head" None "out/torchscript" "torchscript" head world None
           (MethodStr "torchscript") eq_refl eq_refl eq_refl).
Defined.

Lemma imported_registry_keys_witness :
  Registry.get "torchscript_mobile" ModelExportMethodRegistry
  = Ok DefaultTorchscriptMobileExport /\
  Registry.get "onnx" ModelExportMethodRegistry = Raise (KeyError (KeyStr "onnx")).
Proof.
  split.
  - apply (proj1 (imported_registry_keys "torchscript_mobile")).
    unfold module_registrations. do 8 right. left.
  - apply (proj2 (imported_registry_keys "onnx")). compute_done.
Defined.

Lemma imported_exports_return_dict_witness :
  Registry.get "torchscript" ModelExportMethodRegistry = Ok DefaultTorchscriptExport /\
  ExportMethod_export DefaultTorchscriptExport head None "out/torchscript/head" [] world
  = (Ok (PyMapping []),
     record_event (TraceAndSaveTorchscript head None "out/torchscript/head" false [])
       world) /\
  isinstance_dict (PyMapping []) = true.
Proof.
  assert (Registry.get "torchscript" ModelExportMethodRegistry
          = Ok DefaultTorchscriptExport) as Hkey by (vm_compute; reflexivity).
  assert (ExportMethod_export DefaultTorchscriptExport head None "out/torchscript/head"
            [] world
          = (Ok (PyMapping []),
             record_event
               (TraceAndSaveTorchscript head None "out/torchscript/head" false []) world))
    as Hexport by reflexivity.
  split; [exact Hkey |]. split; [exact Hexport |].
  exact (proj1 (proj2 (imported_exports_return_dict "torchscript"
                         DefaultTorchscriptExport head None "out/torchscript/head" []
                         world _ (PyMapping []) Hkey Hexport))).
Defined.

Lemma ptq_output_converted_and_exported_witness :
  PyStr.contains "int8" "torchscript_int8" = true /\
  convert_and_export_predictor cfg plain_model "torchscript_int8" "out" loader world
  = export_predictor cfg plain_model "torchscript_int8" "out" loader
      (record_event (Log INFO (quantized_message plain_model))
         (record_event (ConvertFx plain_model)
            (record_event (Log INFO (converting_message cfg))
               (record_event (PostTrainingQuantize cfg plain_model loader)
                  (record_event (Log INFO ptq_message) world))))).
Proof.
  split; [reflexivity |].
  exact (ptq_output_converted_and_exported cfg plain_model plain_model "torchscript_int8"
           "out" loader world eq_refl eq_refl eq_refl eq_refl).
Defined.

Lemma sub_models_get_own_arguments_witness :
  let run := default_export_predictor cfg two_part_model "torchscript" "out" loader world in
  run.1 = Ok "out/torchscript" /\
  exists evs manifest,
    trace run.2
    = trace world
      ++ prologue cfg two_part_model "torchscript" "out" loader (BatchObj 0)
           (config two_parts None)
      ++ evs ++ [WriteJson (manifest_path "out/torchscript") manifest] /\
    Forall2 (fun kv ev => export_call_of kv.2 None (PosixPath.join2 "out/torchscript" kv.1)
                            [] ev)
      [("backbone", backbone); ("head", head)] evs.
Proof.
  intros run.
  assert (run = (Ok "out/torchscript", run.2)) as Hrun by (vm_compute; reflexivity).
  split; [by rewrite Hrun |].
  destruct (sub_models_get_own_arguments cfg two_part_model "torchscript" "out" loader
              world run.2 "out/torchscript" (BatchObj 0) (config two_parts None)
              [("backbone", backbone); ("head", head)] Hrun eq_refl eq_refl eq_refl)
    as (mi & evs & manifest & Hmi & Htrace & Hcalls).
  simpl in Hmi. subst mi. exists evs, manifest. split; [exact Htrace |].
  eapply Forall2_impl; [exact Hcalls |]. intros kv ev [_ Hcall]. exact Hcall.
Defined.

Lemma single_model_gets_generated_inputs_witness :
  let run := default_export_predictor cfg plain_model "torchscript" "out" loader world in
  run.1 = Ok "out/torchscript" /\
  exists ev manifest,
    trace run.2
    = trace world
      ++ prologue cfg plain_model "torchscript" "out" loader (BatchObj 0)
           (config (SingleModel plain_model) None)
      ++ [ev; WriteJson (manifest_path "out/torchscript") manifest] /\
    export_call_of plain_model None "out/torchscript" [] ev.
Proof.
  intros run.
  assert (run = (Ok "out/torchscript", run.2)) as Hrun by (vm_compute; reflexivity).
  split; [by rewrite Hrun |].
  destruct (single_model_gets_generated_inputs cfg plain_model "torchscript" "out" loader
              world run.2 "out/torchscript" (BatchObj 0)
              (config (SingleModel plain_model) None) plain_model
              Hrun eq_refl eq_refl eq_refl)
    as (mi & ev & manifest & Hmi & Htrace & Hcall).
  simpl in Hmi. subst mi. by exists ev, manifest.
Defined.


End FurtherWitnesses.

Section FurtherWitnesses2.
Existing Instance Fixture2.collaborators.

Lemma non_dict_load_kwargs_raises_witness :
  Registry.get "broken" (registry Fixture2.world) = Ok (CustomExport 0) /\
  _export_single_model "out/broken" Fixture.plain_model None "out/broken"
    (MethodStr "broken") (PyMapping []) "broken" Fixture2.world
  = (Raise (AssertionError None),
     record_event (CustomExportCall 0 Fixture.plain_model None "out/broken" [])
       Fixture2.world).
Proof.
  assert (Registry.get "broken" (registry Fixture2.world) = Ok (CustomExport 0)) as Hkey
    by (vm_compute; reflexivity).
  split; [exact Hkey |].
  exact (proj1 (non_dict_load_kwargs_raises "out/broken" Fixture.plain_model None
                  "out/broken" "broken" [] "broken" Fixture2.world _ (CustomExport 0)
                  PyNone eq_refl Hkey eq_refl eq_refl eq_refl)).
Defined.

Lemma qat_model_converted_directly_witness :
  PyStr.contains "int8" "torchscript_int8" = true /\
  convert_and_export_predictor Fixture2.qat_cfg Fixture.plain_model "torchscript_int8"
    "out" Fixture.loader Fixture2.world
  = export_predictor Fixture2.qat_cfg (ModelObj 21) "torchscript_int8" "out"
      Fixture.loader
      (record_event (Log INFO (quantized_message (ModelObj 21)))
         (record_event (QuantizationConvert Fixture.plain_model)
            (record_event (Log INFO (converting_message Fixture2.qat_cfg))
               Fixture2.world))).
Proof.
  split; [reflexivity |].
  exact (qat_model_converted_directly Fixture2.qat_cfg Fixture.plain_model
           "torchscript_int8" "out" Fixture.loader Fixture2.world eq_refl eq_refl).
Defined.


End FurtherWitnesses2.
